(** * commit-emails-bot: a shallow embedding of the webhook pipeline

    The development follows the Go sources [mailbot.go] and [config.go].
    [mailbot.go] is present in two revisions: the current one (GitHub App,
    go-github, TOML configuration) and an earlier one (hand-written HMAC
    check, JSON configuration, local [syncRepo]).  The current revision is
    embedded in the modules [config] and [mailbot]; the earlier one in the
    module [legacy].

    A handler is a computation in a state monad with panics over the
    process state [Proc]: the file system, the HTTP response, the log,
    standard output, the notifier runs and the calls to the statistics
    store.  Calls that leave the program ([git], the notifier script, the
    TOML and JSON decoders, go-github, [os.Stat]) are oracles collected in
    a [World] record; what the handlers themselves do is written out.  The
    Go library functions whose behaviour the claims turn on are modelled in
    full: [filepath.Join] and [filepath.Clean], [fmt.Sscanf] on the format
    of the signature header, [crypto/sha256] and [crypto/hmac].

    The file has two parts: the embedding, then the properties.  The
    statements named C1 to C10 settle the claims about the program. *)

From Stdlib Require Import String Ascii List ZArith NArith Lia Bool.
Import ListNotations.
Local Open Scope string_scope.
Local Open Scope list_scope.

Set Implicit Arguments.

(** String append written [+++] so that [++] stays list append. *)
Infix "+++" := String.append (at level 60, right associativity).

(* ================================================================== *)
(** ** Strings as Go uses them *)

Module gostrings.

(** [strings.Split(s, "/")]: never empty, one more field than slashes. *)
Fixpoint Split (s : string) : list string :=
  match s with
  | EmptyString => [EmptyString]
  | String c s' =>
      if Ascii.eqb c "/" then EmptyString :: Split s'
      else match Split s' with
           | h :: t => String c h :: t
           | [] => [String c EmptyString]
           end
  end.

(** [strings.Join(elems, sep)]. *)
Definition Join (elems : list string) (sep : string) : string :=
  String.concat sep elems.

(** [s[:n]] when it is in range; Go panics when [n > len(s)]. *)
Fixpoint slice_to (n : nat) (s : string) : option string :=
  match n with
  | O => Some EmptyString
  | S n' =>
      match s with
      | EmptyString => None
      | String c s' =>
          match slice_to n' s' with
          | Some r => Some (String c r)
          | None => None
          end
      end
  end.

(** The first [n] bytes of [s], all of [s] when it is shorter. *)
Fixpoint take (n : N) (s : string) : string :=
  match s with
  | EmptyString => EmptyString
  | String c s' =>
      if N.eqb n 0 then EmptyString else String c (take (N.pred n) s')
  end.

(** [n] copies of the byte [c]. *)
Definition repeat_byte (c : ascii) (n : N) : string :=
  N.iter n (String c) EmptyString.

End gostrings.

(* ================================================================== *)
(** ** [path/filepath] on a Unix host *)

Module filepath.

(** The state of [Clean]'s output buffer, by path element: whether the
    path is rooted, how many leading [..] elements were kept, and the
    real elements written so far (last one first). *)
Record cleaner : Type := mkCleaner {
  rooted : bool;
  dotdot : nat;
  elems : list string
}.

(** One iteration of the loop of [Clean], on the element [e]. *)
Definition step (st : cleaner) (e : string) : cleaner :=
  if String.eqb e "" then st
  else if String.eqb e "." then st
  else if String.eqb e ".." then
    match elems st with
    | _ :: tl => mkCleaner (rooted st) (dotdot st) tl
    | [] =>
        if rooted st then st
        else mkCleaner false (S (dotdot st)) []
    end
  else mkCleaner (rooted st) (dotdot st) (e :: elems st).

Definition body (st : cleaner) : string :=
  gostrings.Join (repeat ".." (dotdot st) ++ rev (elems st)) "/".

Definition render (st : cleaner) : string :=
  if rooted st then "/" +++ body st
  else if String.eqb (body st) "" then "." else body st.

Definition is_rooted (path : string) : bool :=
  match path with
  | String c _ => Ascii.eqb c "/"
  | EmptyString => false
  end.

(** [filepath.Clean]. *)
Definition Clean (path : string) : string :=
  if String.eqb path "" then "."
  else render (fold_left step (gostrings.Split path)
                         (mkCleaner (is_rooted path) 0 [])).

Fixpoint drop_empty (elem : list string) : list string :=
  match elem with
  | e :: rest => if String.eqb e "" then drop_empty rest else elem
  | [] => []
  end.

(** [filepath.Join]: the elements from the first non-empty one on are
    joined with the separator and cleaned. *)
Definition Join (elem : list string) : string :=
  match drop_empty elem with
  | [] => ""
  | l => Clean (gostrings.Join l "/")
  end.

(** A full name all of whose elements are real ones: none empty, none
    [.] or [..]. *)
Definition real_elem (e : string) : bool :=
  negb (String.eqb e "") && negb (String.eqb e ".") && negb (String.eqb e "..").

Definition plain (name : string) : bool :=
  forallb real_elem (gostrings.Split name).

End filepath.

(** The mirror directory of a repository, as both revisions compute it
    ([filepath.Join(persistPath, "repos", "github.com", fullName)]). *)
Definition repoDir (persistPath fullName : string) : string :=
  filepath.Join [persistPath; "repos"; "github.com"; fullName].

(* ================================================================== *)
(** ** [crypto/sha256] and [crypto/hmac]

    32-bit words are integers with the wrap-around written out; a byte
    string is a [string], one character per byte. *)

Module sha256.
Local Open Scope Z_scope.

Definition BlockSize : nat := 64.

Definition u32 (x : Z) : Z := x mod 2 ^ 32.

(** [bits.RotateLeft32(x, -n)]. *)
Definition rotr (x n : Z) : Z :=
  Z.lor (Z.shiftr x n) (u32 (Z.shiftl x (32 - n))).

(** The round constants, in decimal (the first is [0x428a2f98], the last
    [0xc67178f2]). *)
Definition _K : list Z :=
  [
    1116352408; 1899447441; 3049323471; 3921009573; 961987163; 1508970993;
    2453635748; 2870763221; 3624381080; 310598401; 607225278; 1426881987;
    1925078388; 2162078206; 2614888103; 3248222580; 3835390401; 4022224774;
    264347078; 604807628; 770255983; 1249150122; 1555081692; 1996064986;
    2554220882; 2821834349; 2952996808; 3210313671; 3336571891; 3584528711;
    113926993; 338241895; 666307205; 773529912; 1294757372; 1396182291;
    1695183700; 1986661051; 2177026350; 2456956037; 2730485921; 2820302411;
    3259730800; 3345764771; 3516065817; 3600352804; 4094571909; 275423344;
    430227734; 506948616; 659060556; 883997877; 958139571; 1322822218;
    1537002063; 1747873779; 1955562222; 2024104815; 2227730452; 2361852424;
    2428436474; 2756734187; 3204031479; 3329325298 ].

(** The eight chaining words [h0 .. h7]. *)
Definition digest : Type := (Z * Z * Z * Z * Z * Z * Z * Z)%type.

Definition init : digest :=
  (1779033703, 3144134277, 1013904242, 2773480762,
   1359893119, 2600822924, 528734635, 1541459225).

Definition byte_of (c : ascii) : Z := Z.of_N (N_of_ascii c).
Definition char_of (b : Z) : ascii := ascii_of_N (Z.to_N (b mod 256)).

Definition bytes (s : string) : list Z := map byte_of (list_ascii_of_string s).
Definition of_bytes (l : list Z) : string :=
  string_of_list_ascii (map char_of l).

(** The sixteen big-endian words of one 64-byte chunk. *)
Fixpoint words (p : list Z) : list Z :=
  match p with
  | b0 :: b1 :: b2 :: b3 :: rest =>
      Z.lor (Z.lor (Z.lor (Z.shiftl b0 24) (Z.shiftl b1 16)) (Z.shiftl b2 8)) b3
        :: words rest
  | _ => []
  end.

(** The loop [for i := 16; i < 64; i++] that fills the schedule [w]. *)
Fixpoint extend (n : nat) (w : list Z) : list Z :=
  match n with
  | O => w
  | S n' =>
      let i := length w in
      let v1 := nth (i - 2) w 0 in
      let t1 := Z.lxor (Z.lxor (rotr v1 17) (rotr v1 19)) (Z.shiftr v1 10) in
      let v2 := nth (i - 15) w 0 in
      let t2 := Z.lxor (Z.lxor (rotr v2 7) (rotr v2 18)) (Z.shiftr v2 3) in
      extend n' (w ++ [u32 (t1 + nth (i - 7) w 0 + t2 + nth (i - 16) w 0)])
  end.

(** One round of the compression loop. *)
Definition round (st : digest) (kw : Z * Z) : digest :=
  let '(a, b, c, d, e, f, g, h) := st in
  let '(k, w) := kw in
  let t1 := u32 (h + Z.lxor (Z.lxor (rotr e 6) (rotr e 11)) (rotr e 25)
                   + Z.lxor (Z.land e f) (Z.land (Z.lxor e 0xffffffff) g)
                   + k + w) in
  let t2 := u32 (Z.lxor (Z.lxor (rotr a 2) (rotr a 13)) (rotr a 22)
                 + Z.lxor (Z.lxor (Z.land a b) (Z.land a c)) (Z.land b c)) in
  (u32 (t1 + t2), a, b, c, u32 (d + t1), e, f, g).

(** [blockGeneric] on one chunk. *)
Definition block (dig : digest) (chunk : list Z) : digest :=
  let w := extend 48 (words chunk) in
  let '(a, b, c, d, e, f, g, h) := fold_left round (combine _K w) dig in
  let '(h0, h1, h2, h3, h4, h5, h6, h7) := dig in
  (u32 (h0 + a), u32 (h1 + b), u32 (h2 + c), u32 (h3 + d),
   u32 (h4 + e), u32 (h5 + f), u32 (h6 + g), u32 (h7 + h)).

(** [blockGeneric] on all the chunks of [p]; [fuel] bounds their number. *)
Fixpoint blocks (fuel : nat) (dig : digest) (p : list Z) : digest :=
  match fuel with
  | O => dig
  | S fuel' =>
      match p with
      | [] => dig
      | _ => blocks fuel' (block dig (firstn BlockSize p)) (skipn BlockSize p)
      end
  end.

(** [n] as [k] big-endian bytes. *)
Fixpoint be_bytes (k : nat) (n : Z) : list Z :=
  match k with
  | O => []
  | S k' => be_bytes k' (Z.shiftr n 8) ++ [n mod 256]
  end.

(** The padding of [checkSum]: [0x80], zeros up to 56 modulo 64, then
    the length in bits on eight bytes. *)
Definition padding (len : nat) : list Z :=
  let r := Nat.modulo len 64 in
  let zeros := if Nat.ltb r 56 then (55 - r)%nat else (119 - r)%nat in
  0x80 :: repeat 0 zeros ++ be_bytes 8 (Z.of_nat len * 8).

Definition serialize (dig : digest) : list Z :=
  let '(h0, h1, h2, h3, h4, h5, h6, h7) := dig in
  flat_map (be_bytes 4) [h0; h1; h2; h3; h4; h5; h6; h7].

(** [sha256.Sum256]. *)
Definition Sum256 (data : string) : string :=
  let p := bytes data in
  let padded := p ++ padding (length p) in
  of_bytes (serialize (blocks (S (Nat.div (length padded) 64)) init padded)).

End sha256.

Module hmac.

Definition xor_with (pad : Z) (s : string) : string :=
  sha256.of_bytes (map (fun b => Z.lxor b pad) (sha256.bytes s)).

(** The key as [hmac.New] lays it out in a block: hashed when longer than
    a block, then filled with zero bytes. *)
Definition block_key (key : string) : string :=
  let k := if Nat.ltb sha256.BlockSize (String.length key)
           then sha256.Sum256 key else key in
  k +++ sha256.of_bytes (repeat 0%Z (sha256.BlockSize - String.length k)).

(** [h := hmac.New(sha256.New, key); h.Write(data); h.Sum(nil)]. *)
Definition Sum (key data : string) : string :=
  let k := block_key key in
  sha256.Sum256 (xor_with 0x5c k +++ sha256.Sum256 (xor_with 0x36 k +++ data)).

(** [hmac.Equal]: equality of byte strings (in constant time). *)
Definition Equal (mac1 mac2 : string) : bool := String.eqb mac1 mac2.

End hmac.

(** Lower-case hexadecimal, as GitHub writes the digest in the header. *)
Module hex.

Definition digit (n : N) : ascii :=
  if (n <? 10)%N then ascii_of_N (48 + n) else ascii_of_N (87 + n).

Fixpoint EncodeToString (s : string) : string :=
  match s with
  | EmptyString => EmptyString
  | String c s' =>
      let n := N_of_ascii c in
      String (digit (n / 16)) (String (digit (n mod 16)) (EncodeToString s'))
  end.

End hex.

(* ================================================================== *)
(** ** Go errors *)

(** The dynamic types of [error] values that the program tells apart:
    [MissingConfigError] (config.go), [*exec.ExitError], and plain
    messages ([errors.New], [fmt.Errorf] without [%w]). *)
Inductive error : Type :=
| MissingConfigError
| ExitError (state stderr : string)
| errorString (msg : string).

(** The method [Error()]. *)
Definition Error (e : error) : string :=
  match e with
  | MissingConfigError => "no commit-emails.toml found"
  | ExitError state _ => state
  | errorString msg => msg
  end.

(* ================================================================== *)
(** ** [fmt.Sscanf(sig, "sha256=%x", &expectedHash)] *)

Module fmt.
Local Open Scope N_scope.

Definition hexDigit (d : ascii) : option N :=
  let digit := N_of_ascii d in
  if (48 <=? digit) && (digit <=? 57) then Some (digit - 48)
  else if (97 <=? digit) && (digit <=? 102) then Some (10 + digit - 97)
  else if (65 <=? digit) && (digit <=? 70) then Some (10 + digit - 65)
  else None.

(** The table [space] of scan.go, by UTF-8 encoding: one-byte runes
    other than newline, two-byte runes, three-byte runes. *)
Definition space1 (c : ascii) : bool :=
  let n := N_of_ascii c in
  (n =? 9) || (n =? 11) || (n =? 12) || (n =? 13) || (n =? 32).

Definition space2 (c1 c2 : ascii) : bool :=
  (N_of_ascii c1 =? 0xC2)
  && ((N_of_ascii c2 =? 0x85) || (N_of_ascii c2 =? 0xA0)).

Definition space3 (c1 c2 c3 : ascii) : bool :=
  let n1 := N_of_ascii c1 in
  let n2 := N_of_ascii c2 in
  let n3 := N_of_ascii c3 in
  ((n1 =? 0xE1) && (n2 =? 0x9A) && (n3 =? 0x80))
  || ((n1 =? 0xE2) && (n2 =? 0x80)
      && (((0x80 <=? n3) && (n3 <=? 0x8A))
          || (n3 =? 0xA8) || (n3 =? 0xA9) || (n3 =? 0xAF)))
  || ((n1 =? 0xE2) && (n2 =? 0x81) && (n3 =? 0x9F))
  || ((n1 =? 0xE3) && (n2 =? 0x80) && (n3 =? 0x80)).

(** [ss.SkipSpace] with [nlIsSpace = false]: a newline is an error. *)
Fixpoint SkipSpace (s : string) : string + error :=
  match s with
  | EmptyString => inl s
  | String c r1 =>
      if N_of_ascii c =? 10 then inr (errorString "unexpected newline")
      else if space1 c then SkipSpace r1
      else match r1 with
           | String c2 r2 =>
               if space2 c c2 then SkipSpace r2
               else match r2 with
                    | String c3 r3 =>
                        if space3 c c2 c3 then SkipSpace r3 else inl s
                    | EmptyString => inl s
                    end
           | EmptyString => inl s
           end
  end.

(** [ss.advance] on a format made of literal bytes only. *)
Fixpoint advance (format input : string) : string + error :=
  match format with
  | EmptyString => inl input
  | String fmtc format' =>
      match input with
      | EmptyString => inr (errorString "unexpected EOF")
      | String inputc input' =>
          if Ascii.eqb fmtc inputc then advance format' input'
          else inr (errorString "input does not match format")
      end
  end.

(** [ss.hexString]: hex pairs up to the first byte that is not a hex
    digit; a lone hex digit is an error. *)
Fixpoint hexString (s : string) : string + error :=
  match s with
  | EmptyString => inl EmptyString
  | String rune1 r1 =>
      match hexDigit rune1 with
      | None => inl EmptyString
      | Some value1 =>
          match r1 with
          | EmptyString => inr (errorString "unexpected EOF")
          | String rune2 r2 =>
              match hexDigit rune2 with
              | None => inr (errorString "illegal hex digit")
              | Some value2 =>
                  match hexString r2 with
                  | inl buf =>
                      inl (String (ascii_of_N (N.lor (N.shiftl value1 4) value2)) buf)
                  | inr e => inr e
                  end
              end
          end
      end
  end.

(** The whole call: [inl hash] when it returns [n = 1], [inr err] when it
    returns [n = 0].  An input that ends inside the literal part of the
    format is [io.ErrUnexpectedEOF]; one that ends in front of the operand
    is [io.EOF]. *)
Definition Sscanf_sha256 (str : string) : string + error :=
  match advance "sha256=" str with
  | inr e => inr e
  | inl rest =>
      match SkipSpace rest with
      | inr e => inr e
      | inl EmptyString => inr (errorString "EOF")
      | inl rest' =>
          match hexString rest' with
          | inr e => inr e
          | inl EmptyString => inr (errorString "no hex data for %x string")
          | inl buf => inl buf
          end
      end
  end.

End fmt.

(* ================================================================== *)
(** ** The parts of go-github's event types that the handlers read.
    A Go pointer field is an [option]; [None] is [nil]. *)

Module github.

Record User : Type := { Login : option string }.

Record Installation : Type := {
  ID : option Z;
  Account : option User
}.

Record CommitAuthor : Type := { Name : option string }.

Record HeadCommit : Type := { Committer : option CommitAuthor }.

Record PushEventRepository : Type := {
  FullName : option string;
  HTMLURL : option string
}.

Record PushEvent : Type := {
  Ref : option string;
  Before : option string;
  After : option string;
  Head : option HeadCommit;          (* field [HeadCommit] *)
  Repo : option PushEventRepository;
  Inst : option Installation         (* field [Installation] *)
}.

Record InstallationEvent : Type := {
  Action : option string;
  EvInst : option Installation       (* field [Installation] *)
}.

(** What [ParseWebHook] hands back, by dynamic type. *)
Inductive Event : Type :=
| Ping
| Push (event : PushEvent)
| InstallationEv (event : InstallationEvent)
| InstallationRepositoriesEv (event : InstallationEvent)
| Other.

(** The nil-safe getters. *)
Definition GetString (p : option string) : string :=
  match p with Some s => s | None => "" end.

Definition GetFullName (r : option PushEventRepository) : string :=
  match r with Some r => GetString (FullName r) | None => "" end.

Definition GetID (i : option Installation) : Z :=
  match i with
  | Some i => match ID i with Some id => id | None => 0%Z end
  | None => 0%Z
  end.

Definition GetLogin (i : option Installation) : string :=
  match i with
  | Some i => match Account i with Some u => GetString (Login u) | None => "" end
  | None => ""
  end.

End github.

(* ================================================================== *)
(** ** The process: what a handler can observe and change *)

(** An [exec.Cmd] at the moment it is run. *)
Record Invocation : Type := {
  path : string;
  args : list string;
  stdin : string;
  env : list string
}.

Inductive Level : Type := INFO | WARN | ERROR.

Inductive LogEntry : Type :=
| Slog (level : Level) (msg : string) (attrs : list (string * string))
| Printf (line : string).

(** Calls into the statistics store, in order. *)
Inductive DbOp : Type :=
| AddPush (event : github.PushEvent)
| AddInstallation (event : github.InstallationEvent)
| UpdateInstallation (event : github.InstallationEvent).

(** [fs] is the state of the file system (the mirrors); [status] and
    [body] are the [http.ResponseWriter] ([status = None] until the header
    is written); [execs] lists the notifier runs, oldest first. *)
Record Proc (FS : Type) : Type := mkProc {
  fs : FS;
  status : option Z;
  body : string;
  logs : list LogEntry;
  stdout : string;
  execs : list Invocation;
  db : list DbOp
}.

Definition start {FS : Type} (disk : FS) : Proc FS :=
  mkProc disk None "" [] "" [] [].

(** How a handler ends: it returns, or it panics (net/http recovers the
    panic and drops the connection; what was done before stays done). *)
Inductive outcome (A : Type) : Type :=
| Returns (a : A)
| Panics (why : string).
Arguments Panics {A} why.

Definition M (St A : Type) : Type := St -> outcome A * St.

Definition ret {St A : Type} (a : A) : M St A := fun s => (Returns a, s).

Definition bind {St A B : Type} (c : M St A) (k : A -> M St B) : M St B :=
  fun s =>
    match c s with
    | (Returns a, s') => k a s'
    | (Panics why, s') => (Panics why, s')
    end.

Definition panic {St A : Type} (why : string) : M St A :=
  fun s => (Panics why, s).

Notation "x <- c ;; k" := (bind c (fun x => k))
  (at level 61, c at next level, right associativity).
Notation "c ;; k" := (bind c (fun _ => k))
  (at level 61, right associativity).

(** [*p]. *)
Definition deref {St A : Type} (p : option A) : M St A :=
  match p with
  | Some a => ret a
  | None => panic "runtime error: invalid memory address or nil pointer dereference"
  end.

(** [s[:8]]. *)
Definition first8 {St : Type} (s : string) : M St string :=
  match gostrings.slice_to 8 s with
  | Some r => ret r
  | None => panic "runtime error: slice bounds out of range"
  end.

Section effects.
Context {FS : Type}.

Definition WriteHeader (code : Z) : M (Proc FS) unit := fun p =>
  (Returns tt,
   match status p with
   | None => mkProc (fs p) (Some code) (body p) (logs p) (stdout p) (execs p) (db p)
   | Some _ => p
   end).

(** [w.Write(data)]: the first write sends the header with status 200. *)
Definition Write (data : string) : M (Proc FS) unit :=
  WriteHeader 200 ;;
  fun p => (Returns tt,
            mkProc (fs p) (status p) (body p +++ data) (logs p) (stdout p)
                   (execs p) (db p)).

(** [http.Error(w, msg, code)]. *)
Definition http_Error (msg : string) (code : Z) : M (Proc FS) unit :=
  WriteHeader code ;; Write (msg +++ String "010" "").

Definition log (e : LogEntry) : M (Proc FS) unit := fun p =>
  (Returns tt,
   mkProc (fs p) (status p) (body p) (logs p ++ [e]) (stdout p) (execs p) (db p)).

Definition Println (s : string) : M (Proc FS) unit := fun p =>
  (Returns tt,
   mkProc (fs p) (status p) (body p) (logs p) (stdout p +++ s +++ String "010" "")
          (execs p) (db p)).

Definition record_db (op : DbOp) : M (Proc FS) unit := fun p =>
  (Returns tt,
   mkProc (fs p) (status p) (body p) (logs p) (stdout p) (execs p) (db p ++ [op])).

(** [cmd.Output()] for the notifier: the run is recorded and the
    subprocess answers. *)
Definition run (Output : Invocation -> FS -> string * option error)
           (cmd : Invocation) : M (Proc FS) (string * option error) := fun p =>
  (Returns (Output cmd (fs p)),
   mkProc (fs p) (status p) (body p) (logs p) (stdout p) (execs p ++ [cmd]) (db p)).

(** A call that may change the file system. *)
Definition on_fs {A : Type} (f : FS -> A * FS) : M (Proc FS) A := fun p =>
  let '(a, disk) := f (fs p) in
  (Returns a,
   mkProc disk (status p) (body p) (logs p) (stdout p) (execs p) (db p)).

Definition read_fs {A : Type} (f : FS -> A) : M (Proc FS) A := fun p =>
  (Returns (f (fs p)), p).

End effects.

(* ================================================================== *)
(** ** The current revision: config.go and mailbot.go *)

(** [AppConfig] and the global [Cfg]. *)
Record AppConfig : Type := {
  Hostname : string;
  PersistPath : string;
  Port : string;
  EmailStdout : bool;
  WebhookSecret : string;
  SmtpPassword : string;
  AppId : Z;
  AppPrivateKey : string
}.

(** The same configuration with another SMTP credential. *)
Definition with_password (c : AppConfig) (pw : string) : AppConfig :=
  {| Hostname := Hostname c; PersistPath := PersistPath c; Port := Port c;
     EmailStdout := EmailStdout c; WebhookSecret := WebhookSecret c;
     SmtpPassword := pw; AppId := AppId c; AppPrivateKey := AppPrivateKey c |}.

(** An incoming request: the method, the two headers that are read
    ([Header.Get] gives [""] for a header that is absent) and the body. *)
Record Request : Type := {
  Method : string;
  X_Hub_Signature_256 : string;
  X_GitHub_Event : string;
  Body : string
}.

Module config.

(** [CommitEmailConfig]: [to] and [email.format] of commit-emails.toml. *)
Record CommitEmailConfig : Type := {
  MailingList : string;
  Format : string
}.

Definition zero : CommitEmailConfig := {| MailingList := ""; Format := "" |}.

(** What [toml.Decode] answers: an error, or the decoded value with the
    keys of the file that matched no field ([meta.Undecoded()], each
    through [key.String()]). *)
Inductive Decoded : Type :=
| DecodeError (err : error)
| DecodeOk (c : CommitEmailConfig) (undecoded : list string).

Section parse.
Context {FS : Type}.
Variable toml_Decode : string -> Decoded.
Variable GitShow : FS -> string -> string -> string -> string + error.

Definition parseConfig (configText : string)
  : M (Proc FS) (CommitEmailConfig * option error) :=
  match toml_Decode configText with
  | DecodeError err =>
      ret (zero, Some (errorString ("decoding commit-emails.toml: " +++ Error err)))
  | DecodeOk c undecoded =>
      (if Nat.ltb 0 (length undecoded)
       then log (Slog WARN "unknown config fields"
                      [("fields", gostrings.Join undecoded ", ")])
       else ret tt) ;;
      let format := Format c in
      if negb (String.eqb format "" || String.eqb format "html"
               || String.eqb format "text")
      then ret (zero, Some (errorString
                  ("invalid email.format (should be html or text): " +++ format)))
      else ret (c, None)
  end.

(** [getConfig] reads the commit-emails.toml file of a mirror. *)
Definition getConfig (gitRepo : string)
  : M (Proc FS) (CommitEmailConfig * option error) :=
  r <- read_fs (fun disk => GitShow disk gitRepo "HEAD" ".github/commit-emails.toml") ;;
  match r with
  | inr _ => ret (zero, Some MissingConfigError)
  | inl configText => parseConfig configText
  end.

End parse.

End config.

Module mailbot.
Import github.

(** The calls that leave the program.  [ValidatePayload] and
    [ParseWebHook] are go-github's: each answers a value or an error, and
    with an error the event is [nil].  [SyncRepo] and [GitShow] are
    functions of the repository that are defined outside mailbot.go and
    config.go; they are taken as they are called: [SyncRepo] answers a
    mirror directory or an error and may change the file system, [GitShow]
    reads it.  [Output] is [cmd.Output()] of the notifier. *)
Record World (FS : Type) : Type := {
  Environ : list string;
  ValidatePayload : Request -> string -> string + error;
  ParseWebHook : string -> string -> Event + error;
  ghinstallation_New : Z -> Z -> string -> option error;
  SyncRepo : Z -> option PushEventRepository -> FS -> (string * option error) * FS;
  GitShow : FS -> string -> string -> string -> string + error;
  toml_Decode : string -> config.Decoded;
  Output : Invocation -> FS -> string * option error
}.

Record PushHandler : Type := {
  installation : Z;
  repo : string
}.

Section handlers.
Context {FS : Type}.
Variable W : World FS.
Variable Cfg : AppConfig.

Definition githubPushHandler (h : PushHandler) (ev : PushEvent)
  : M (Proc FS) (option error) :=
  inst <- deref (Inst ev) ;;
  id <- deref (ID inst) ;;
  match ghinstallation_New W (AppId Cfg) id (AppPrivateKey Cfg) with
  | Some err => ret (Some err)
  | None =>
      synced <- on_fs (SyncRepo W id (Repo ev)) ;;
      match synced with
      | (_, Some MissingConfigError) =>
          log (Slog INFO "push to unconfigured repo" [("repo", repo h)]) ;;
          ret None
      | (_, Some err) => ret (Some err)
      | (gitDir, None) =>
          let args := [] in
          let args := if String.eqb (SmtpPassword Cfg) ""
                      then args ++ ["--stdout"] else args in
          got <- config.getConfig (toml_Decode W) (GitShow W) gitDir ;;
          match got with
          | (_, Some err) =>
              ret (Some (errorString ("could not get config for " +++ repo h
                                      +++ ": " +++ Error err)))
          | (cfg, None) =>
              let args := args ++ ["-c"; "multimailhook.mailingList="
                                         +++ config.MailingList cfg] in
              let args := if negb (String.eqb (config.Format cfg) "")
                          then args ++ ["-c"; "multimailhook.commitEmailFormat="
                                              +++ config.Format cfg]
                          else args in
              head <- deref (Head ev) ;;
              committer <- deref (Committer head) ;;
              name <- deref (Name committer) ;;
              let args := args ++ ["-c"; "multimailhook.from=" +++ name
                                         +++ " <notifications@commit-emails.xyz>"] in
              r <- deref (Repo ev) ;;
              url <- deref (HTMLURL r) ;;
              let args := args ++ ["-c"; "multimailhook.commitBrowseURL=" +++ url
                                         +++ "/commit/%(id)s"] in
              before <- deref (Before ev) ;;
              after <- deref (After ev) ;;
              ref <- deref (Ref ev) ;;
              let cmd :=
                {| path := "./git_multimail_wrapper.py";
                   args := args;
                   stdin := before +++ " " +++ after +++ " " +++ ref;
                   env := Environ W
                          ++ ["GIT_DIR=" +++ gitDir]
                          ++ ["GIT_CONFIG_GLOBAL=" +++ "git-multimail.config"]
                          ++ ["GIT_CONFIG_PARAMETERS="
                              +++ "'multimailhook.smtpPass=" +++ SmtpPassword Cfg
                              +++ "'"] |} in
              out <- run (Output W) cmd ;;
              match out with
              | (output, None) => Println output ;; ret None
              | (_, Some (ExitError state stderr)) =>
                  ret (Some (errorString
                               ("git_multimail_wrapper.py failed: " +++ state
                                +++ ":" +++ String "010" "" +++ stderr)))
              | (_, Some err) => ret (Some err)
              end
          end
      end
  end.

Definition githubEventHandler (req : Request) : M (Proc FS) unit :=
  match ValidatePayload W req (WebhookSecret Cfg) with
  | inr err =>
      http_Error ("could not validate payload: " +++ Error err) 400
  | inl payload =>
      event <- match ParseWebHook W (X_GitHub_Event req) payload with
               | inr err =>
                   http_Error ("could not parse webhook: " +++ Error err) 400 ;;
                   ret None
               | inl event => ret (Some event)
               end ;;
      match event with
      | Some Ping => Write "Pong"
      | Some (Push event) =>
          let repo := GetFullName (Repo event) in
          err <- githubPushHandler
                   {| installation := GetID (Inst event); repo := repo |} event ;;
          match err with
          | Some err =>
              let err := errorString ("push handler failed: " +++ Error err) in
              http_Error (Error err) 400 ;;
              log (Slog ERROR "push handler"
                        [("error", Error err); ("repo", repo)])
          | None =>
              record_db (AddPush event) ;;
              Write "OK" ;;
              b <- deref (Before event) ;;
              before <- first8 b ;;
              a <- deref (After event) ;;
              after <- first8 a ;;
              log (Slog INFO "push success"
                        [("repo", repo);
                         ("ref change", GetString (Ref event) +++ ": " +++ before
                                        +++ " -> " +++ after)])
          end
      | Some (InstallationEv event) =>
          log (Slog INFO "installation"
                    [("action", GetString (Action event));
                     ("account", GetLogin (EvInst event))]) ;;
          record_db (AddInstallation event)
      | Some (InstallationRepositoriesEv event) =>
          log (Slog INFO "installation"
                    [("action", GetString (Action event));
                     ("account", GetLogin (EvInst event))]) ;;
          record_db (UpdateInstallation event)
      | _ => ret tt
      end
  end.

End handlers.

End mailbot.

(* ================================================================== *)
(** ** The earlier revision of mailbot.go *)

Module legacy.

Record CommitEmailConfig : Type := {
  MailingList : string;
  EmailFormat : string
}.

Definition zero : CommitEmailConfig := {| MailingList := ""; EmailFormat := "" |}.

Record GithubRepo : Type := {
  FullName : string;
  CloneUrl : string;
  Private : bool
}.

Record GithubSender : Type := { Login : string }.

Record GithubGenericEvent : Type := {
  Repository : GithubRepo;
  Sender : GithubSender
}.

(** [Generic] is the embedded [*GithubGenericEvent]: it stays [nil] when
    the payload has neither of its fields. *)
Record GithubPushEvent : Type := {
  Generic : option GithubGenericEvent;
  Ref : string;
  Before : string;
  After : string;
  Pusher_Name : string;
  Pusher_Email : string
}.

(** [payloadData], by dynamic type. *)
Inductive Payload : Type :=
| PushData (e : GithubPushEvent)
| GenericData (e : GithubGenericEvent).

(** The answer of [os.Stat]. *)
Inductive StatResult : Type :=
| NotExist
| StatError (err : error)
| FileInfo (IsDir : bool).

(** The calls that leave the program: the [git] binary (run with
    [GIT_DIR] set to its first argument), [os.Stat], the JSON decoders,
    the notifier, and the quoting of [%q]. *)
Record World (FS : Type) : Type := {
  Environ : list string;
  Stat : FS -> string -> StatResult;
  git : string -> list string -> FS -> (string * option error) * FS;
  Unmarshal_push : string -> GithubPushEvent + error;
  Unmarshal_generic : string -> GithubGenericEvent + error;
  Decode_config : string -> CommitEmailConfig + error;
  Output : Invocation -> FS -> string * option error;
  Quote : string -> string
}.

(** The flag [-persist] and the two globals read from the environment. *)
Record Globals : Type := {
  persistPath : string;
  webhookSecret : string;
  smtpPassword : string
}.

(** The limit given to [http.MaxBytesReader]. *)
Definition maxBody : N := 1024 * 1024.

(** The signature check of the handler: the header scans as a digest and
    the digest is the HMAC of the body as read. *)
Definition authenticate (secret sig body : string) : unit + string :=
  match fmt.Sscanf_sha256 sig with
  | inr err => inr ("invalid signature: " +++ Error err)
  | inl expectedHash =>
      let payload := gostrings.take maxBody body in
      let actualHash := hmac.Sum secret payload in
      if negb (hmac.Equal actualHash expectedHash)
      then inr "signature verification failed"
      else inl tt
  end.

Section handlers.
Context {FS : Type}.
Variable W : World FS.
Variable G : Globals.

Definition runGitCmd (gitDir : string) (args : list string)
  : M (Proc FS) (string * option error) :=
  r <- on_fs (git W gitDir args) ;;
  match r with
  | (out, Some (ExitError state stderr)) =>
      ret (out, Some (errorString
                        ("git [" +++ gostrings.Join args " " +++ "] failed: "
                         +++ state +++ ": " +++ Quote W stderr)))
  | (out, err) => ret (out, err)
  end.

Definition gitClone (url dest : string) : M (Proc FS) (option error) :=
  r <- runGitCmd dest ["clone"; "--bare"; "--quiet"; url; dest] ;;
  ret (snd r).

Definition gitFetch (gitDir : string) : M (Proc FS) (option error) :=
  r <- runGitCmd gitDir ["fetch"; "--quiet"; "--force"; "origin"; "*:*"] ;;
  ret (snd r).

Definition syncRepo (gitDir url : string) : M (Proc FS) (option error) :=
  st <- read_fs (fun disk => Stat W disk gitDir) ;;
  match st with
  | NotExist =>
      err <- gitClone url gitDir ;;
      match err with
      | Some err => ret (Some err)
      | None =>
          log (Printf ("Cloned " +++ url +++ " to " +++ gitDir)) ;;
          gitFetch gitDir
      end
  | StatError err => ret (Some err)
  | FileInfo false =>
      ret (Some (errorString (gitDir +++ " exists and is not a directory")))
  | FileInfo true => gitFetch gitDir
  end.

(** [getConfig] reads the commit-emails.json file of a mirror; the
    decoder runs with [DisallowUnknownFields]. *)
Definition getConfig (gitRepo : string)
  : M (Proc FS) (CommitEmailConfig * option error) :=
  r <- runGitCmd gitRepo ["show"; "HEAD:.github/commit-emails.json"] ;;
  match r with
  | (_, Some err) => ret (zero, Some err)
  | (configText, None) =>
      match Decode_config W configText with
      | inr err =>
          ret (zero, Some (errorString
                             ("decoding commit-emails.json: " +++ Error err)))
      | inl c =>
          if negb (String.eqb (EmailFormat c) "")
             && negb (String.eqb (EmailFormat c) "html"
                      || String.eqb (EmailFormat c) "text")
          then ret (zero, Some (errorString
                      ("invalid emailFormat (should be html or text): "
                       +++ Quote W (EmailFormat c))))
          else ret (c, None)
      end
  end.

Definition githubPushHandler (ev : GithubPushEvent)
  : M (Proc FS) (option error) :=
  g <- deref (Generic ev) ;;
  let gitDir := repoDir (persistPath G) (FullName (Repository g)) in
  err <- syncRepo gitDir (CloneUrl (Repository g)) ;;
  match err with
  | Some err => ret (Some err)
  | None =>
      log (Printf ("git_multimail_wrapper.py " +++ Before ev +++ " "
                   +++ After ev +++ " " +++ Ref ev)) ;;
      let args := [] in
      let args := if String.eqb (smtpPassword G) ""
                  then args ++ ["--stdout"] else args in
      got <- getConfig gitDir ;;
      match got with
      | (_, Some err) =>
          let msg := "no commit-emails.json found for "
                     +++ FullName (Repository g) +++ ": " +++ Error err in
          log (Printf msg) ;;
          ret (Some (errorString msg))
      | (c, None) =>
          let args := args ++ ["-c"; "multimailhook.mailingList="
                                     +++ MailingList c] in
          let args := if negb (String.eqb (EmailFormat c) "")
                      then args ++ ["-c"; "multimailhook.commitEmailFormat="
                                          +++ EmailFormat c]
                      else args in
          let cmd :=
            {| path := "./git_multimail_wrapper.py";
               args := args;
               stdin := Before ev +++ " " +++ After ev +++ " " +++ Ref ev;
               env := Environ W
                      ++ ["GIT_DIR=" +++ gitDir]
                      ++ ["GIT_CONFIG_GLOBAL=" +++ "git-multimail.config"]
                      ++ ["GIT_CONFIG_PARAMETERS="
                          +++ "'multimailhook.smtpPass=" +++ smtpPassword G
                          +++ "'"] |} in
          out <- run (Output W) cmd ;;
          match out with
          | (_, None) => ret None
          | (_, Some (ExitError state stderr)) =>
              ret (Some (errorString
                           ("git_multimail_wrapper.py failed: " +++ state
                            +++ ":" +++ String "010" "" +++ stderr)))
          | (_, Some err) => ret (Some err)
          end
      end
  end.

Definition githubEventHandler (req : Request) : M (Proc FS) unit :=
  if negb (String.eqb (Method req) "POST")
  then http_Error ("unexpected method: " +++ Method req) 400
  else
    match authenticate (webhookSecret G) (X_Hub_Signature_256 req) (Body req) with
    | inr msg => http_Error msg 400
    | inl _ =>
        let payload := gostrings.take maxBody (Body req) in
        let eventType := X_GitHub_Event req in
        if String.eqb eventType ""
        then http_Error "no event type specified" 400
        else
          match (if String.eqb eventType "push"
                 then match Unmarshal_push W payload with
                      | inl e => inl (PushData e)
                      | inr err => inr err
                      end
                 else match Unmarshal_generic W payload with
                      | inl e => inl (GenericData e)
                      | inr err => inr err
                      end) with
          | inr err =>
              http_Error ("failed to parse payload: " +++ Error err) 400
          | inl payloadData =>
              event <- match payloadData with
                       | PushData e => deref (Generic e)
                       | GenericData e => ret e
                       end ;;
              log (Printf (FullName (Repository event) +++ ": " +++ eventType
                           +++ " from " +++ Login (Sender event))) ;;
              if String.eqb eventType "ping" then
                let url := CloneUrl (Repository event) in
                let gitDir := repoDir (persistPath G) (FullName (Repository event)) in
                err <- syncRepo gitDir url ;;
                match err with
                | Some err =>
                    let err := errorString ("syncing repo " +++ Quote W url
                                            +++ " failed: " +++ Error err) in
                    http_Error (Error err) 400 ;;
                    log (Printf (Error err))
                | None => Write "Pong"
                end
              else if String.eqb eventType "push" then
                match payloadData with
                | GenericData _ =>
                    panic "interface conversion: interface {} is not *main.GithubPushEvent"
                | PushData pushEvent =>
                    err <- githubPushHandler pushEvent ;;
                    match err with
                    | Some err =>
                        let err := errorString ("push handler failed: "
                                                +++ Error err) in
                        http_Error (Error err) 400 ;;
                        log (Printf (Error err))
                    | None =>
                        Write "OK" ;;
                        g <- deref (Generic pushEvent) ;;
                        before <- first8 (Before pushEvent) ;;
                        after <- first8 (After pushEvent) ;;
                        log (Printf (FullName (Repository g) +++ ": push success: "
                                     +++ Ref pushEvent +++ " " +++ before
                                     +++ " -> " +++ after))
                    end
                end
              else ret tt
          end
    end.

End handlers.

End legacy.

(* ================================================================== *)
(** ** A small concrete world

    An executable stand-in for the outside: a disk of bare mirrors, an
    upstream that never changes, decoders given by tables, and a notifier
    that succeeds.  It is what the examples below are evaluated on. *)

Module fake.
Import github.

(** What lives at a path: a bare mirror (its origin and the content of
    its configuration file at HEAD, if any) or a regular file. *)
Inductive Node : Type :=
| Mirror (origin : string) (configAtHead : option string)
| File.

Definition Disk : Type := list (string * Node).

Fixpoint find {A : Type} (k : string) (l : list (string * A)) : option A :=
  match l with
  | [] => None
  | (k', a) :: rest => if String.eqb k k' then Some a else find k rest
  end.

Fixpoint put {A : Type} (k : string) (a : A) (l : list (string * A))
  : list (string * A) :=
  match l with
  | [] => [(k, a)]
  | (k', a') :: rest =>
      if String.eqb k k' then (k, a) :: rest else (k', a') :: put k a rest
  end.

Record Setup : Type := {
  (** the remote repositories, by URL or full name: the configuration
      file at the tip of their default branch *)
  upstream : list (string * option string);
  tomls : list (string * config.Decoded);
  jsons : list (string * legacy.CommitEmailConfig);
  pushes : list (string * PushEvent);
  (** which [SyncRepo] the world has: the one of the specification, or
      the one that looks for the configuration file upstream first *)
  precheck : bool;
  legacy_pushes : list (string * legacy.GithubPushEvent);
  generics : list (string * legacy.GithubGenericEvent)
}.

Definition exit128 : error := ExitError "exit status 128" "fatal".

(** [git clone], [git fetch] and [git show] on the disk. *)
Definition git (s : Setup) (gitDir : string) (args : list string) (d : Disk)
  : (string * option error) * Disk :=
  match args with
  | cmd :: rest =>
      if String.eqb cmd "clone" then
        match rest with
        | [_; _; url; dest] =>
            match find url (upstream s), find dest d with
            | Some cfg, None => (("", None), put dest (Mirror url cfg) d)
            | _, _ => (("", Some exit128), d)
            end
        | _ => (("", Some exit128), d)
        end
      else if String.eqb cmd "fetch" then
        match find gitDir d with
        | Some (Mirror url _) =>
            match find url (upstream s) with
            | Some cfg => (("", None), put gitDir (Mirror url cfg) d)
            | None => (("", Some exit128), d)
            end
        | _ => (("", Some exit128), d)
        end
      else if String.eqb cmd "show" then
        match find gitDir d with
        | Some (Mirror _ (Some text)) => ((text, None), d)
        | _ => (("", Some exit128), d)
        end
      else (("", Some (errorString "git: unknown command")), d)
  | [] => (("", Some (errorString "git: unknown command")), d)
  end.

Definition Stat (d : Disk) (name : string) : legacy.StatResult :=
  match find name d with
  | None => legacy.NotExist
  | Some (Mirror _ _) => legacy.FileInfo true
  | Some File => legacy.FileInfo false
  end.

Definition notifier (_ : Invocation) (_ : Disk) : string * option error :=
  ("sent", None).

Definition Quote (s : string) : string := String "034" s +++ String "034" "".

Definition legacy_world (s : Setup) : legacy.World Disk :=
  {| legacy.Environ := ["PATH=/usr/bin"];
     legacy.Stat := Stat;
     legacy.git := git s;
     legacy.Unmarshal_push := fun payload =>
       match find payload (legacy_pushes s) with
       | Some e => inl e
       | None => inr (errorString "unexpected end of JSON input")
       end;
     legacy.Unmarshal_generic := fun payload =>
       match find payload (generics s) with
       | Some e => inl e
       | None => inr (errorString "unexpected end of JSON input")
       end;
     legacy.Decode_config := fun text =>
       match find text (jsons s) with
       | Some c => inl c
       | None => inr (errorString "json: unknown field")
       end;
     legacy.Output := notifier;
     legacy.Quote := Quote |}.

(** Modelled from the spec: [SyncRepo] of the current revision is not in
    src/.  Section 4.4 of the specification: "if the local bare directory
    does not exist, perform a full bare clone; if it exists, perform a
    forced fetch of all refs from origin"; a failure (clone or fetch error,
    a path that is no repository) aborts the pipeline.  The mirror is kept
    at repos/<host>/<full-name> under the persistence root, and after a
    clone as after a fetch it holds what the remote repository holds. *)
Definition SyncRepo (s : Setup) (persist : string) (_ : Z)
           (r : option PushEventRepository) (d : Disk)
  : (string * option error) * Disk :=
  let full := GetFullName r in
  let dir := repoDir persist full in
  match find dir d with
  | Some File => (("", Some exit128), d)
  | _ =>
      match find full (upstream s) with
      | Some cfg => ((dir, None), put dir (Mirror full cfg) d)
      | None => (("", Some exit128), d)
      end
  end.

(** A [SyncRepo] that looks for the configuration file upstream before it
    mirrors the repository and reports [MissingConfigError] when there is
    none, the error that [githubPushHandler] tests for. *)
Definition SyncRepo_precheck (s : Setup) (persist : string) (id : Z)
           (r : option PushEventRepository) (d : Disk)
  : (string * option error) * Disk :=
  match find (GetFullName r) (upstream s) with
  | Some None => (("", Some MissingConfigError), d)
  | _ => SyncRepo s persist id r d
  end.

Definition GitShow (d : Disk) (gitDir rev file : string) : string + error :=
  match find gitDir d with
  | Some (Mirror _ (Some text)) => inl text
  | _ => inr exit128
  end.

(** Requests are checked as the earlier revision checks them. *)
Definition ValidatePayload (req : Request) (secret : string) : string + error :=
  match legacy.authenticate secret (X_Hub_Signature_256 req) (Body req) with
  | inl _ => inl (Body req)
  | inr msg => inr (errorString msg)
  end.

Definition world (s : Setup) (persist : string) : mailbot.World Disk :=
  {| mailbot.Environ := ["PATH=/usr/bin"];
     mailbot.ValidatePayload := ValidatePayload;
     mailbot.ParseWebHook := fun messageType payload =>
       if String.eqb messageType "ping" then inl Ping
       else if String.eqb messageType "push" then
         match find payload (pushes s) with
         | Some e => inl (Push e)
         | None => inr (errorString "unexpected end of JSON input")
         end
       else inr (errorString "unknown X-Github-Event in message");
     mailbot.ghinstallation_New := fun _ _ _ => None;
     mailbot.SyncRepo := if precheck s then SyncRepo_precheck s persist
                         else SyncRepo s persist;
     mailbot.GitShow := GitShow;
     mailbot.toml_Decode := fun text =>
       match find text (tomls s) with
       | Some r => r
       | None => config.DecodeError (errorString "toml: expected key")
       end;
     mailbot.Output := notifier |}.

(** A request signed the way GitHub signs it. *)
Definition signed (secret event payload : string) : Request :=
  {| Method := "POST";
     X_Hub_Signature_256 := "sha256=" +++ hex.EncodeToString (hmac.Sum secret payload);
     X_GitHub_Event := event;
     Body := payload |}.

Definition sha_a : string := "aaaaaaaaaaaaaaaaaaaaaaaaaaaaaaaaaaaaaaaa".
Definition sha_b : string := "bbbbbbbbbbbbbbbbbbbbbbbbbbbbbbbbbbbbbbbb".

Definition push_event (full : string) (before after : option string) : PushEvent :=
  {| Ref := Some "refs/heads/main";
     Before := before;
     After := after;
     Head := Some {| Committer := Some {| Name := Some "Ada" |} |};
     Repo := Some {| FullName := Some full;
                     HTMLURL := Some ("https://github.com/" +++ full) |};
     Inst := Some {| ID := Some 7%Z; Account := None |} |}.

Definition legacy_repo (full : string) : legacy.GithubGenericEvent :=
  {| legacy.Repository :=
       {| legacy.FullName := full;
          legacy.CloneUrl := "https://github.com/" +++ full +++ ".git";
          legacy.Private := false |};
     legacy.Sender := {| legacy.Login := "ada" |} |}.

Definition legacy_push (full before after : string) : legacy.GithubPushEvent :=
  {| legacy.Generic := Some (legacy_repo full);
     legacy.Ref := "refs/heads/main";
     legacy.Before := before;
     legacy.After := after;
     legacy.Pusher_Name := "Ada";
     legacy.Pusher_Email := "ada@example.org" |}.

(** Repositories with an html configuration, a pdf one, one with an
    unknown key, and none at all. *)
Definition setup : Setup :=
  {| upstream :=
       [("octo/demo", Some "html"); ("octo/pdf", Some "pdf");
        ("octo/extra", Some "extra"); ("octo/bare", None);
        ("https://github.com/octo/demo.git", Some "html");
        ("https://github.com/octo/pdf.git", Some "pdf");
        ("https://github.com/octo/bare.git", None)];
     tomls :=
       [("html", config.DecodeOk
                   {| config.MailingList := "commits@example.org";
                      config.Format := "html" |} []);
        ("pdf", config.DecodeOk
                  {| config.MailingList := "commits@example.org";
                     config.Format := "pdf" |} []);
        ("extra", config.DecodeOk
                    {| config.MailingList := "commits@example.org";
                       config.Format := "" |} ["cc"; "email.subject"])];
     jsons :=
       [("html", {| legacy.MailingList := "commits@example.org";
                    legacy.EmailFormat := "html" |});
        ("pdf", {| legacy.MailingList := "commits@example.org";
                   legacy.EmailFormat := "pdf" |})];
     pushes :=
       [("push", push_event "octo/demo" (Some sha_a) (Some sha_b));
        ("short", push_event "octo/demo" (Some "0000000") (Some sha_b));
        ("pdf", push_event "octo/pdf" (Some sha_a) (Some sha_b));
        ("extra", push_event "octo/extra" (Some sha_a) (Some sha_b));
        ("bare", push_event "octo/bare" (Some sha_a) (Some sha_b))];
     precheck := false;
     legacy_pushes :=
       [("push", legacy_push "octo/demo" sha_a sha_b);
        ("short", legacy_push "octo/demo" "" sha_b);
        ("pdf", legacy_push "octo/pdf" sha_a sha_b);
        ("bare", legacy_push "octo/bare" sha_a sha_b)];
     generics := [("ping", legacy_repo "octo/demo")] |}.


Definition Cfg : AppConfig :=
  {| Hostname := "localhost"; PersistPath := "persist"; Port := "8888";
     EmailStdout := false; WebhookSecret := "s3cret";
     SmtpPassword := "hunter2"; AppId := 1%Z; AppPrivateKey := "key" |}.

Definition G : legacy.Globals :=
  {| legacy.persistPath := "persist";
     legacy.webhookSecret := "s3cret";
     legacy.smtpPassword := "hunter2" |}.

End fake.

(* ================================================================== *)
(** ** Start-up: [init] and the head of [main] *)

Module startup.

(** [strings.HasPrefix]. *)
Definition HasPrefix (s prefix : string) : bool := String.prefix prefix s.

(** A start-up either gets through or ends in [log.Fatal]. *)
Inductive started (A : Type) : Type :=
| Ready (a : A)
| Fatal (msg : string).
Arguments Fatal {A} msg.

(** [getEncryptedEnv] of [init]: if dotenvx is not used, a variable may
    still be encrypted; it then counts as not passed. *)
Definition getEncryptedEnv (Getenv : string -> string) (varName : string) : string :=
  let raw := Getenv varName in
  if HasPrefix raw "encrypted:" then "" else raw.

Definition digit_value (c : ascii) : option Z :=
  let n := N_of_ascii c in
  if (48 <=? n)%N && (n <=? 57)%N then Some (Z.of_N n - 48)%Z else None.

(** The digits of [strconv.ParseUint(s, 10, 64)], without the bound. *)
Fixpoint digits (acc : Z) (s : string) : option Z :=
  match s with
  | EmptyString => Some acc
  | String c s' =>
      match digit_value c with
      | Some d => digits (10 * acc + d)%Z s'
      | None => None
      end
  end.

(** [strconv.ParseInt(s, 10, 64)]: an optional sign, at least one digit,
    nothing else, and a value that fits 64 bits; [None] is an error. *)
Definition ParseInt (s : string) : option Z :=
  match s with
  | EmptyString => None
  | String c rest =>
      let neg := Ascii.eqb c "-" in
      let body := if Ascii.eqb c "+" || neg then rest else s in
      match body with
      | EmptyString => None
      | _ =>
          match digits 0 body with
          | None => None
          | Some un =>
              if neg then
                if (un <=? 2 ^ 63)%Z then Some (- un)%Z else None
              else
                if (un <? 2 ^ 63)%Z then Some un else None
          end
      end
  end.

(** [init]: [Cfg] from the environment.  [DecodeString] is
    [base64.StdEncoding.DecodeString]. *)
Definition init (Getenv : string -> string)
           (DecodeString : string -> string + error) : started AppConfig :=
  let hostname := Getenv "TLS_HOSTNAME" in
  let hostname := if String.eqb hostname "" then "localhost" else hostname in
  let persistPath := Getenv "PERSIST_PATH" in
  let persistPath := if String.eqb persistPath "" then "persist" else persistPath in
  let webhookSecret := getEncryptedEnv Getenv "WEBHOOK_SECRET" in
  let smtpPassword := getEncryptedEnv Getenv "MAIL_SMTP_PASSWORD" in
  let emailStdout := Getenv "EMAIL_STDOUT" in
  let emailStdout := String.eqb emailStdout "true" || String.eqb emailStdout "1" in
  let appIdStr := getEncryptedEnv Getenv "GITHUB_APP_ID" in
  match (if negb (String.eqb appIdStr "") then ParseInt appIdStr else Some 0%Z) with
  | None => Fatal ("GITHUB_APP_ID is not a number, got " +++ appIdStr)
  | Some appId =>
      let keyEncoded := getEncryptedEnv Getenv "GITHUB_APP_PRIVATE_KEY" in
      match (if negb (String.eqb keyEncoded "") then DecodeString keyEncoded
             else inl "") with
      | inr _ => Fatal "private key has invalid base64"
      | inl key =>
          Ready {| Hostname := hostname; PersistPath := persistPath; Port := "https";
                   EmailStdout := emailStdout; WebhookSecret := webhookSecret;
                   SmtpPassword := smtpPassword; AppId := appId;
                   AppPrivateKey := key |}
      end
  end.

(** The flags [-hostname], [-persist] and [-port]; [None] when a flag is
    not given (its default is the value [init] left in [Cfg]). *)
Record Flags : Type := {
  flag_hostname : option string;
  flag_persist : option string;
  flag_port : option string
}.

Definition flag_or (f : option string) (default : string) : string :=
  match f with Some v => v | None => default end.

(** [main] up to [if Cfg.EmailStdout { Cfg.SmtpPassword = "" }]. *)
Definition configure (c : AppConfig) (f : Flags) : AppConfig :=
  {| Hostname := flag_or (flag_hostname f) (Hostname c);
     PersistPath := flag_or (flag_persist f) (PersistPath c);
     Port := flag_or (flag_port f) (Port c);
     EmailStdout := EmailStdout c;
     WebhookSecret := WebhookSecret c;
     SmtpPassword := if EmailStdout c then "" else SmtpPassword c;
     AppId := AppId c;
     AppPrivateKey := AppPrivateKey c |}.

(** [AppConfig.Insecure]. *)
Definition Insecure (c : AppConfig) : bool := String.eqb (Hostname c) "localhost".

(** The earlier revision: the flags as parsed, with their defaults
    [""], ["persist"] and ["https"]. *)
Record LegacyFlags : Type := {
  hostname : string;
  persist : string;
  port : string
}.

Record LegacyStart : Type := {
  host : string;
  insecure : bool;
  listen : string;
  globals : legacy.Globals
}.

(** [main] of the earlier revision up to [webhookSecret = []byte(secret)].
    [MkdirAll] is [os.MkdirAll] on the persistence path. *)
Definition legacy_main (f : LegacyFlags) (Getenv : string -> string)
           (MkdirAll : string -> option error) : started LegacyStart :=
  let hostname := if String.eqb (hostname f) "" then Getenv "TLS_HOSTNAME"
                  else hostname f in
  if String.eqb hostname "" then Fatal "please set -hostname or $TLS_HOSTNAME"
  else
    let insecure := String.eqb hostname "localhost" in
    if insecure && String.eqb (port f) "https"
    then Fatal "https on localhost will not work (choose another port)"
    else
      let smtpPassword := Getenv "MAIL_SMTP_PASSWORD" in
      match MkdirAll (persist f) with
      | Some err => Fatal (Error err)
      | None =>
          let secret := Getenv "WEBHOOK_SECRET" in
          if String.eqb secret "" then Fatal "$WEBHOOK_SECRET is not set"
          else Ready {| host := hostname; insecure := insecure; listen := port f;
                        globals := {| legacy.persistPath := persist f;
                                      legacy.webhookSecret := secret;
                                      legacy.smtpPassword := smtpPassword |} |}
      end.

End startup.

(* ================================================================== *)
(** ** The [git] commands of a run, in order

    A world over a file system that also keeps the list of the [git]
    commands run so far ([GIT_DIR] and arguments); everything else is the
    world underneath. *)

Module traced.

Definition Disk (FS : Type) : Type := (FS * list (string * list string))%type.

Definition world {FS : Type} (W : legacy.World FS) : legacy.World (Disk FS) :=
  {| legacy.Environ := legacy.Environ W;
     legacy.Stat := fun d name => legacy.Stat W (fst d) name;
     legacy.git := fun gitDir args d =>
       let '(r, disk) := legacy.git W gitDir args (fst d) in
       (r, (disk, snd d ++ [(gitDir, args)]));
     legacy.Unmarshal_push := legacy.Unmarshal_push W;
     legacy.Unmarshal_generic := legacy.Unmarshal_generic W;
     legacy.Decode_config := legacy.Decode_config W;
     legacy.Output := fun cmd d => legacy.Output W cmd (fst d);
     legacy.Quote := legacy.Quote W |}.

(** The commands run so far. *)
Definition commands {FS : Type} (p : Proc (Disk FS)) : list (string * list string) :=
  snd (fs p).

(** The process without the list of commands. *)
Definition forget {FS : Type} (p : Proc (Disk FS)) : Proc FS :=
  mkProc (fst (fs p)) (status p) (body p) (logs p) (stdout p) (execs p) (db p).

Definition clone (url gitDir : string) : string * list string :=
  (gitDir, ["clone"; "--bare"; "--quiet"; url; gitDir]).

Definition fetch (gitDir : string) : string * list string :=
  (gitDir, ["fetch"; "--quiet"; "--force"; "origin"; "*:*"]).

Definition show (gitDir : string) : string * list string :=
  (gitDir, ["show"; "HEAD:.github/commit-emails.json"]).

End traced.

(** Two environments for the examples: one whose SMTP password is still
    encrypted, one for the earlier revision. *)
Module fake_env.

Definition encrypted (varName : string) : string :=
  if String.eqb varName "MAIL_SMTP_PASSWORD" then "encrypted:BDQE1"
  else if String.eqb varName "WEBHOOK_SECRET" then "s3cret"
  else if String.eqb varName "GITHUB_APP_ID" then "12345"
  else "".

Definition plain (varName : string) : string :=
  if String.eqb varName "MAIL_SMTP_PASSWORD" then "hunter2"
  else if String.eqb varName "WEBHOOK_SECRET" then "s3cret"
  else if String.eqb varName "TLS_HOSTNAME" then "commit-emails.xyz"
  else "".

Definition no_flags : startup.Flags :=
  {| startup.flag_hostname := None; startup.flag_persist := None;
     startup.flag_port := None |}.

Definition legacy_flags : startup.LegacyFlags :=
  {| startup.hostname := ""; startup.persist := "persist"; startup.port := "https" |}.

(** A push that deletes a branch carries no head commit. *)
Definition deleted_branch : github.PushEvent :=
  {| github.Ref := Some "refs/heads/topic";
     github.Before := Some fake.sha_a;
     github.After := Some "0000000000000000000000000000000000000000";
     github.Head := None;
     github.Repo := Some {| github.FullName := Some "octo/demo";
                            github.HTMLURL := Some "https://github.com/octo/demo" |};
     github.Inst := Some {| github.ID := Some 7%Z; github.Account := None |} |}.

(** The concrete world with two more payloads: the deleted branch, and a
    push to a repository that the upstream does not know. *)
Definition setup : fake.Setup :=
  {| fake.upstream := fake.upstream fake.setup;
     fake.tomls := fake.tomls fake.setup;
     fake.jsons := fake.jsons fake.setup;
     fake.pushes := ("deleted", deleted_branch)
                    :: ("gone", fake.push_event "octo/gone" (Some fake.sha_a)
                                                (Some fake.sha_b))
                    :: fake.pushes fake.setup;
     fake.precheck := false;
     fake.legacy_pushes := ("gone", fake.legacy_push "octo/gone" fake.sha_a fake.sha_b)
                           :: fake.legacy_pushes fake.setup;
     fake.generics := fake.generics fake.setup |}.

(** The concrete world with a notifier that fails. *)
Definition failing_notifier (_ : Invocation) (_ : fake.Disk) : string * option error :=
  ("", Some (ExitError "exit status 1" "smtp: connection refused")).

Definition failing_world : mailbot.World fake.Disk :=
  let W := fake.world setup "persist" in
  {| mailbot.Environ := mailbot.Environ W;
     mailbot.ValidatePayload := mailbot.ValidatePayload W;
     mailbot.ParseWebHook := mailbot.ParseWebHook W;
     mailbot.ghinstallation_New := mailbot.ghinstallation_New W;
     mailbot.SyncRepo := mailbot.SyncRepo W;
     mailbot.GitShow := mailbot.GitShow W;
     mailbot.toml_Decode := mailbot.toml_Decode W;
     mailbot.Output := failing_notifier |}.

End fake_env.

(* ================================================================== *)
(** ** Vocabulary of the statements *)

(** The values of [emailFormat] that the configuration may hold. *)
Definition allowed_format (f : string) : bool :=
  String.eqb f "" || String.eqb f "html" || String.eqb f "text".

(** A run of the notifier in which the SMTP credential [pw] shows in two
    places only: the flag [--stdout] in front of the other arguments when
    it is empty, and the last entry of the environment. *)
Definition notifier_cmd (environ : list string) (pw : string)
           (plan : list string * string * string) : Invocation :=
  let '(rest, gitDir, input) := plan in
  {| path := "./git_multimail_wrapper.py";
     args := (if String.eqb pw "" then ["--stdout"] else []) ++ rest;
     stdin := input;
     env := environ
            ++ ["GIT_DIR=" +++ gitDir;
                "GIT_CONFIG_GLOBAL=git-multimail.config";
                "GIT_CONFIG_PARAMETERS='multimailhook.smtpPass=" +++ pw +++ "'"] |}.

(** Two byte strings that differ in exactly one byte. *)
Definition one_byte_differs (B B' : string) : Prop :=
  exists (pre post : string) (c c' : ascii),
    c <> c' /\ B = pre +++ String c post /\ B' = pre +++ String c' post.

(** What "no upstream change" means for [git fetch --force origin '*:*']
    in the mirror [gitDir]: a fetch that succeeded leaves a directory
    there, and a second fetch right after it succeeds and leaves the file
    system as it is. *)
Definition fetch_settles {FS : Type} (W : legacy.World FS) (gitDir : string) : Prop :=
  forall (disk disk' : FS) (out : string),
    legacy.git W gitDir ["fetch"; "--quiet"; "--force"; "origin"; "*:*"] disk
    = ((out, None), disk') ->
    legacy.Stat W disk' gitDir = legacy.FileInfo true
    /\ exists out',
         legacy.git W gitDir ["fetch"; "--quiet"; "--force"; "origin"; "*:*"] disk'
         = ((out', None), disk').

(** What a reachable upstream means for a mirror that does not exist yet:
    [git clone --bare] creates it, and the fetch that [syncRepo] runs right
    after the clone succeeds. *)
Definition clone_works {FS : Type} (W : legacy.World FS) (gitDir url : string) : Prop :=
  forall disk : FS,
    legacy.Stat W disk gitDir = legacy.NotExist ->
    exists (out : string) (disk' : FS),
      legacy.git W gitDir ["clone"; "--bare"; "--quiet"; url; gitDir] disk
      = ((out, None), disk')
      /\ exists (out' : string) (disk'' : FS),
           legacy.git W gitDir ["fetch"; "--quiet"; "--force"; "origin"; "*:*"] disk'
           = ((out', None), disk'').

(** A push event none of whose fields that the handlers dereference is
    [nil], and whose SHAs have the eight bytes that the log line cuts. *)
Definition complete (ev : github.PushEvent) : bool :=
  match github.Inst ev, github.Head ev, github.Repo ev,
        github.Before ev, github.After ev, github.Ref ev with
  | Some inst, Some head, Some r, Some b, Some a, Some _ =>
      match github.ID inst, github.Committer head, github.HTMLURL r with
      | Some _, Some committer, Some _ =>
          match github.Name committer with
          | Some _ => Nat.leb 8 (String.length b) && Nat.leb 8 (String.length a)
          | None => false
          end
      | _, _, _ => false
      end
  | _, _, _, _, _, _ => false
  end.

(* ================================================================== *)
(** * Properties *)

Unset Implicit Arguments.

(** ** Byte strings *)

Section string_facts.

Lemma append_nil_r (s : string) : s +++ "" = s.
Proof. induction s as [|c s IH]; simpl; congruence. Qed.

Lemma append_assoc (a b c : string) : (a +++ b) +++ c = a +++ b +++ c.
Proof. induction a as [|x a IH]; simpl; congruence. Qed.

Lemma append_inv_head (s a b : string) : s +++ a = s +++ b -> a = b.
Proof. induction s as [|c s IH]; simpl; intros H; [assumption|]. injection H; auto. Qed.

Lemma append_cons_not_nil (s t : string) (c : ascii) : s +++ String c t <> "".
Proof. destruct s; simpl; discriminate. Qed.

Lemma Split_not_nil (s : string) : gostrings.Split s <> [].
Proof.
  induction s as [|c s IH]; simpl; [discriminate|].
  destruct (Ascii.eqb c "/"); [discriminate|].
  destruct (gostrings.Split s); discriminate.
Qed.

(** Joining the fields of a split gives the string back. *)
Lemma Join_Split (s : string) : gostrings.Join (gostrings.Split s) "/" = s.
Proof.
  unfold gostrings.Join.
  induction s as [|c s IH]; simpl; [reflexivity|].
  destruct (Ascii.eqb_spec c "/") as [->|Hc].
  - pose proof (Split_not_nil s) as Hn.
    simpl. destruct (gostrings.Split s) as [|h t]; [contradiction|].
    simpl in *. rewrite IH. reflexivity.
  - pose proof (Split_not_nil s) as Hn.
    destruct (gostrings.Split s) as [|h t]; [contradiction|].
    simpl in *. destruct t; simpl in *; rewrite <- IH; reflexivity.
Qed.

(** A separator written between two strings separates their fields. *)
Lemma Split_app (a b : string) :
  gostrings.Split (a +++ String "/" b) = gostrings.Split a ++ gostrings.Split b.
Proof.
  induction a as [|c a IH]; simpl; [reflexivity|].
  destruct (Ascii.eqb c "/"); simpl; rewrite IH; [reflexivity|].
  pose proof (Split_not_nil a) as Hn.
  destruct (gostrings.Split a); [contradiction|reflexivity].
Qed.

Lemma concat_app (sep : string) (l1 l2 : list string) :
  l1 <> [] -> l2 <> [] ->
  String.concat sep (l1 ++ l2) = String.concat sep l1 +++ sep +++ String.concat sep l2.
Proof.
  intros H1 H2. induction l1 as [|x l1 IH]; [contradiction|].
  destruct l1 as [|y l1].
  - simpl. destruct l2; [contradiction|reflexivity].
  - change ((x :: y :: l1) ++ l2) with (x :: (y :: l1) ++ l2).
    change (String.concat sep (x :: (y :: l1) ++ l2))
      with (x +++ sep +++ String.concat sep ((y :: l1) ++ l2)).
    rewrite IH by discriminate.
    change (String.concat sep (x :: y :: l1))
      with (x +++ sep +++ String.concat sep (y :: l1)).
    rewrite !append_assoc. reflexivity.
Qed.

End string_facts.

(** ** The mirror directory *)

Section mirror_path.
Import filepath.

Lemma step_real (st : cleaner) (e : string) :
  real_elem e = true ->
  step st e = mkCleaner (rooted st) (dotdot st) (e :: elems st).
Proof.
  unfold real_elem, step. intros H.
  apply andb_prop in H as [H H3]. apply andb_prop in H as [H1 H2].
  apply negb_true_iff in H1, H2, H3. rewrite H1, H2, H3. reflexivity.
Qed.

(** Real elements are only ever appended. *)
Lemma fold_real (l : list string) (st : cleaner) :
  forallb real_elem l = true ->
  fold_left step l st = mkCleaner (rooted st) (dotdot st) (rev l ++ elems st).
Proof.
  revert st. induction l as [|e l IH]; intros st H; simpl in *.
  - destruct st; reflexivity.
  - apply andb_prop in H as [He Hl].
    rewrite step_real by assumption. rewrite IH by assumption.
    simpl. rewrite <- app_assoc. reflexivity.
Qed.

(** Below a directory [q] that ends in a real element, a plain name is
    appended as it is. *)
Lemma Clean_below (q last name : string) (front : list string) :
  q <> "" ->
  gostrings.Split q = front ++ [last] ->
  real_elem last = true ->
  plain name = true ->
  Clean (q +++ String "/" name) = Clean (q +++ String "/" "") +++ String "/" name.
Proof.
  intros Hq Hsplit Hlast Hplain.
  unfold Clean.
  destruct (String.eqb_spec (q +++ String "/" name) "") as [E|_];
    [exfalso; eapply append_cons_not_nil; eassumption|].
  destruct (String.eqb_spec (q +++ String "/" "") "") as [E|_];
    [exfalso; eapply append_cons_not_nil; eassumption|].
  assert (Hroot : forall t, is_rooted (q +++ t) = is_rooted q)
    by (intros t; destruct q; [contradiction|reflexivity]).
  rewrite !Hroot, !Split_app, !fold_left_app, Hsplit, !fold_left_app.
  set (st := fold_left step front (mkCleaner (is_rooted q) 0 [])).
  simpl fold_left at 2 4. rewrite (step_real st last Hlast).
  rewrite fold_real by exact Hplain.
  cbn [fold_left gostrings.Split step String.eqb].
  unfold render, body. cbn [rooted dotdot elems].
  rewrite rev_app_distr, rev_involutive.
  cbn [rev]. rewrite !app_assoc.
  unfold gostrings.Join.
  rewrite (concat_app "/"
             ((repeat ".." (dotdot st) ++ rev (elems st)) ++ [last])
             (gostrings.Split name))
    by (try apply Split_not_nil; intros E; apply app_eq_nil in E as [_ E]; discriminate).
  fold (gostrings.Join (gostrings.Split name) "/"). rewrite Join_Split.
  set (b := String.concat "/" ((repeat ".." (dotdot st) ++ rev (elems st)) ++ [last])).
  assert (Hb : b <> "").
  { unfold b. destruct (repeat ".." (dotdot st) ++ rev (elems st)) as [|x l] eqn:El.
    - simpl. unfold real_elem in Hlast.
      apply andb_prop in Hlast as [Hl _]. apply andb_prop in Hl as [Hl _].
      apply negb_true_iff in Hl. apply String.eqb_neq in Hl. exact Hl.
    - rewrite concat_app by discriminate. intros E.
      destruct (String.concat "/" (x :: l)); simpl in E; discriminate. }
  destruct (rooted st).
  - simpl. reflexivity.
  - destruct (String.eqb_spec b "") as [E|_]; [contradiction|].
    destruct (String.eqb_spec (b +++ "/" +++ name) "") as [E|_]; [|reflexivity].
    exfalso. destruct b; [contradiction|simpl in E; discriminate].
Qed.

(** The directory of a plain full name is the directory of the host
    followed by the name. *)
Lemma repoDir_plain (persistPath fullName : string) :
  plain fullName = true ->
  repoDir persistPath fullName = repoDir persistPath "" +++ String "/" fullName.
Proof.
  intros Hplain. unfold repoDir, Join. simpl drop_empty.
  destruct (String.eqb_spec persistPath "") as [->|Hp]; simpl drop_empty.
  - change (gostrings.Join ["repos"; "github.com"; fullName] "/")
      with ("repos/github.com" +++ String "/" fullName).
    change (gostrings.Join ["repos"; "github.com"; ""] "/")
      with ("repos/github.com" +++ String "/" "").
    apply Clean_below with (last := "github.com") (front := ["repos"]);
      [discriminate|reflexivity|reflexivity|assumption].
  - assert (E : forall n, gostrings.Join [persistPath; "repos"; "github.com"; n] "/"
                        = (persistPath +++ String "/" "repos/github.com") +++ String "/" n).
    { intros n. unfold gostrings.Join. simpl. rewrite append_assoc. reflexivity. }
    rewrite !E.
    apply Clean_below with (last := "github.com")
                           (front := gostrings.Split persistPath ++ ["repos"]);
      [ destruct persistPath; [contradiction|discriminate]
      | rewrite Split_app, <- app_assoc; reflexivity
      | reflexivity
      | assumption ].
Qed.

End mirror_path.

(** ** Running the handlers *)

Ltac unfold_effects :=
  cbv beta iota zeta delta
      [bind ret panic deref first8 http_Error Write WriteHeader log Println
       record_db run on_fs read_fs].

(** Case analysis on what the handler inspects next: the scrutinee that
    is evaluated first. *)
Ltac first_scrutinee x k :=
  lazymatch x with
  | context [match ?y with _ => _ end] => first_scrutinee y k
  | _ => k x
  end.

Ltac next_case :=
  lazymatch goal with
  | |- context [match ?x with _ => _ end] =>
      first_scrutinee x ltac:(fun y => destruct y eqn:?)
  end.

Ltac tidy := cbn beta iota zeta; cbn [fst snd execs fs status body logs db stdout].

Ltac cases := tidy; repeat (next_case; tidy).

(** *** The push pipeline of the current revision *)

Section push_pipeline.
Context {FS : Type}.
Variable W : mailbot.World FS.
Import github.

(** After the push handler has returned, the event handler runs nothing
    and leaves the file system alone. *)
Lemma eventHandler_execs (Cfg : AppConfig) (req : Request) (p : Proc FS) :
  let p' := snd (mailbot.githubEventHandler W Cfg req p) in
  match mailbot.ValidatePayload W req (WebhookSecret Cfg) with
  | inr _ => execs p' = execs p /\ fs p' = fs p
  | inl payload =>
      match mailbot.ParseWebHook W (X_GitHub_Event req) payload with
      | inl (Push ev) =>
          let p1 := snd (mailbot.githubPushHandler W Cfg
                           {| mailbot.installation := GetID (Inst ev);
                              mailbot.repo := GetFullName (Repo ev) |} ev p) in
          execs p' = execs p1 /\ fs p' = fs p1
      | _ => execs p' = execs p /\ fs p' = fs p
      end
  end.
Proof.
  unfold mailbot.githubEventHandler.
  destruct (mailbot.ValidatePayload W req (WebhookSecret Cfg)) as [payload|e].
  2: { unfold_effects. cases; auto. }
  destruct (mailbot.ParseWebHook W (X_GitHub_Event req) payload) as [[| ev | ev | ev |]|e].
  2: { cbv beta iota zeta delta [bind ret]. cbn beta iota.
       destruct (mailbot.githubPushHandler W Cfg _ ev p) as [[[err|]|why] p1];
         unfold_effects; cases; auto. }
  all: unfold_effects; cases; auto.
Qed.

(** What the push handler runs depends on the credential through
    [notifier_cmd] only. *)
Lemma pushHandler_password (Cfg : AppConfig) (h : mailbot.PushHandler)
      (ev : PushEvent) (p : Proc FS) :
  exists plan : list (list string * string * string),
  forall pw,
    execs (snd (mailbot.githubPushHandler W (with_password Cfg pw) h ev p))
    = execs p ++ map (notifier_cmd (mailbot.Environ W) pw) plan.
Proof.
  unfold mailbot.githubPushHandler, config.getConfig, config.parseConfig.
  unfold_effects.
  cbn [AppId AppPrivateKey SmtpPassword with_password].
  cases.
  all: first
         [ exists []; intros pw; cbn [map]; rewrite app_nil_r; reflexivity
         | refine (ex_intro _ [(_, _, _)] _); intros pw;
           cbn [map notifier_cmd]; destruct (String.eqb pw "");
           cases; cbn [app]; reflexivity ].
Qed.

End push_pipeline.

Section slices.

Lemma slice_to_Some (n : nat) (s : string) :
  (n <= String.length s)%nat <-> exists r, gostrings.slice_to n s = Some r.
Proof.
  revert s. induction n as [|n IH]; intros s; simpl.
  - split; [eauto|lia].
  - destruct s as [|c s]; simpl.
    + split; [lia|intros [r H]; discriminate].
    + rewrite <- Nat.succ_le_mono, IH.
      split; intros [r H].
      * rewrite H. eauto.
      * destruct (gostrings.slice_to n s); [eauto|discriminate].
Qed.

Lemma slice_to_None (n : nat) (s : string) :
  (String.length s < n)%nat <-> gostrings.slice_to n s = None.
Proof.
  pose proof (slice_to_Some n s) as H.
  destruct (gostrings.slice_to n s) as [r|].
  - split; [|discriminate]. intros Hlt.
    assert (n <= String.length s)%nat by (apply H; eauto). lia.
  - split; [reflexivity|]. intros _.
    destruct (Nat.le_gt_cases n (String.length s)) as [Hle|Hgt]; [|exact Hgt].
    apply H in Hle as [r Hr]. discriminate.
Qed.

End slices.

(** ** Configuration resolution *)

Section resolution.
Context {FS : Type}.
Variable toml_Decode : string -> config.Decoded.
Variable GitShow : FS -> string -> string -> string -> string + error.

(** A file that decodes and whose format is allowed resolves to the
    decoded value; keys that matched no field cost one warning. *)
Lemma parseConfig_ok (text : string) (c : config.CommitEmailConfig)
      (undecoded : list string) (p : Proc FS) :
  toml_Decode text = config.DecodeOk c undecoded ->
  allowed_format (config.Format c) = true ->
  config.parseConfig toml_Decode text p =
    (Returns (c, None),
     match undecoded with
     | [] => p
     | _ => snd (log (Slog WARN "unknown config fields"
                           [("fields", gostrings.Join undecoded ", ")]) p)
     end).
Proof.
  intros Hd Hf. unfold config.parseConfig, allowed_format in *.
  rewrite Hd, Hf. destruct undecoded; reflexivity.
Qed.

(** A file whose format is not allowed does not resolve. *)
Lemma parseConfig_bad_format (text : string) (c : config.CommitEmailConfig)
      (undecoded : list string) (p : Proc FS) :
  toml_Decode text = config.DecodeOk c undecoded ->
  allowed_format (config.Format c) = false ->
  exists p',
    config.parseConfig toml_Decode text p =
      (Returns (config.zero,
                Some (errorString ("invalid email.format (should be html or text): "
                                   +++ config.Format c))), p')
    /\ execs p' = execs p /\ fs p' = fs p.
Proof.
  intros Hd Hf. unfold config.parseConfig, allowed_format in *.
  rewrite Hd, Hf. destruct undecoded; eexists; split; try reflexivity; auto.
Qed.

End resolution.

(** C8. A configuration file that decodes and whose recognised fields are
    valid resolves to the decoded configuration whatever keys it holds
    besides: unknown keys make [parseConfig] log one warning,
    "unknown config fields", and nothing else changes. *)
Theorem C8_unknown_fields_only_warn :
  forall (FS : Type) (toml_Decode : string -> config.Decoded)
         (GitShow : FS -> string -> string -> string -> string + error)
         (gitRepo text : string) (c : config.CommitEmailConfig)
         (undecoded : list string) (p : Proc FS),
    GitShow (fs p) gitRepo "HEAD" ".github/commit-emails.toml" = inl text ->
    toml_Decode text = config.DecodeOk c undecoded ->
    allowed_format (config.Format c) = true ->
    config.getConfig toml_Decode GitShow gitRepo p =
      (Returns (c, None),
       mkProc (fs p) (status p) (body p)
              (logs p ++ match undecoded with
                         | [] => []
                         | _ => [Slog WARN "unknown config fields"
                                       [("fields", gostrings.Join undecoded ", ")]]
                         end)
              (stdout p) (execs p) (db p)).
Proof.
  intros FS toml_Decode GitShow gitRepo text c undecoded p Hshow Hd Hf.
  unfold config.getConfig. unfold_effects. rewrite Hshow.
  rewrite (parseConfig_ok toml_Decode text c undecoded p Hd Hf).
  destruct undecoded; simpl; [rewrite app_nil_r; destruct p|]; reflexivity.
Qed.

(** The file of the repository octo/extra holds two keys that match no
    field; it resolves, with one warning that names them. *)
Lemma C8_unknown_fields_only_warn_witness :
  let W := fake.world fake.setup "persist" in
  let disk := [("persist/repos/github.com/octo/extra",
                fake.Mirror "octo/extra" (Some "extra"))] in
  config.getConfig (mailbot.toml_Decode W) (mailbot.GitShow W)
                   "persist/repos/github.com/octo/extra" (start disk)
  = (Returns ({| config.MailingList := "commits@example.org"; config.Format := "" |},
              None),
     mkProc disk None ""
            [Slog WARN "unknown config fields" [("fields", "cc, email.subject")]]
            "" [] []).
Proof.
  intros W disk.
  exact (C8_unknown_fields_only_warn fake.Disk (mailbot.toml_Decode W) (mailbot.GitShow W)
           "persist/repos/github.com/octo/extra" "extra"
           {| config.MailingList := "commits@example.org"; config.Format := "" |}
           ["cc"; "email.subject"] (start disk) eq_refl eq_refl eq_refl).
Defined.

(** ** The push pipeline, claim by claim *)

(** C4. When the configuration file of the mirror decodes to a format
    other than the empty one, [html] or [text], resolution fails with
    "invalid email.format", the push handler returns that error, and no
    notifier has been run. *)
Theorem C4_bad_format_rejected :
  forall (FS : Type) (W : mailbot.World FS) (Cfg : AppConfig)
         (h : mailbot.PushHandler) (ev : github.PushEvent) (p : Proc FS)
         (inst : github.Installation) (id : Z) (gitDir text : string) (disk : FS)
         (c : config.CommitEmailConfig) (undecoded : list string),
    github.Inst ev = Some inst ->
    github.ID inst = Some id ->
    mailbot.ghinstallation_New W (AppId Cfg) id (AppPrivateKey Cfg) = None ->
    mailbot.SyncRepo W id (github.Repo ev) (fs p) = ((gitDir, None), disk) ->
    mailbot.GitShow W disk gitDir "HEAD" ".github/commit-emails.toml" = inl text ->
    mailbot.toml_Decode W text = config.DecodeOk c undecoded ->
    allowed_format (config.Format c) = false ->
    exists p',
      mailbot.githubPushHandler W Cfg h ev p =
        (Returns (Some (errorString
                          ("could not get config for " +++ mailbot.repo h +++ ": "
                           +++ "invalid email.format (should be html or text): "
                           +++ config.Format c))), p')
      /\ execs p' = execs p.
Proof.
  intros FS W Cfg h ev p inst id gitDir text disk c undecoded
         Hinst Hid Hnew Hsync Hshow Hdec Hfmt.
  unfold mailbot.githubPushHandler, config.getConfig.
  rewrite Hinst. unfold_effects. rewrite Hid, Hnew, Hsync. tidy. rewrite Hshow.
  destruct (parseConfig_bad_format (mailbot.toml_Decode W) text c undecoded
              (mkProc disk (status p) (body p) (logs p) (stdout p) (execs p) (db p))
              Hdec Hfmt) as (p' & -> & Hex & _).
  exists p'. split; [reflexivity|exact Hex].
Qed.

(** A push to octo/pdf, whose file asks for the format "pdf". *)
Lemma C4_bad_format_rejected_witness :
  exists p',
    mailbot.githubPushHandler (fake.world fake.setup "persist") fake.Cfg
      {| mailbot.installation := 7; mailbot.repo := "octo/pdf" |}
      (fake.push_event "octo/pdf" (Some fake.sha_a) (Some fake.sha_b)) (start [])
    = (Returns (Some (errorString
         "could not get config for octo/pdf: invalid email.format (should be html or text): pdf")),
       p')
    /\ execs p' = [].
Proof.
  exact (C4_bad_format_rejected fake.Disk (fake.world fake.setup "persist") fake.Cfg
           {| mailbot.installation := 7; mailbot.repo := "octo/pdf" |}
           (fake.push_event "octo/pdf" (Some fake.sha_a) (Some fake.sha_b)) (start [])
           {| github.ID := Some 7%Z; github.Account := None |} 7
           "persist/repos/github.com/octo/pdf" "pdf"
           [("persist/repos/github.com/octo/pdf", fake.Mirror "octo/pdf" (Some "pdf"))]
           {| config.MailingList := "commits@example.org"; config.Format := "pdf" |} []
           eq_refl eq_refl eq_refl eq_refl eq_refl eq_refl eq_refl).
Defined.

(** The earlier revision: the same check on [emailFormat] of the JSON file. *)
Lemma legacy_bad_format_rejected :
  forall (FS : Type) (W : legacy.World FS) (gitRepo text : string) (p : Proc FS)
         (disk : FS) (c : legacy.CommitEmailConfig),
    legacy.git W gitRepo ["show"; "HEAD:.github/commit-emails.json"] (fs p)
      = ((text, None), disk) ->
    legacy.Decode_config W text = inl c ->
    allowed_format (legacy.EmailFormat c) = false ->
    exists p',
      legacy.getConfig W gitRepo p =
        (Returns (legacy.zero,
                  Some (errorString ("invalid emailFormat (should be html or text): "
                                     +++ legacy.Quote W (legacy.EmailFormat c)))), p')
      /\ execs p' = execs p.
Proof.
  intros FS W gitRepo text p disk c Hshow Hdec Hfmt.
  unfold legacy.getConfig, legacy.runGitCmd. unfold_effects.
  rewrite Hshow. tidy. rewrite Hdec.
  unfold allowed_format in Hfmt.
  apply orb_false_elim in Hfmt as [Hfmt Ht].
  apply orb_false_elim in Hfmt as [He Hh].
  rewrite He, Hh, Ht. simpl. eexists. split; reflexivity.
Qed.


(** The same in the earlier revision, where the three values are plain
    strings. *)
Lemma legacy_notifier_stdin :
  forall (FS : Type) (W : legacy.World FS) (G : legacy.Globals)
         (ev : legacy.GithubPushEvent) (p : Proc FS),
    let p' := snd (legacy.githubPushHandler W G ev p) in
    execs p' = execs p \/
    exists cmd, execs p' = execs p ++ [cmd]
                /\ stdin cmd = legacy.Before ev +++ " " +++ legacy.After ev
                               +++ " " +++ legacy.Ref ev.
Proof.
  intros FS W G ev p.
  unfold legacy.githubPushHandler, legacy.getConfig, legacy.syncRepo,
    legacy.gitClone, legacy.gitFetch, legacy.runGitCmd.
  unfold_effects. cases; auto; right; eexists; split; reflexivity.
Qed.


(** In that scenario the notifier does run, once. *)
Example push_runs_notifier_once :
  map stdin
      (execs (snd (mailbot.githubEventHandler (fake.world fake.setup "persist") fake.Cfg
                     (fake.signed "s3cret" "push" "push") (start []))))
  = ["aaaaaaaaaaaaaaaaaaaaaaaaaaaaaaaaaaaaaaaa bbbbbbbbbbbbbbbbbbbbbbbbbbbbbbbbbbbbbbbb refs/heads/main"].
Proof. vm_compute. reflexivity. Qed.

(** The scenario of the specification with [emailFormat = html]: the
    answer is 200 "OK" and the notifier gets the format override. *)
Example push_with_html_format :
  let result := mailbot.githubEventHandler (fake.world fake.setup "persist") fake.Cfg
                  (fake.signed "s3cret" "push" "push") (start []) in
  fst result = Returns tt
  /\ status (snd result) = Some 200%Z
  /\ body (snd result) = "OK"
  /\ map (fun c => nth 3 (args c) "") (execs (snd result))
     = ["multimailhook.commitEmailFormat=html"].
Proof. vm_compute. repeat split; reflexivity. Qed.

(** C2 at the failing input: octo/bare has no configuration file; with
    [SyncRepo] as the specification describes it the mirror is
    synchronised, the file is not found at HEAD, and the answer to the
    push is 400. *)
Lemma C2_missing_config_answers_400 :
  let W := fake.world fake.setup "persist" in
  let p' := snd (mailbot.githubEventHandler W fake.Cfg
                   (fake.signed "s3cret" "push" "bare") (start [])) in
  mailbot.GitShow W (fs p') "persist/repos/github.com/octo/bare" "HEAD"
                  ".github/commit-emails.toml" = inr fake.exit128
  /\ status p' = Some 400%Z
  /\ body p' = "push handler failed: could not get config for octo/bare: no commit-emails.toml found"
               +++ String "010" ""
  /\ execs p' = [].
Proof. vm_compute. repeat split; reflexivity. Qed.



(** C3. Whatever the request, there is a plan of notifier runs (the
    arguments after the flag, the mirror directory and the standard input
    of each run; none or one) that does not depend on the SMTP credential
    and such that, for every credential [pw], the handler runs exactly
    [notifier_cmd (Environ W) pw] of that plan: the credential decides the
    flag [--stdout] (present exactly when it is empty) and the entry
    [GIT_CONFIG_PARAMETERS] of the environment, and nothing else of the
    run. *)
Theorem C3_credential_only_in_environment :
  forall (FS : Type) (W : mailbot.World FS) (Cfg : AppConfig) (req : Request)
         (p : Proc FS),
  exists plan : list (list string * string * string),
  forall pw : string,
    execs (snd (mailbot.githubEventHandler W (with_password Cfg pw) req p))
    = execs p ++ map (notifier_cmd (mailbot.Environ W) pw) plan.
Proof.
  intros FS W Cfg req p.
  assert (Hex := fun pw => eventHandler_execs W (with_password Cfg pw) req p).
  cbn [WebhookSecret with_password] in Hex. cbv zeta in Hex.
  destruct (mailbot.ValidatePayload W req (WebhookSecret Cfg)) as [payload|e].
  2: { exists []. intros pw. rewrite (proj1 (Hex pw)). symmetry. apply app_nil_r. }
  destruct (mailbot.ParseWebHook W (X_GitHub_Event req) payload)
    as [[| ev | ev | ev |]|e].
  2: { destruct (pushHandler_password W Cfg
                   {| mailbot.installation := github.GetID (github.Inst ev);
                      mailbot.repo := github.GetFullName (github.Repo ev) |} ev p)
         as [plan Hplan].
       exists plan. intros pw. rewrite (proj1 (Hex pw)). apply Hplan. }
  all: exists []; intros pw; rewrite (proj1 (Hex pw)); symmetry; apply app_nil_r.
Qed.

(** The run of the specification's scenario, with a credential and
    without one. *)
Example credential_stays_out_of_args :
  let W := fake.world fake.setup "persist" in
  let run pw := execs (snd (mailbot.githubEventHandler W (with_password fake.Cfg pw)
                              (fake.signed "s3cret" "push" "push") (start []))) in
  map args (run "hunter2")
  = [["-c"; "multimailhook.mailingList=commits@example.org";
      "-c"; "multimailhook.commitEmailFormat=html";
      "-c"; "multimailhook.from=Ada <notifications@commit-emails.xyz>";
      "-c"; "multimailhook.commitBrowseURL=https://github.com/octo/demo/commit/%(id)s"]]
  /\ map args (run "") = map (cons "--stdout") (map args (run "hunter2"))
  /\ map (fun c => last (env c) "") (run "hunter2")
     = ["GIT_CONFIG_PARAMETERS='multimailhook.smtpPass=hunter2'"].
Proof. vm_compute. repeat split; reflexivity. Qed.

(** The same in the earlier revision, for the push handler. *)
Lemma legacy_credential_only_in_environment :
  forall (FS : Type) (W : legacy.World FS) (persist secret : string)
         (ev : legacy.GithubPushEvent) (p : Proc FS),
  exists plan : list (list string * string * string),
  forall pw : string,
    execs (snd (legacy.githubPushHandler W
                  {| legacy.persistPath := persist; legacy.webhookSecret := secret;
                     legacy.smtpPassword := pw |} ev p))
    = execs p ++ map (notifier_cmd (legacy.Environ W) pw) plan.
Proof.
  intros FS W persist secret ev p.
  unfold legacy.githubPushHandler, legacy.getConfig, legacy.syncRepo,
    legacy.gitClone, legacy.gitFetch, legacy.runGitCmd.
  unfold_effects. cbn [legacy.persistPath legacy.smtpPassword].
  cases.
  all: first
         [ exists []; intros pw; cbn [map]; rewrite app_nil_r; reflexivity
         | refine (ex_intro _ [(_, _, _)] _); intros pw;
           cbn [map notifier_cmd]; destruct (String.eqb pw "");
           cases; cbn [app]; reflexivity ].
Qed.

(** C9, as stated, fails: a signed ping for octo/demo is answered "Pong"
    and the mirror that was absent is absent still. *)
Lemma C9_ping_creates_no_mirror :
  let W := fake.world fake.setup "persist" in
  let result := mailbot.githubEventHandler W fake.Cfg
                  (fake.signed "s3cret" "ping" "{}") (start []) in
  fake.Stat [] (repoDir "persist" "octo/demo") = legacy.NotExist
  /\ result = (Returns tt, mkProc [] (Some 200%Z) "Pong" [] "" [] [])
  /\ fake.Stat (fs (snd result)) (repoDir "persist" "octo/demo") = legacy.NotExist.
Proof. vm_compute. repeat split; reflexivity. Qed.

(** C9, amended.  A ping that validates and parses is answered 200 with
    the body "Pong"; the handler does nothing else: the file system is as
    it was, nothing is logged and nothing is run. *)
Theorem C9_ping_pong :
  forall (FS : Type) (W : mailbot.World FS) (Cfg : AppConfig) (req : Request)
         (disk : FS) (payload : string),
    mailbot.ValidatePayload W req (WebhookSecret Cfg) = inl payload ->
    mailbot.ParseWebHook W (X_GitHub_Event req) payload = inl github.Ping ->
    mailbot.githubEventHandler W Cfg req (start disk)
    = (Returns tt, mkProc disk (Some 200%Z) "Pong" [] "" [] []).
Proof.
  intros FS W Cfg req disk payload Hval Hparse.
  unfold mailbot.githubEventHandler. rewrite Hval, Hparse. reflexivity.
Qed.

Lemma C9_ping_pong_witness :
  mailbot.githubEventHandler (fake.world fake.setup "persist") fake.Cfg
    (fake.signed "s3cret" "ping" "{}") (start [])
  = (Returns tt, mkProc [] (Some 200%Z) "Pong" [] "" [] []).
Proof.
  exact (C9_ping_pong fake.Disk (fake.world fake.setup "persist") fake.Cfg
           (fake.signed "s3cret" "ping" "{}") [] "{}"
           ltac:(vm_compute; reflexivity) eq_refl).
Defined.

(** C10. After a push pipeline that succeeded, the handler records the
    push, writes "OK" and then cuts the first eight bytes of the before-
    and after-SHA for the log.  It returns exactly when both are present
    and at least eight bytes long; otherwise it panics, with the notifier
    runs of the pipeline, the record of the push and the body "OK" already
    in place. *)
Theorem C10_short_sha_panics :
  forall (FS : Type) (W : mailbot.World FS) (Cfg : AppConfig) (req : Request)
         (p p1 : Proc FS) (payload : string) (ev : github.PushEvent),
    mailbot.ValidatePayload W req (WebhookSecret Cfg) = inl payload ->
    mailbot.ParseWebHook W (X_GitHub_Event req) payload = inl (github.Push ev) ->
    mailbot.githubPushHandler W Cfg
      {| mailbot.installation := github.GetID (github.Inst ev);
         mailbot.repo := github.GetFullName (github.Repo ev) |} ev p
    = (Returns None, p1) ->
    execs (snd (mailbot.githubEventHandler W Cfg req p)) = execs p1
    /\ db (snd (mailbot.githubEventHandler W Cfg req p)) = db p1 ++ [AddPush ev]
    /\ body (snd (mailbot.githubEventHandler W Cfg req p)) = body p1 +++ "OK"
    /\ (fst (mailbot.githubEventHandler W Cfg req p) = Returns tt <->
        exists b a, github.Before ev = Some b /\ github.After ev = Some a
                    /\ (8 <= String.length b)%nat /\ (8 <= String.length a)%nat)
    /\ (fst (mailbot.githubEventHandler W Cfg req p) = Returns tt \/
        exists why, fst (mailbot.githubEventHandler W Cfg req p) = Panics why).
Proof.
  intros FS W Cfg req p p1 payload ev Hval Hparse Hpush.
  unfold mailbot.githubEventHandler. rewrite Hval, Hparse.
  cbv beta iota zeta delta [bind ret]. rewrite Hpush. unfold_effects. tidy.
  assert (Hcut : forall s, (8 <= String.length s)%nat \/ gostrings.slice_to 8 s = None).
  { intros s. destruct (Nat.le_gt_cases 8 (String.length s)) as [H|H];
      [left; exact H|right; apply slice_to_None; exact H]. }
  destruct (status p1); tidy.
  all: destruct (github.Before ev) as [b|]; tidy;
    [ destruct (Hcut b) as [Hb|Hb];
      [ destruct (proj1 (slice_to_Some 8 b) Hb) as [b8 ->]; tidy;
        destruct (github.After ev) as [a|]; tidy;
        [ destruct (Hcut a) as [Ha|Ha];
          [ destruct (proj1 (slice_to_Some 8 a) Ha) as [a8 ->]; tidy
          | rewrite Ha; tidy ]
        | ]
      | rewrite Hb; tidy ]
    | ].
  all: repeat split; try reflexivity; try discriminate;
    try (left; reflexivity); try (right; eexists; reflexivity);
    try (exists b, a; auto).
  all: try (intros (b' & a' & Hb' & Ha' & Hlb & Hla); try discriminate;
            try (injection Hb' as <-); try (injection Ha' as <-);
            try (apply slice_to_None in Hb; lia);
            try (apply slice_to_None in Ha; lia)).
Qed.

(** A push whose before-SHA has seven bytes: the notifier has run and
    "OK" is written when the handler panics. *)
Lemma C10_short_sha_panics_witness :
  fst (mailbot.githubEventHandler (fake.world fake.setup "persist") fake.Cfg
         (fake.signed "s3cret" "push" "short") (start []))
  = Panics "runtime error: slice bounds out of range"
  /\ map path (execs (snd (mailbot.githubEventHandler (fake.world fake.setup "persist")
                             fake.Cfg (fake.signed "s3cret" "push" "short") (start []))))
     = ["./git_multimail_wrapper.py"]
  /\ body (snd (mailbot.githubEventHandler (fake.world fake.setup "persist") fake.Cfg
                  (fake.signed "s3cret" "push" "short") (start [])))
     = "OK".
Proof.
  destruct (C10_short_sha_panics fake.Disk (fake.world fake.setup "persist") fake.Cfg
              (fake.signed "s3cret" "push" "short") (start [])
              (snd (mailbot.githubPushHandler (fake.world fake.setup "persist") fake.Cfg
                      {| mailbot.installation := 7; mailbot.repo := "octo/demo" |}
                      (fake.push_event "octo/demo" (Some "0000000") (Some fake.sha_b))
                      (start [])))
              "short"
              (fake.push_event "octo/demo" (Some "0000000") (Some fake.sha_b))
              ltac:(vm_compute; reflexivity) eq_refl eq_refl)
    as (Hexecs & _ & Hbody & Hiff & [Hret|[why Hwhy]]).
  - exfalso. apply Hiff in Hret as (b & a & Hb & _ & Hlen & _).
    injection Hb as <-. simpl in Hlen. lia.
  - split; [vm_compute; reflexivity|].
    split; [exact (f_equal (map path) Hexecs)|exact Hbody].
Defined.

(** ** The earlier revision: ping and the log of a push *)

(** A ping first writes a log line and synchronises the mirror; "Pong" is
    the answer when that succeeded, 400 otherwise. *)
Lemma legacy_ping_syncs_first :
  forall (FS : Type) (W : legacy.World FS) (G : legacy.Globals) (req : Request)
         (p : Proc FS) (g : legacy.GithubGenericEvent),
    Method req = "POST" ->
    legacy.authenticate (legacy.webhookSecret G) (X_Hub_Signature_256 req) (Body req)
      = inl tt ->
    X_GitHub_Event req = "ping" ->
    legacy.Unmarshal_generic W (gostrings.take legacy.maxBody (Body req)) = inl g ->
    let url := legacy.CloneUrl (legacy.Repository g) in
    let gitDir := repoDir (legacy.persistPath G) (legacy.FullName (legacy.Repository g)) in
    let line := legacy.FullName (legacy.Repository g) +++ ": ping from "
                +++ legacy.Login (legacy.Sender g) in
    match legacy.syncRepo W gitDir url (snd (log (Printf line) p)) with
    | (Returns None, p1) =>
        legacy.githubEventHandler W G req p = Write "Pong" p1
    | (Returns (Some err), p1) =>
        let msg := "syncing repo " +++ legacy.Quote W url +++ " failed: " +++ Error err in
        legacy.githubEventHandler W G req p
        = (http_Error msg 400 ;; log (Printf msg)) p1
    | (Panics why, p1) =>
        legacy.githubEventHandler W G req p = (Panics why, p1)
    end.
Proof.
  intros FS W G req p g Hm Hauth Hev Hjson url gitDir line.
  unfold legacy.githubEventHandler. rewrite Hm, Hauth, Hev, Hjson.
  cbn [String.eqb Ascii.eqb Bool.eqb negb].
  subst url gitDir line.
  cbv beta iota zeta delta [bind ret log]. cbn [snd].
  destruct (legacy.syncRepo W _ _ _) as [[[err|]|why] p1]; reflexivity.
Qed.

Example legacy_ping_makes_mirror :
  legacy.githubEventHandler (fake.legacy_world fake.setup) fake.G
    (fake.signed "s3cret" "ping" "ping") (start [])
  = (Returns tt,
     mkProc [("persist/repos/github.com/octo/demo",
              fake.Mirror "https://github.com/octo/demo.git" (Some "html"))]
            (Some 200%Z) "Pong"
            [Printf "octo/demo: ping from ada";
             Printf "Cloned https://github.com/octo/demo.git to persist/repos/github.com/octo/demo"]
            "" [] []).
Proof. vm_compute. reflexivity. Qed.

(** After a push that succeeded the earlier handler writes "OK" and then
    cuts both SHAs; it returns exactly when both have eight bytes. *)
Lemma legacy_short_sha_panics :
  forall (FS : Type) (W : legacy.World FS) (G : legacy.Globals) (req : Request)
         (p p1 : Proc FS) (ev : legacy.GithubPushEvent) (g : legacy.GithubGenericEvent),
    Method req = "POST" ->
    legacy.authenticate (legacy.webhookSecret G) (X_Hub_Signature_256 req) (Body req)
      = inl tt ->
    X_GitHub_Event req = "push" ->
    legacy.Unmarshal_push W (gostrings.take legacy.maxBody (Body req)) = inl ev ->
    legacy.Generic ev = Some g ->
    legacy.githubPushHandler W G ev
      (snd (log (Printf (legacy.FullName (legacy.Repository g) +++ ": push from "
                         +++ legacy.Login (legacy.Sender g))) p))
    = (Returns None, p1) ->
    execs (snd (legacy.githubEventHandler W G req p)) = execs p1
    /\ body (snd (legacy.githubEventHandler W G req p)) = body p1 +++ "OK"
    /\ (fst (legacy.githubEventHandler W G req p) = Returns tt <->
        (8 <= String.length (legacy.Before ev))%nat
        /\ (8 <= String.length (legacy.After ev))%nat).
Proof.
  intros FS W G req p p1 ev g Hm Hauth Hev Hjson Hg Hpush.
  unfold legacy.githubEventHandler. rewrite Hm, Hauth, Hev, Hjson.
  cbn [String.eqb Ascii.eqb Bool.eqb negb].
  cbv beta iota zeta delta [bind ret log deref] in *. rewrite Hg. cbn [snd] in *.
  cbn [String.append] in *. rewrite Hpush. unfold_effects. tidy. try rewrite Hg.
  assert (Hcut : forall s, (8 <= String.length s)%nat \/ gostrings.slice_to 8 s = None).
  { intros s. destruct (Nat.le_gt_cases 8 (String.length s)) as [H|H];
      [left; exact H|right; apply slice_to_None; exact H]. }
  destruct (status p1); tidy.
  all: destruct (Hcut (legacy.Before ev)) as [Hb|Hb];
    [ destruct (proj1 (slice_to_Some 8 _) Hb) as [b8 ->]; tidy;
      destruct (Hcut (legacy.After ev)) as [Ha|Ha];
      [ destruct (proj1 (slice_to_Some 8 _) Ha) as [a8 ->]; tidy
      | rewrite Ha; tidy ]
    | rewrite Hb; tidy ].
  all: repeat split; try reflexivity; try discriminate; auto.
  all: try (intros [Hlb Hla]; try (apply slice_to_None in Hb; lia);
            try (apply slice_to_None in Ha; lia)).
Qed.

Example legacy_push_with_absent_before_panics :
  let result := legacy.githubEventHandler (fake.legacy_world fake.setup) fake.G
                  (fake.signed "s3cret" "push" "short") (start []) in
  fst result = Panics "runtime error: slice bounds out of range"
  /\ map stdin (execs (snd result))
     = [" bbbbbbbbbbbbbbbbbbbbbbbbbbbbbbbbbbbbbbbb refs/heads/main"]
  /\ body (snd result) = "OK".
Proof. vm_compute. repeat split; reflexivity. Qed.

(** ** Authentication of the webhook (earlier revision) *)

Section authentication.

Lemma hex_pair (c : ascii) :
  fmt.hexDigit (hex.digit (N_of_ascii c / 16)) = Some (N_of_ascii c / 16)%N
  /\ fmt.hexDigit (hex.digit (N_of_ascii c mod 16)) = Some (N_of_ascii c mod 16)%N
  /\ ascii_of_N (N.lor (N.shiftl (N_of_ascii c / 16) 4) (N_of_ascii c mod 16)) = c.
Proof.
  destruct c as [[] [] [] [] [] [] [] []]; vm_compute; repeat split; reflexivity.
Qed.

(** What [hex.EncodeToString] writes, [hexString] reads back. *)
Lemma hexString_Encode (d : string) :
  fmt.hexString (hex.EncodeToString d) = inl d.
Proof.
  induction d as [|c d IH]; [reflexivity|].
  cbn [hex.EncodeToString fmt.hexString].
  destruct (hex_pair c) as (-> & -> & ->). rewrite IH. reflexivity.
Qed.

Lemma hexDigit_range (c : ascii) (v : N) :
  fmt.hexDigit c = Some v -> (48 <= N_of_ascii c <= 102)%N.
Proof.
  unfold fmt.hexDigit.
  repeat match goal with
         | |- context [N.leb ?x ?y] => destruct (N.leb_spec x y)
         end; cbn [andb]; try discriminate; intros _; lia.
Qed.

(** A hex digit is no white space, so [SkipSpace] stops in front of it. *)
Lemma SkipSpace_hex (c : ascii) (rest : string) (v : N) :
  fmt.hexDigit c = Some v ->
  fmt.SkipSpace (String c rest) = inl (String c rest).
Proof.
  intros H. apply hexDigit_range in H.
  cbn [fmt.SkipSpace]. unfold fmt.space1, fmt.space2, fmt.space3.
  repeat match goal with
         | |- context [N.eqb (N_of_ascii c) ?k] =>
             destruct (N.eqb_spec (N_of_ascii c) k); [lia|]
         end.
  cbn [orb andb]. destruct rest as [|c2 [|c3 r3]]; reflexivity.
Qed.

(** The header that GitHub sends scans as the digest it encodes. *)
Lemma Sscanf_canonical (d : string) :
  d <> "" ->
  fmt.Sscanf_sha256 ("sha256=" +++ hex.EncodeToString d) = inl d.
Proof.
  destruct d as [|c d]; [contradiction|]. intros _.
  unfold fmt.Sscanf_sha256.
  change (fmt.advance "sha256=" ("sha256=" +++ hex.EncodeToString (String c d)))
    with (@inl string error (hex.EncodeToString (String c d))).
  cbn [hex.EncodeToString].
  rewrite (SkipSpace_hex _ _ _ (proj1 (hex_pair c))).
  change (String (hex.digit (N_of_ascii c / 16))
            (String (hex.digit (N_of_ascii c mod 16)) (hex.EncodeToString d)))
    with (hex.EncodeToString (String c d)).
  rewrite hexString_Encode. reflexivity.
Qed.

Lemma of_bytes_length (l : list Z) :
  String.length (sha256.of_bytes l) = length l.
Proof.
  unfold sha256.of_bytes. induction l as [|b l IH]; simpl; congruence.
Qed.

(** A digest has 32 bytes. *)
Lemma Sum256_length (data : string) : String.length (sha256.Sum256 data) = 32%nat.
Proof.
  unfold sha256.Sum256. rewrite of_bytes_length.
  destruct (sha256.blocks _ _ _) as [[[[[[[h0 h1] h2] h3] h4] h5] h6] h7].
  reflexivity.
Qed.

Lemma hmac_Sum_not_empty (key data : string) : hmac.Sum key data <> "".
Proof.
  intros E. pose proof (Sum256_length
    (hmac.xor_with 92 (hmac.block_key key)
     +++ sha256.Sum256 (hmac.xor_with 54 (hmac.block_key key) +++ data))) as H.
  unfold hmac.Sum in E. rewrite E in H. discriminate.
Qed.

(** The check accepts exactly the headers that scan as the HMAC of the
    body as read. *)
Lemma authenticate_iff (secret sig body : string) :
  legacy.authenticate secret sig body = inl tt <->
  fmt.Sscanf_sha256 sig
  = inl (hmac.Sum secret (gostrings.take legacy.maxBody body)).
Proof.
  unfold legacy.authenticate, hmac.Equal.
  destruct (fmt.Sscanf_sha256 sig) as [expectedHash|err].
  - destruct (String.eqb_spec
                (hmac.Sum secret (gostrings.take legacy.maxBody body)) expectedHash)
      as [->|Hne]; simpl.
    + split; reflexivity.
    + split; [discriminate|]. intros E. injection E as ->. contradiction.
  - split; discriminate.
Qed.

Lemma authenticate_signed (secret body : string) :
  legacy.authenticate secret
    ("sha256=" +++ hex.EncodeToString
                     (hmac.Sum secret (gostrings.take legacy.maxBody body))) body
  = inl tt.
Proof.
  apply authenticate_iff, Sscanf_canonical, hmac_Sum_not_empty.
Qed.

Lemma take_repeat_byte (c : ascii) (n : N) (rest : string) :
  gostrings.take n (gostrings.repeat_byte c n +++ rest) = gostrings.repeat_byte c n.
Proof.
  unfold gostrings.repeat_byte.
  induction n as [|n IH] using N.peano_ind; [destruct rest; reflexivity|].
  rewrite N.iter_succ. cbn [String.append gostrings.take].
  destruct (N.eqb_spec (N.succ n) 0) as [E|_]; [destruct n; discriminate|].
  rewrite N.pred_succ, IH. reflexivity.
Qed.

End authentication.

(** C1, as stated, fails: the body is read through a reader limited to one
    mebibyte and the error of the read is dropped, so a byte past the
    limit is not covered by the digest.  A body of 1 MiB + 1 bytes that is
    accepted stays accepted when its last byte is changed. *)
Lemma C1_flip_beyond_limit_still_accepted :
  ~ (forall secret sig B B',
        legacy.authenticate secret sig B = inl tt ->
        one_byte_differs B B' ->
        legacy.authenticate secret sig B' <> inl tt).
Proof.
  intros claim.
  pose (big := gostrings.repeat_byte "a" legacy.maxBody).
  pose (sig := "sha256=" +++ hex.EncodeToString (hmac.Sum "s3cret" big)).
  assert (accepted : forall last, legacy.authenticate "s3cret" sig (big +++ last) = inl tt).
  { intros last. apply authenticate_iff. unfold sig, big.
    rewrite take_repeat_byte. apply Sscanf_canonical, hmac_Sum_not_empty. }
  apply (claim "s3cret" sig (big +++ "x") (big +++ "y")).
  - apply accepted.
  - exists big, "", "x"%char, "y"%char. repeat split. discriminate.
  - apply accepted.
Qed.

(** C1, amended.  Earlier revision, for a POST request: the signature
    check passes exactly when the header scans ("sha256=", then hex pairs)
    as the HMAC-SHA256, under the secret, of the body as read, that is of
    its first mebibyte; a request that does not pass is answered 400 with
    the reason and nothing else happens (no parsing, no log, no
    synchronisation, no notifier); an absent header does not pass; and a
    request that passed stops passing after any change of secret or body
    that changes that HMAC.  Current revision: a request that
    [ValidatePayload] refuses is answered 400 and nothing else happens. *)
Theorem C1_authentication :
  (forall (FS : Type) (W : legacy.World FS) (G : legacy.Globals) (req : Request)
          (disk : FS),
      Method req = "POST" ->
      (legacy.authenticate (legacy.webhookSecret G) (X_Hub_Signature_256 req) (Body req)
       = inl tt <->
       fmt.Sscanf_sha256 (X_Hub_Signature_256 req)
       = inl (hmac.Sum (legacy.webhookSecret G)
                       (gostrings.take legacy.maxBody (Body req))))
      /\ (forall msg,
             legacy.authenticate (legacy.webhookSecret G) (X_Hub_Signature_256 req)
                                 (Body req) = inr msg ->
             legacy.githubEventHandler W G req (start disk)
             = (Returns tt,
                mkProc disk (Some 400%Z) (msg +++ String "010" "") [] "" [] []))
      /\ (X_Hub_Signature_256 req = "" ->
          legacy.authenticate (legacy.webhookSecret G) (X_Hub_Signature_256 req)
                              (Body req)
          = inr "invalid signature: unexpected EOF")
      /\ (forall secret' body',
             legacy.authenticate (legacy.webhookSecret G) (X_Hub_Signature_256 req)
                                 (Body req) = inl tt ->
             hmac.Sum secret' (gostrings.take legacy.maxBody body')
             <> hmac.Sum (legacy.webhookSecret G)
                         (gostrings.take legacy.maxBody (Body req)) ->
             legacy.authenticate secret' (X_Hub_Signature_256 req) body'
             = inr "signature verification failed"))
  /\ (forall (FS : Type) (W : mailbot.World FS) (Cfg : AppConfig) (req : Request)
             (disk : FS) (err : error),
         mailbot.ValidatePayload W req (WebhookSecret Cfg) = inr err ->
         mailbot.githubEventHandler W Cfg req (start disk)
         = (Returns tt,
            mkProc disk (Some 400%Z)
                   (("could not validate payload: " +++ Error err) +++ String "010" "")
                   [] "" [] [])).
Proof.
  split.
  - intros FS W G req disk Hm. repeat split.
    + apply authenticate_iff.
    + apply authenticate_iff.
    + intros msg Hmsg. unfold legacy.githubEventHandler. rewrite Hm, Hmsg. reflexivity.
    + intros ->. reflexivity.
    + intros secret' body' Hok Hne. apply authenticate_iff in Hok.
      unfold legacy.authenticate, hmac.Equal. rewrite Hok.
      destruct (String.eqb_spec (hmac.Sum secret' (gostrings.take legacy.maxBody body'))
                  (hmac.Sum (legacy.webhookSecret G)
                            (gostrings.take legacy.maxBody (Body req))))
        as [E|_]; [contradiction|reflexivity].
  - intros FS W Cfg req disk err Hval.
    unfold mailbot.githubEventHandler. rewrite Hval. reflexivity.
Qed.

(** A ping signed with the secret passes; the same ping stops passing
    when one byte of its body or of the secret is changed. *)
Lemma C1_authentication_witness :
  legacy.authenticate "s3cret"
    (X_Hub_Signature_256 (fake.signed "s3cret" "ping" "ping")) "ping" = inl tt
  /\ legacy.authenticate "s3cret"
       (X_Hub_Signature_256 (fake.signed "s3cret" "ping" "ping")) "pong"
     = inr "signature verification failed"
  /\ legacy.authenticate "s3creT"
       (X_Hub_Signature_256 (fake.signed "s3cret" "ping" "ping")) "ping"
     = inr "signature verification failed".
Proof.
  destruct (proj1 C1_authentication fake.Disk (fake.legacy_world fake.setup) fake.G
              (fake.signed "s3cret" "ping" "ping") [] eq_refl)
    as (Hiff & _ & _ & Hflip).
  assert (Hok : legacy.authenticate "s3cret"
                  (X_Hub_Signature_256 (fake.signed "s3cret" "ping" "ping")) "ping"
                = inl tt)
    by (apply Hiff; vm_compute; reflexivity).
  split; [exact Hok|]. split.
  - apply (Hflip "s3cret" "pong" Hok). vm_compute. discriminate.
  - apply (Hflip "s3creT" "ping" Hok). vm_compute. discriminate.
Defined.

(** What follows the hex pairs in the header is not read: the scan stops
    at the first byte that is no hex digit. *)
Example bytes_after_the_digest_are_ignored :
  legacy.authenticate "s3cret"
    (X_Hub_Signature_256 (fake.signed "s3cret" "ping" "ping") +++ ", zz") "ping"
  = inl tt
  /\ legacy.authenticate "s3cret"
       (X_Hub_Signature_256 (fake.signed "s3cret" "ping" "ping") +++ "0") "ping"
     = inr "invalid signature: unexpected EOF".
Proof. vm_compute. split; reflexivity. Qed.

(** The digest of the request of the witness. *)
Example signature_of_ping :
  X_Hub_Signature_256 (fake.signed "s3cret" "ping" "ping")
  = "sha256=" +++ hex.EncodeToString (hmac.Sum "s3cret" "ping")
  /\ String.length (hex.EncodeToString (hmac.Sum "s3cret" "ping")) = 64%nat.
Proof. split; [reflexivity|vm_compute; reflexivity]. Qed.

(** RFC 4231, test case 2, and FIPS 180-2, "abc". *)
Example hmac_sha256_rfc4231_case2 :
  hex.EncodeToString (hmac.Sum "Jefe" "what do ya want for nothing?")
  = "5bdcc146bf60754e6a042426089575c75a003f089d2739839dec58b964ec3843".
Proof. vm_compute. reflexivity. Qed.

Example sha256_constants :
  nth 0 sha256._K 0%Z = 0x428a2f98%Z /\ nth 63 sha256._K 0%Z = 0xc67178f2%Z
  /\ length sha256._K = 64%nat
  /\ fst (fst (fst (fst (fst (fst (fst sha256.init)))))) = 0x6a09e667%Z
  /\ snd sha256.init = 0x5be0cd19%Z.
Proof. vm_compute. repeat split; reflexivity. Qed.

Example sha256_abc :
  hex.EncodeToString (sha256.Sum256 "abc")
  = "ba7816bf8f01cfea414140de5dae2223b00361a396177a9cb410ff61f20015ad".
Proof. vm_compute. reflexivity. Qed.

(** ** Synchronising the mirror (earlier revision) *)

Section sync.
Context {FS : Type}.
Variable W : legacy.World FS.
Variables gitDir url : string.

(** A call of [syncRepo] that succeeds ends with a fetch that succeeded,
    and changes the process through the file system and the log only. *)
Lemma syncRepo_ends_with_fetch (p p1 : Proc FS) :
  legacy.syncRepo W gitDir url p = (Returns None, p1) ->
  exists disk out,
    legacy.git W gitDir ["fetch"; "--quiet"; "--force"; "origin"; "*:*"] disk
    = ((out, None), fs p1).
Proof.
  unfold legacy.syncRepo, legacy.gitClone, legacy.gitFetch, legacy.runGitCmd.
  unfold_effects. tidy.
  destruct (legacy.Stat W (fs p) gitDir) as [|err|[|]]; tidy.
  - destruct (legacy.git W gitDir ["clone"; "--bare"; "--quiet"; url; gitDir] (fs p))
      as [[out1 [e1|]] disk1] eqn:Hclone; tidy;
      [destruct e1; tidy; discriminate|].
    destruct (legacy.git W gitDir ["fetch"; "--quiet"; "--force"; "origin"; "*:*"] disk1)
      as [[out2 [e2|]] disk2] eqn:Hfetch; tidy;
      [destruct e2; tidy; discriminate|].
    intros E. injection E as <-. exists disk1, out2. exact Hfetch.
  - discriminate.
  - destruct (legacy.git W gitDir ["fetch"; "--quiet"; "--force"; "origin"; "*:*"] (fs p))
      as [[out2 [e2|]] disk2] eqn:Hfetch; tidy;
      [destruct e2; tidy; discriminate|].
    intros E. injection E as <-. exists (fs p), out2. exact Hfetch.
  - discriminate.
Qed.

(** On a mirror that exists and that a fetch leaves alone, [syncRepo]
    only fetches. *)
Lemma syncRepo_settled (p : Proc FS) (out : string) :
  legacy.Stat W (fs p) gitDir = legacy.FileInfo true ->
  legacy.git W gitDir ["fetch"; "--quiet"; "--force"; "origin"; "*:*"] (fs p)
  = ((out, None), fs p) ->
  legacy.syncRepo W gitDir url p = (Returns None, p).
Proof.
  intros Hstat Hfetch.
  unfold legacy.syncRepo, legacy.gitFetch, legacy.runGitCmd.
  unfold_effects. rewrite Hstat. tidy. rewrite Hfetch. tidy.
  destruct p; reflexivity.
Qed.

End sync.

(** With an upstream that does not change, a call of [syncRepo] that
    succeeded is followed by a second call that succeeds too and leaves
    everything as the first call left it. *)
Lemma syncRepo_twice :
  forall (FS : Type) (W : legacy.World FS) (gitDir url : string) (p p1 : Proc FS),
    fetch_settles W gitDir ->
    legacy.syncRepo W gitDir url p = (Returns None, p1) ->
    legacy.syncRepo W gitDir url p1 = (Returns None, p1).
Proof.
  intros FS W gitDir url p p1 Hup Hfirst.
  destruct (syncRepo_ends_with_fetch W gitDir url p p1 Hfirst) as (disk & out & Hfetch).
  destruct (Hup disk (fs p1) out Hfetch) as (Hstat & out' & Hagain).
  exact (syncRepo_settled W gitDir url p1 out' Hstat Hagain).
Qed.

(** The first call on a directory that does not exist clones, logs the
    clone and fetches. *)
Lemma syncRepo_clones :
  forall (FS : Type) (W : legacy.World FS) (gitDir url : string) (p : Proc FS),
    clone_works W gitDir url ->
    legacy.Stat W (fs p) gitDir = legacy.NotExist ->
    exists disk,
      legacy.syncRepo W gitDir url p
      = (Returns None,
         mkProc disk (status p) (body p)
                (logs p ++ [Printf ("Cloned " +++ url +++ " to " +++ gitDir)])
                (stdout p) (execs p) (db p)).
Proof.
  intros FS W gitDir url p Hclone Hstat.
  destruct (Hclone (fs p) Hstat) as (out & disk' & Hc & out' & disk'' & Hf).
  exists disk''.
  unfold legacy.syncRepo, legacy.gitClone, legacy.gitFetch, legacy.runGitCmd.
  unfold_effects. rewrite Hstat. tidy. rewrite Hc. tidy. rewrite Hf. reflexivity.
Qed.

(** C6. With a reachable upstream that does not change ([clone_works],
    [fetch_settles]): on a mirror directory that is absent, two calls of
    [syncRepo] in a row both succeed, the first by cloning (and fetching),
    the second by a forced fetch, and the second leaves the mirror and
    the rest of the process exactly as the first left them.  The same
    holds after any first call that succeeded, whatever it started from. *)
Theorem C6_sync_idempotent :
  forall (FS : Type) (W : legacy.World FS) (gitDir url : string) (p : Proc FS),
    fetch_settles W gitDir ->
    (clone_works W gitDir url ->
     legacy.Stat W (fs p) gitDir = legacy.NotExist ->
     exists p1,
       legacy.syncRepo W gitDir url p = (Returns None, p1)
       /\ legacy.syncRepo W gitDir url p1 = (Returns None, p1)
       /\ legacy.Stat W (fs p1) gitDir = legacy.FileInfo true)
    /\ (forall p1,
           legacy.syncRepo W gitDir url p = (Returns None, p1) ->
           legacy.syncRepo W gitDir url p1 = (Returns None, p1)).
Proof.
  intros FS W gitDir url p Hup. split.
  - intros Hclone Hstat.
    destruct (syncRepo_clones FS W gitDir url p Hclone Hstat) as (disk & Hfirst).
    eexists. split; [exact Hfirst|]. split.
    + exact (syncRepo_twice FS W gitDir url p _ Hup Hfirst).
    + destruct (syncRepo_ends_with_fetch W gitDir url p _ Hfirst) as (d & out & Hfetch).
      exact (proj1 (Hup d _ out Hfetch)).
  - intros p1 Hfirst. exact (syncRepo_twice FS W gitDir url p p1 Hup Hfirst).
Qed.

Section fake_git.

Lemma find_put {A : Type} (k : string) (a : A) (l : list (string * A)) :
  fake.find k (fake.put k a l) = Some a.
Proof.
  induction l as [|[k' a'] l IH]; simpl.
  - rewrite String.eqb_refl. reflexivity.
  - destruct (String.eqb k k') eqn:E; simpl; rewrite ?String.eqb_refl, ?E; auto.
Qed.

Lemma put_put {A : Type} (k : string) (a : A) (l : list (string * A)) :
  fake.put k a (fake.put k a l) = fake.put k a l.
Proof.
  induction l as [|[k' a'] l IH]; simpl.
  - rewrite String.eqb_refl. reflexivity.
  - destruct (String.eqb k k') eqn:E; simpl; rewrite ?String.eqb_refl, ?E;
      congruence.
Qed.

(** The upstream of the concrete world never changes. *)
Lemma fake_fetch_settles (s : fake.Setup) (gitDir : string) :
  fetch_settles (fake.legacy_world s) gitDir.
Proof.
  intros disk disk' out. cbn [legacy.git legacy.Stat fake.legacy_world].
  unfold fake.git, fake.Stat. cbn [String.eqb Ascii.eqb Bool.eqb].
  destruct (fake.find gitDir disk) as [[origin cfg|]|]; try discriminate.
  destruct (fake.find origin (fake.upstream s)) as [cfg'|] eqn:Hup; try discriminate.
  intros E. injection E as <- <-.
  rewrite find_put, Hup, put_put. eauto.
Qed.

End fake_git.

(** A repository the concrete upstream knows can be cloned into a
    directory that does not exist. *)
Lemma fake_clone_works (s : fake.Setup) (gitDir url : string) (cfg : option string) :
  fake.find url (fake.upstream s) = Some cfg ->
  clone_works (fake.legacy_world s) gitDir url.
Proof.
  intros Hurl disk. cbn [legacy.git legacy.Stat fake.legacy_world].
  unfold fake.git, fake.Stat. cbn [String.eqb Ascii.eqb Bool.eqb].
  destruct (fake.find gitDir disk) as [[origin c|]|] eqn:Hdir; try discriminate.
  intros _. rewrite Hurl. do 2 eexists. split; [reflexivity|].
  rewrite find_put, Hurl. eauto.
Qed.

(** Two calls in a row for octo/demo, from an empty disk: the first clones
    and fetches, the second fetches and changes nothing. *)
Lemma C6_sync_idempotent_witness :
  exists p1,
    legacy.syncRepo (fake.legacy_world fake.setup)
      "persist/repos/github.com/octo/demo" "https://github.com/octo/demo.git" (start [])
    = (Returns None, p1)
    /\ legacy.syncRepo (fake.legacy_world fake.setup)
         "persist/repos/github.com/octo/demo" "https://github.com/octo/demo.git" p1
       = (Returns None, p1)
    /\ fake.Stat (fs p1) "persist/repos/github.com/octo/demo" = legacy.FileInfo true.
Proof.
  exact (proj1 (C6_sync_idempotent fake.Disk (fake.legacy_world fake.setup)
                  "persist/repos/github.com/octo/demo"
                  "https://github.com/octo/demo.git" (start [])
                  (fake_fetch_settles fake.setup "persist/repos/github.com/octo/demo"))
               (fake_clone_works fake.setup "persist/repos/github.com/octo/demo"
                  "https://github.com/octo/demo.git" (Some "html") eq_refl)
               eq_refl).
Defined.

Example sync_twice_on_empty_disk :
  let W := fake.legacy_world fake.setup in
  let dir := "persist/repos/github.com/octo/demo" in
  let url := "https://github.com/octo/demo.git" in
  let p1 := mkProc [(dir, fake.Mirror url (Some "html"))] None ""
                   [Printf ("Cloned " +++ url +++ " to " +++ dir)] "" [] [] in
  legacy.syncRepo W dir url (start []) = (Returns None, p1)
  /\ legacy.syncRepo W dir url p1 = (Returns None, p1).
Proof. vm_compute. split; reflexivity. Qed.

(** ** The mirror directory, claim C7 *)

(** C7, as stated, fails: with a dot-dot element two full names share a
    directory. *)
Lemma C7_dotdot_names_collide :
  ~ (forall persistPath n1 n2 : string,
        repoDir persistPath n1 = repoDir persistPath n2 -> n1 = n2).
Proof.
  intros claim.
  specialize (claim "persist" "octo/../demo" "demo" eq_refl). discriminate.
Qed.

Example colliding_directories :
  repoDir "persist" "octo/../demo" = "persist/repos/github.com/demo"
  /\ repoDir "persist" "demo" = "persist/repos/github.com/demo"
  /\ repoDir "persist" "octo//demo/" = repoDir "persist" "octo/demo"
  /\ repoDir "persist" "../../../etc" = "etc".
Proof. vm_compute. repeat split; reflexivity. Qed.

(** C7, amended.  The directory is a function of the persistence root and
    the full name (the host is the constant "github.com"), and for a given
    root it is injective on the full names all of whose elements are real:
    none empty, none [.] or [..]. *)
Theorem C7_repoDir_injective_on_plain_names :
  forall persistPath n1 n2 : string,
    filepath.plain n1 = true ->
    filepath.plain n2 = true ->
    repoDir persistPath n1 = repoDir persistPath n2 ->
    n1 = n2.
Proof.
  intros persistPath n1 n2 H1 H2 E.
  rewrite (repoDir_plain persistPath n1 H1), (repoDir_plain persistPath n2 H2) in E.
  apply append_inv_head in E. injection E as E. exact E.
Qed.

Lemma C7_repoDir_injective_on_plain_names_witness :
  filepath.plain "octo/demo" = true
  /\ repoDir "persist" "octo/demo" = "persist/repos/github.com/octo/demo"
  /\ "octo/demo" = "octo/demo".
Proof.
  split; [reflexivity|]. split; [reflexivity|].
  exact (C7_repoDir_injective_on_plain_names "persist" "octo/demo" "octo/demo"
           eq_refl eq_refl eq_refl).
Defined.

(* ================================================================== *)
(** * Further properties of the code *)

(** ** Start-up *)

Section startup_facts.
Import startup.

Lemma getEncryptedEnv_clear (Getenv : string -> string) (varName : string) :
  HasPrefix (getEncryptedEnv Getenv varName) "encrypted:" = false.
Proof.
  unfold getEncryptedEnv.
  destruct (HasPrefix (Getenv varName) "encrypted:") eqn:E; [reflexivity|exact E].
Qed.

Lemma digits_bounds (s : string) (acc n : Z) :
  (0 <= acc)%Z -> digits acc s = Some n -> (0 <= n)%Z.
Proof.
  revert acc. induction s as [|c s IH]; intros acc Hacc; cbn [digits].
  - intros E. injection E as <-. exact Hacc.
  - unfold digit_value.
    destruct ((48 <=? N_of_ascii c)%N && (N_of_ascii c <=? 57)%N) eqn:Hd; [|discriminate].
    apply andb_prop in Hd as [H1 H2]. apply N.leb_le in H1.
    apply IH. lia.
Qed.

Lemma ParseInt_range (s : string) (n : Z) :
  ParseInt s = Some n -> (- 2 ^ 63 <= n < 2 ^ 63)%Z.
Proof.
  assert (H63 : (2 ^ 63 = 9223372036854775808)%Z) by reflexivity.
  unfold ParseInt. rewrite !H63. destruct s as [|c rest]; [intros E; discriminate|].
  set (b := if Ascii.eqb c "+" || Ascii.eqb c "-" then rest else String c rest).
  destruct b as [|c' b'] eqn:Eb; [intros E; discriminate|].
  destruct (digits 0 (String c' b')) as [un|] eqn:Hd; [|intros E; discriminate].
  apply digits_bounds in Hd; [|lia].
  destruct (Ascii.eqb c "-").
  - destruct (Z.leb_spec un 9223372036854775808); [|intros E; discriminate].
    intros E. injection E as <-. lia.
  - destruct (Z.ltb_spec un 9223372036854775808); [|intros E; discriminate].
    intros E. injection E as <-. lia.
Qed.

End startup_facts.

(** X1. Whatever the environment holds, a configuration that [init]
    produces never carries a value that is still encrypted as webhook
    secret or SMTP password, and its application id fits 64 bits. *)
Theorem init_never_keeps_encrypted_values :
  forall (Getenv : string -> string) (DecodeString : string -> string + error)
         (c : AppConfig),
    startup.init Getenv DecodeString = startup.Ready c ->
    startup.HasPrefix (WebhookSecret c) "encrypted:" = false
    /\ startup.HasPrefix (SmtpPassword c) "encrypted:" = false
    /\ (- 2 ^ 63 <= AppId c < 2 ^ 63)%Z.
Proof.
  intros Getenv DecodeString c. unfold startup.init.
  destruct (negb (String.eqb (startup.getEncryptedEnv Getenv "GITHUB_APP_ID") "")).
  - destruct (startup.ParseInt (startup.getEncryptedEnv Getenv "GITHUB_APP_ID"))
      as [appId|] eqn:Hid; [|discriminate].
    apply ParseInt_range in Hid.
    destruct (if negb _ then _ else _) as [key|err]; [|discriminate].
    intros E. injection E as <-. cbn [WebhookSecret SmtpPassword AppId].
    repeat split; try apply getEncryptedEnv_clear; lia.
  - destruct (if negb _ then _ else _) as [key|err]; [|discriminate].
    intros E. injection E as <-. cbn [WebhookSecret SmtpPassword AppId].
    repeat split; try apply getEncryptedEnv_clear; lia.
Qed.

Lemma init_never_keeps_encrypted_values_witness :
  exists c,
    startup.init fake_env.encrypted (fun s => inl s) = startup.Ready c
    /\ SmtpPassword c = "" /\ WebhookSecret c = "s3cret" /\ AppId c = 12345%Z
    /\ startup.HasPrefix (SmtpPassword c) "encrypted:" = false.
Proof.
  eexists. split; [reflexivity|]. do 3 (split; [reflexivity|]).
  exact (proj1 (proj2 (init_never_keeps_encrypted_values fake_env.encrypted
                         (fun s => inl s) _ eq_refl))).
Defined.

(** X2. [init] ends in [log.Fatal] in two cases only: an application id
    that is given (and not encrypted) but is no 64-bit decimal number, or a
    private key that is given but is not base64. *)
Theorem init_fatal_iff :
  forall (Getenv : string -> string) (DecodeString : string -> string + error),
    (exists msg, startup.init Getenv DecodeString = startup.Fatal msg) <->
    (startup.getEncryptedEnv Getenv "GITHUB_APP_ID" <> ""
     /\ startup.ParseInt (startup.getEncryptedEnv Getenv "GITHUB_APP_ID") = None)
    \/ (startup.getEncryptedEnv Getenv "GITHUB_APP_PRIVATE_KEY" <> ""
        /\ exists err,
             DecodeString (startup.getEncryptedEnv Getenv "GITHUB_APP_PRIVATE_KEY")
             = inr err).
Proof.
  intros Getenv DecodeString. unfold startup.init.
  set (id := startup.getEncryptedEnv Getenv "GITHUB_APP_ID").
  set (key := startup.getEncryptedEnv Getenv "GITHUB_APP_PRIVATE_KEY").
  destruct (String.eqb_spec id "") as [Hid|Hid];
    destruct (String.eqb_spec key "") as [Hkey|Hkey]; cbn [negb].
  - split; [intros [msg E]; discriminate|].
    intros [[H _]|[H _]]; contradiction.
  - destruct (DecodeString key) as [k|err] eqn:Hd.
    + split; [intros [msg E]; discriminate|].
      intros [[H _]|[_ [err E]]]; [contradiction|discriminate].
    + split; [intros _; right; eauto|eauto].
  - destruct (startup.ParseInt id) as [n|] eqn:Hp.
    + split; [intros [msg E]; discriminate|].
      intros [[_ H]|[H _]]; [discriminate|contradiction].
    + split; [intros _; left; auto|eauto].
  - destruct (startup.ParseInt id) as [n|] eqn:Hp.
    + destruct (DecodeString key) as [k|err] eqn:Hd.
      * split; [intros [msg E]; discriminate|].
        intros [[_ H]|[_ [err E]]]; discriminate.
      * split; [intros _; right; eauto|eauto].
    + split; [intros _; left; auto|eauto].
Qed.

(** X3. Earlier revision: when [main] gets past its checks, the host name
    and the webhook secret are not empty, the server is insecure exactly
    on localhost, and it does not listen on the https port there. *)
Theorem legacy_main_checks :
  forall (f : startup.LegacyFlags) (Getenv : string -> string)
         (MkdirAll : string -> option error) (st : startup.LegacyStart),
    startup.legacy_main f Getenv MkdirAll = startup.Ready st ->
    startup.host st <> ""
    /\ legacy.webhookSecret (startup.globals st) <> ""
    /\ (startup.insecure st = true <-> startup.host st = "localhost")
    /\ (startup.insecure st = true -> startup.listen st <> "https")
    /\ MkdirAll (legacy.persistPath (startup.globals st)) = None.
Proof.
  intros f Getenv MkdirAll st. unfold startup.legacy_main.
  set (h := if String.eqb (startup.hostname f) "" then Getenv "TLS_HOSTNAME"
            else startup.hostname f).
  destruct (String.eqb_spec h "") as [|Hh]; [discriminate|].
  destruct (String.eqb_spec h "localhost") as [Hl|Hl];
    destruct (String.eqb_spec (startup.port f) "https") as [Hp|Hp];
    cbn [andb]; try discriminate.
  all: destruct (MkdirAll (startup.persist f)) eqn:Hm; [discriminate|].
  all: destruct (String.eqb_spec (Getenv "WEBHOOK_SECRET") "") as [|Hs]; [discriminate|].
  all: intros E; injection E as <-;
    cbn [startup.host startup.insecure startup.listen startup.globals
         legacy.webhookSecret legacy.persistPath].
  all: repeat split; auto; try discriminate; try contradiction.
Qed.

Lemma legacy_main_checks_witness :
  exists st,
    startup.legacy_main fake_env.legacy_flags fake_env.plain (fun _ => None)
    = startup.Ready st
    /\ startup.host st = "commit-emails.xyz"
    /\ startup.insecure st = false
    /\ legacy.webhookSecret (startup.globals st) <> "".
Proof.
  eexists. split; [reflexivity|]. split; [reflexivity|]. split; [reflexivity|].
  exact (proj1 (proj2 (legacy_main_checks fake_env.legacy_flags fake_env.plain
                         (fun _ => None) _ eq_refl))).
Defined.

(** ** Where the mirrors are kept *)

Section layout.
Import filepath.

Lemma plain_not_rooted (p : string) : plain p = true -> is_rooted p = false.
Proof.
  destruct p as [|c p]; [reflexivity|]. unfold plain. cbn [is_rooted gostrings.Split].
  destruct (Ascii.eqb c "/"); [intros H; cbn in H; discriminate H|reflexivity].
Qed.

Lemma plain_not_empty (p : string) : plain p = true -> p <> "".
Proof. intros H ->. cbn in H. discriminate H. Qed.

(** A path made of real elements only is clean already. *)
Lemma Clean_plain (p : string) : plain p = true -> Clean p = p.
Proof.
  intros Hp. unfold Clean.
  destruct (String.eqb_spec p "") as [E|Hne]; [apply plain_not_empty in Hp; contradiction|].
  rewrite fold_real by exact Hp. rewrite (plain_not_rooted p Hp).
  unfold render, body. cbn [rooted dotdot elems repeat app].
  rewrite app_nil_r, rev_involutive.
  fold (gostrings.Join (gostrings.Split p) "/"). rewrite Join_Split.
  destruct (String.eqb_spec p "") as [E|_]; [contradiction|reflexivity].
Qed.

Lemma plain_app (a b : string) :
  plain a = true -> plain b = true -> plain (a +++ String "/" b) = true.
Proof.
  unfold plain. intros Ha Hb. rewrite Split_app, forallb_app, Ha, Hb. reflexivity.
Qed.

End layout.

(** X4. For a persistence path and a full name made of real elements only
    (none empty, none [.] or [..]; the path relative), the mirror is kept
    at <path>/repos/github.com/<full name>, as written. *)
Theorem repoDir_layout :
  forall persistPath fullName : string,
    filepath.plain persistPath = true ->
    filepath.plain fullName = true ->
    repoDir persistPath fullName
    = persistPath +++ "/repos/github.com/" +++ fullName.
Proof.
  intros p n Hp Hn. unfold repoDir, filepath.Join. cbn [filepath.drop_empty].
  destruct (String.eqb_spec p "") as [E|_]; [apply plain_not_empty in Hp; contradiction|].
  assert (E : gostrings.Join [p; "repos"; "github.com"; n] "/"
              = p +++ String "/" ("repos" +++ String "/" ("github.com" +++ String "/" n)))
    by reflexivity.
  rewrite E. rewrite Clean_plain; [reflexivity|].
  apply plain_app; [exact Hp|].
  apply (plain_app "repos"); [reflexivity|].
  apply (plain_app "github.com"); [reflexivity|exact Hn].
Qed.

Lemma repoDir_layout_witness :
  repoDir "data/bot" "octo/demo" = "data/bot/repos/github.com/octo/demo".
Proof.
  exact (repoDir_layout "data/bot" "octo/demo" eq_refl eq_refl).
Defined.

(** ** Stdout mode, from the environment to the notifier *)

Lemma with_password_same (c : AppConfig) : with_password c (SmtpPassword c) = c.
Proof. destruct c; reflexivity. Qed.

(** What the event handler runs, for the credential of its configuration. *)
Lemma eventHandler_runs :
  forall (FS : Type) (W : mailbot.World FS) (Cfg : AppConfig) (req : Request)
         (p : Proc FS),
  exists plan : list (list string * string * string),
    execs (snd (mailbot.githubEventHandler W Cfg req p))
    = execs p ++ map (notifier_cmd (mailbot.Environ W) (SmtpPassword Cfg)) plan.
Proof.
  intros FS W Cfg req p.
  pose proof (eventHandler_execs W Cfg req p) as Hex. cbv zeta in Hex.
  destruct (mailbot.ValidatePayload W req (WebhookSecret Cfg)) as [payload|e].
  2: { exists []. rewrite (proj1 Hex). symmetry. apply app_nil_r. }
  destruct (mailbot.ParseWebHook W (X_GitHub_Event req) payload)
    as [[| ev | ev | ev |]|e].
  2: { destruct (pushHandler_password W Cfg
                   {| mailbot.installation := github.GetID (github.Inst ev);
                      mailbot.repo := github.GetFullName (github.Repo ev) |} ev p)
         as [plan Hplan].
       exists plan. rewrite (proj1 Hex).
       specialize (Hplan (SmtpPassword Cfg)). rewrite with_password_same in Hplan.
       exact Hplan. }
  all: exists []; rewrite (proj1 Hex); symmetry; apply app_nil_r.
Qed.

(** X5. When the environment asks for stdout mode ([EMAIL_STDOUT] is
    "true" or "1"), or holds no SMTP password or one that is still
    encrypted, every run of the notifier by the server so configured has
    the flag [--stdout] in front of its arguments and an empty password in
    [GIT_CONFIG_PARAMETERS], whatever the flags and the request. *)
Theorem stdout_mode_reaches_notifier :
  forall (FS : Type) (W : mailbot.World FS) (Getenv : string -> string)
         (DecodeString : string -> string + error) (f : startup.Flags)
         (c : AppConfig) (req : Request) (p : Proc FS),
    startup.init Getenv DecodeString = startup.Ready c ->
    Getenv "EMAIL_STDOUT" = "true" \/ Getenv "EMAIL_STDOUT" = "1"
    \/ Getenv "MAIL_SMTP_PASSWORD" = ""
    \/ startup.HasPrefix (Getenv "MAIL_SMTP_PASSWORD") "encrypted:" = true ->
    exists plan : list (list string * string * string),
      execs (snd (mailbot.githubEventHandler W (startup.configure c f) req p))
      = execs p ++ map (notifier_cmd (mailbot.Environ W) "") plan.
Proof.
  intros FS W Getenv DecodeString f c req p Hinit Hmode.
  assert (Hpw : SmtpPassword (startup.configure c f) = "").
  { unfold startup.init in Hinit.
    destruct (if negb _ then startup.ParseInt _ else _) as [appId|]; [|discriminate].
    destruct (if negb _ then DecodeString _ else _) as [key|err]; [|discriminate].
    injection Hinit as <-. cbn [startup.configure SmtpPassword EmailStdout].
    unfold startup.getEncryptedEnv.
    destruct Hmode as [ -> | [ -> | [ -> | -> ] ] ]; try reflexivity.
    - destruct (String.eqb (Getenv "EMAIL_STDOUT") "true"
                || String.eqb (Getenv "EMAIL_STDOUT") "1"); [reflexivity|].
      destruct (startup.HasPrefix "" "encrypted:"); reflexivity.
    - destruct (String.eqb (Getenv "EMAIL_STDOUT") "true"
                || String.eqb (Getenv "EMAIL_STDOUT") "1"); reflexivity. }
  destruct (eventHandler_runs FS W (startup.configure c f) req p) as [plan Hplan].
  exists plan. rewrite Hplan, Hpw. reflexivity.
Qed.

Lemma stdout_mode_reaches_notifier_witness :
  exists c,
    startup.init fake_env.encrypted (fun s => inl s) = startup.Ready c
    /\ map (fun cmd => (hd "" (args cmd), last (env cmd) ""))
           (execs (snd (mailbot.githubEventHandler (fake.world fake.setup "persist")
                          (startup.configure c fake_env.no_flags)
                          (fake.signed "s3cret" "push" "push") (start []))))
       = [("--stdout", "GIT_CONFIG_PARAMETERS='multimailhook.smtpPass='")]
    /\ exists plan,
         execs (snd (mailbot.githubEventHandler (fake.world fake.setup "persist")
                       (startup.configure c fake_env.no_flags)
                       (fake.signed "s3cret" "push" "push") (start [])))
         = [] ++ map (notifier_cmd ["PATH=/usr/bin"] "") plan.
Proof.
  eexists. split; [reflexivity|]. split; [vm_compute; reflexivity|].
  exact (stdout_mode_reaches_notifier fake.Disk (fake.world fake.setup "persist")
           fake_env.encrypted (fun s => inl s) fake_env.no_flags _
           (fake.signed "s3cret" "push" "push") (start []) eq_refl
           (or_intror (or_intror (or_intror eq_refl)))).
Defined.

(** ** What configuration resolution can answer *)

(** X6. [getConfig] never panics; a configuration it returns without an
    error has an allowed format, and with an error it returns the zero
    configuration.  It touches nothing but the log, where it adds at most
    the warning about unknown fields. *)
Theorem getConfig_answers :
  forall (FS : Type) (toml_Decode : string -> config.Decoded)
         (GitShow : FS -> string -> string -> string -> string + error)
         (gitRepo : string) (p : Proc FS),
    match fst (config.getConfig toml_Decode GitShow gitRepo p) with
    | Returns (c, None) => allowed_format (config.Format c) = true
    | Returns (c, Some _) => c = config.zero
    | Panics _ => False
    end
    /\ (exists warned,
           snd (config.getConfig toml_Decode GitShow gitRepo p)
           = mkProc (fs p) (status p) (body p) (logs p ++ warned) (stdout p)
                    (execs p) (db p)
           /\ (warned = [] \/
               exists fields, warned = [Slog WARN "unknown config fields" fields])).
Proof.
  intros FS toml_Decode GitShow gitRepo p.
  unfold config.getConfig, config.parseConfig, allowed_format. unfold_effects.
  destruct (GitShow (fs p) gitRepo "HEAD" ".github/commit-emails.toml") as [text|e]; tidy.
  2: { split; [reflexivity|]. exists []. rewrite app_nil_r. destruct p. auto. }
  destruct (toml_Decode text) as [err|c undecoded]; tidy.
  1: { split; [reflexivity|]. exists []. rewrite app_nil_r. destruct p. auto. }
  destruct (Nat.ltb 0 (length undecoded)); tidy;
    destruct (String.eqb (config.Format c) "" || String.eqb (config.Format c) "html"
              || String.eqb (config.Format c) "text") eqn:Hf; tidy.
  all: split; [first [reflexivity|exact Hf]|].
  1, 2: eexists; split; [reflexivity|right; eauto].
  all: exists []; rewrite app_nil_r; destruct p; auto.
Qed.

(** X7. The earlier [getConfig]: it never panics, returns a configuration
    without an error only when its [emailFormat] is allowed, returns the
    zero configuration with every error, and runs no notifier. *)
Theorem legacy_getConfig_answers :
  forall (FS : Type) (W : legacy.World FS) (gitRepo : string) (p : Proc FS),
    match fst (legacy.getConfig W gitRepo p) with
    | Returns (c, None) => allowed_format (legacy.EmailFormat c) = true
    | Returns (c, Some _) => c = legacy.zero
    | Panics _ => False
    end
    /\ execs (snd (legacy.getConfig W gitRepo p)) = execs p
    /\ logs (snd (legacy.getConfig W gitRepo p)) = logs p
    /\ body (snd (legacy.getConfig W gitRepo p)) = body p.
Proof.
  intros FS W gitRepo p.
  unfold legacy.getConfig, legacy.runGitCmd, allowed_format. unfold_effects.
  destruct (legacy.git W gitRepo ["show"; "HEAD:.github/commit-emails.json"] (fs p))
    as [[out [[| state stderr | msg]|]] disk]; tidy; auto.
  destruct (legacy.Decode_config W out) as [c|err]; tidy; auto.
  destruct (String.eqb (legacy.EmailFormat c) "") eqn:He;
    destruct (String.eqb (legacy.EmailFormat c) "html") eqn:Hh;
    destruct (String.eqb (legacy.EmailFormat c) "text") eqn:Ht;
    cbn [negb andb orb]; tidy; rewrite ?He, ?Hh, ?Ht; cbn [orb]; auto.
Qed.

(** ** The event handler of the current revision *)

Section event_handler.
Context {FS : Type}.
Variable W : mailbot.World FS.
Variable Cfg : AppConfig.

(** The push handler leaves the response and the statistics alone. *)
Lemma pushHandler_frame (h : mailbot.PushHandler) (ev : github.PushEvent)
      (p : Proc FS) :
  status (snd (mailbot.githubPushHandler W Cfg h ev p)) = status p
  /\ body (snd (mailbot.githubPushHandler W Cfg h ev p)) = body p
  /\ db (snd (mailbot.githubPushHandler W Cfg h ev p)) = db p.
Proof.
  unfold mailbot.githubPushHandler, config.getConfig, config.parseConfig.
  unfold_effects. cases; auto.
Qed.

End event_handler.

(** X8. A payload that validates but does not parse is answered 400 with
    "could not parse webhook" and has no other effect, although the
    handler does not return at that point: it goes on with an event that
    is [nil], which none of its cases matches. *)
Theorem unparsed_payload_is_400 :
  forall (FS : Type) (W : mailbot.World FS) (Cfg : AppConfig) (req : Request)
         (disk : FS) (payload : string) (err : error),
    mailbot.ValidatePayload W req (WebhookSecret Cfg) = inl payload ->
    mailbot.ParseWebHook W (X_GitHub_Event req) payload = inr err ->
    mailbot.githubEventHandler W Cfg req (start disk)
    = (Returns tt,
       mkProc disk (Some 400%Z)
              (("could not parse webhook: " +++ Error err) +++ String "010" "")
              [] "" [] []).
Proof.
  intros FS W Cfg req disk payload err Hval Hparse.
  unfold mailbot.githubEventHandler. rewrite Hval, Hparse. reflexivity.
Qed.

Lemma unparsed_payload_is_400_witness :
  mailbot.githubEventHandler (fake.world fake.setup "persist") fake.Cfg
    (fake.signed "s3cret" "issues" "{}") (start [])
  = (Returns tt,
     mkProc [] (Some 400%Z)
            "could not parse webhook: unknown X-Github-Event in message
" [] "" [] []).
Proof.
  exact (unparsed_payload_is_400 fake.Disk (fake.world fake.setup "persist") fake.Cfg
           (fake.signed "s3cret" "issues" "{}") [] "{}"
           (errorString "unknown X-Github-Event in message")
           ltac:(vm_compute; reflexivity) eq_refl).
Defined.

(** X9. From a fresh response, the handler either writes nothing (when it
    returns, the server then answers 200 with an empty body), or answers
    200 with the body "Pong" or "OK", or answers 400 with a body made of
    one of its three messages ("could not validate payload: ", "could not
    parse webhook: ", "push handler failed: "), the text of the error and
    a final newline.  (The text of the error may itself hold newlines, as
    the standard error of a failed notifier does.) *)
Theorem response_is_200_or_400 :
  forall (FS : Type) (W : mailbot.World FS) (Cfg : AppConfig) (req : Request)
         (disk : FS),
    let p' := snd (mailbot.githubEventHandler W Cfg req (start disk)) in
    (status p' = None /\ body p' = "")
    \/ (status p' = Some 200%Z /\ (body p' = "Pong" \/ body p' = "OK"))
    \/ (status p' = Some 400%Z
        /\ exists err,
            body p' = "could not validate payload: " +++ Error err +++ String "010" ""
            \/ body p' = "could not parse webhook: " +++ Error err +++ String "010" ""
            \/ body p' = "push handler failed: " +++ Error err +++ String "010" "").
Proof.
  intros FS W Cfg req disk. cbv zeta.
  unfold mailbot.githubEventHandler.
  destruct (mailbot.ValidatePayload W req (WebhookSecret Cfg)) as [payload|e].
  2: { right. right. split; [reflexivity|]. exists e. left. reflexivity. }
  destruct (mailbot.ParseWebHook W (X_GitHub_Event req) payload)
    as [[| ev | ev | ev |]|e].
  2: { cbv beta iota zeta delta [bind ret].
       pose proof (pushHandler_frame W Cfg
                     {| mailbot.installation := github.GetID (github.Inst ev);
                        mailbot.repo := github.GetFullName (github.Repo ev) |}
                     ev (start disk)) as (Hs & Hb & _).
       destruct (mailbot.githubPushHandler W Cfg _ ev (start disk))
         as [[[err|]|why] p1]; cbn [snd status body start] in Hs, Hb;
         unfold_effects; tidy; rewrite ?Hs, ?Hb; tidy.
       - right. right. split; [reflexivity|]. exists err. right. right. reflexivity.
       - right. left.
         destruct (github.Before ev) as [b|]; tidy; auto.
         destruct (gostrings.slice_to 8 b); tidy; auto.
         destruct (github.After ev) as [a|]; tidy; auto.
         destruct (gostrings.slice_to 8 a); tidy; auto.
       - left. auto. }
  all: unfold start; unfold_effects; tidy; auto.
  right. right. split; [reflexivity|]. exists e. right. left. reflexivity.
Qed.

(** X10. What reaches the statistics store: a push is recorded exactly
    when its pipeline returned without an error, an installation event is
    always recorded, and nothing else ever is. *)
Theorem stats_record :
  forall (FS : Type) (W : mailbot.World FS) (Cfg : AppConfig) (req : Request)
         (disk : FS),
    db (snd (mailbot.githubEventHandler W Cfg req (start disk)))
    = match mailbot.ValidatePayload W req (WebhookSecret Cfg) with
      | inr _ => []
      | inl payload =>
          match mailbot.ParseWebHook W (X_GitHub_Event req) payload with
          | inl (github.Push ev) =>
              match fst (mailbot.githubPushHandler W Cfg
                           {| mailbot.installation := github.GetID (github.Inst ev);
                              mailbot.repo := github.GetFullName (github.Repo ev) |}
                           ev (start disk)) with
              | Returns None => [AddPush ev]
              | _ => []
              end
          | inl (github.InstallationEv ev) => [AddInstallation ev]
          | inl (github.InstallationRepositoriesEv ev) => [UpdateInstallation ev]
          | _ => []
          end
      end.
Proof.
  intros FS W Cfg req disk. unfold mailbot.githubEventHandler.
  destruct (mailbot.ValidatePayload W req (WebhookSecret Cfg)) as [payload|e];
    [|reflexivity].
  destruct (mailbot.ParseWebHook W (X_GitHub_Event req) payload)
    as [[| ev | ev | ev |]|e]; try reflexivity.
  cbv beta iota zeta delta [bind ret].
  pose proof (pushHandler_frame W Cfg
                {| mailbot.installation := github.GetID (github.Inst ev);
                   mailbot.repo := github.GetFullName (github.Repo ev) |}
                ev (start disk)) as (Hst & _ & Hdb).
  destruct (mailbot.githubPushHandler W Cfg _ ev (start disk))
    as [[[err|]|why] p1]; cbn [fst snd db status start] in *;
    unfold_effects; tidy; rewrite ?Hst; tidy.
  - exact Hdb.
  - (destruct (github.Before ev) as [b|]; tidy; [|rewrite Hdb; reflexivity]);
      (destruct (gostrings.slice_to 8 b); tidy; [|rewrite Hdb; reflexivity]);
      (destruct (github.After ev) as [a|]; tidy; [|rewrite Hdb; reflexivity]);
      (destruct (gostrings.slice_to 8 a); tidy; rewrite Hdb; reflexivity).
  - exact Hdb.
Qed.

(** X11. An error of [ghinstallation.New], or an error of [SyncRepo] other
    than [MissingConfigError], ends the pipeline as it is: the answer is
    400 "push handler failed: " followed by the error, the failure is
    logged with the repository, and no notifier is run and no push is
    recorded. *)
Theorem sync_errors_pass_through :
  forall (FS : Type) (W : mailbot.World FS) (Cfg : AppConfig) (req : Request)
         (disk : FS) (payload : string) (ev : github.PushEvent)
         (inst : github.Installation) (id : Z),
    mailbot.ValidatePayload W req (WebhookSecret Cfg) = inl payload ->
    mailbot.ParseWebHook W (X_GitHub_Event req) payload = inl (github.Push ev) ->
    github.Inst ev = Some inst ->
    github.ID inst = Some id ->
    (forall e,
        mailbot.ghinstallation_New W (AppId Cfg) id (AppPrivateKey Cfg) = Some e ->
        mailbot.githubEventHandler W Cfg req (start disk)
        = (Returns tt,
           mkProc disk (Some 400%Z)
                  (("push handler failed: " +++ Error e) +++ String "010" "")
                  [Slog ERROR "push handler"
                        [("error", "push handler failed: " +++ Error e);
                         ("repo", github.GetFullName (github.Repo ev))]]
                  "" [] []))
    /\ (forall gitDir e disk',
           mailbot.ghinstallation_New W (AppId Cfg) id (AppPrivateKey Cfg) = None ->
           mailbot.SyncRepo W id (github.Repo ev) disk = ((gitDir, Some e), disk') ->
           e <> MissingConfigError ->
           mailbot.githubEventHandler W Cfg req (start disk)
           = (Returns tt,
              mkProc disk' (Some 400%Z)
                     (("push handler failed: " +++ Error e) +++ String "010" "")
                     [Slog ERROR "push handler"
                           [("error", "push handler failed: " +++ Error e);
                            ("repo", github.GetFullName (github.Repo ev))]]
                     "" [] [])).
Proof.
  intros FS W Cfg req disk payload ev inst id Hval Hparse Hinst Hid.
  unfold mailbot.githubEventHandler, mailbot.githubPushHandler, start.
  rewrite Hval, Hparse. unfold_effects. rewrite Hinst. tidy. rewrite Hid. tidy.
  split.
  - intros e Hnew. rewrite Hnew. reflexivity.
  - intros gitDir e disk' Hnew Hsync Hne. rewrite Hnew. tidy. rewrite Hsync. tidy.
    destruct e; [contradiction| |]; reflexivity.
Qed.

Lemma sync_errors_pass_through_witness :
  mailbot.githubEventHandler (fake.world fake_env.setup "persist") fake.Cfg
    (fake.signed "s3cret" "push" "gone") (start [])
  = (Returns tt,
     mkProc [] (Some 400%Z)
            "push handler failed: exit status 128
"
            [Slog ERROR "push handler"
                  [("error", "push handler failed: exit status 128");
                   ("repo", "octo/gone")]]
            "" [] []).
Proof.
  exact (proj2 (sync_errors_pass_through fake.Disk (fake.world fake_env.setup "persist")
                  fake.Cfg (fake.signed "s3cret" "push" "gone") [] "gone"
                  (fake.push_event "octo/gone" (Some fake.sha_a) (Some fake.sha_b))
                  {| github.ID := Some 7%Z; github.Account := None |} 7%Z
                  ltac:(vm_compute; reflexivity) eq_refl eq_refl eq_refl)
               "" fake.exit128 [] eq_refl eq_refl ltac:(discriminate)).
Defined.

(** X12. The push handler runs the notifier at most once, and a run is
    built from the answers of the pipeline alone: the mirror directory is
    the one [SyncRepo] answered, the mailing list and the format are those
    decoded from .github/commit-emails.toml at HEAD of that mirror (the
    format an allowed one, and passed on only when it is not empty), the
    sender is the name of the committer of the head commit, and the browse
    URL is the HTML URL of the repository followed by /commit/%(id)s. *)
Theorem notifier_run_shape :
  forall (FS : Type) (W : mailbot.World FS) (Cfg : AppConfig)
         (h : mailbot.PushHandler) (ev : github.PushEvent) (p : Proc FS),
    let p' := snd (mailbot.githubPushHandler W Cfg h ev p) in
    execs p' = execs p
    \/ exists id gitDir disk' text c undecoded head committer name r url b a rf,
        mailbot.SyncRepo W id (github.Repo ev) (fs p) = ((gitDir, None), disk')
        /\ mailbot.GitShow W disk' gitDir "HEAD" ".github/commit-emails.toml"
           = inl text
        /\ mailbot.toml_Decode W text = config.DecodeOk c undecoded
        /\ allowed_format (config.Format c) = true
        /\ github.Head ev = Some head
        /\ github.Committer head = Some committer
        /\ github.Name committer = Some name
        /\ github.Repo ev = Some r
        /\ github.HTMLURL r = Some url
        /\ github.Before ev = Some b
        /\ github.After ev = Some a
        /\ github.Ref ev = Some rf
        /\ execs p'
           = execs p
             ++ [notifier_cmd (mailbot.Environ W) (SmtpPassword Cfg)
                   (["-c"; "multimailhook.mailingList=" +++ config.MailingList c]
                    ++ (if String.eqb (config.Format c) "" then []
                        else ["-c"; "multimailhook.commitEmailFormat="
                                    +++ config.Format c])
                    ++ ["-c"; "multimailhook.from=" +++ name
                              +++ " <notifications@commit-emails.xyz>";
                        "-c"; "multimailhook.commitBrowseURL=" +++ url
                              +++ "/commit/%(id)s"],
                    gitDir,
                    b +++ " " +++ a +++ " " +++ rf)].
Proof.
  intros FS W Cfg h ev p.
  remember (mailbot.githubPushHandler W Cfg h ev p) as r eqn:Hr. revert Hr.
  unfold mailbot.githubPushHandler, config.getConfig, config.parseConfig.
  unfold_effects. cases.
  all: intros ->; cbn [fst snd execs fs] in *.
  all: try (left; reflexivity).
  all: right; do 14 eexists.
  all: repeat match goal with
         | H : negb _ = true |- _ => apply Bool.negb_true_iff in H
         | H : negb _ = false |- _ => apply Bool.negb_false_iff in H
         end.
  all: repeat (split; [first [eassumption | reflexivity]|]).
  all: cbn [notifier_cmd];
    repeat match goal with
      | H : String.eqb _ _ = _ |- _ => rewrite H; clear H
      end;
    cbn [app]; reflexivity.
Qed.

(** X13. When the notifier has been run, its answer decides how the push
    handler ends: on success the output is printed, followed by a newline,
    and the handler returns nil; an exit error becomes
    "git_multimail_wrapper.py failed: <state>:" with the standard error of
    the notifier on the next line; any other error is returned as it is.
    Nothing is printed in the last two cases. *)
Theorem notifier_answer_decides :
  forall (FS : Type) (W : mailbot.World FS) (Cfg : AppConfig)
         (h : mailbot.PushHandler) (ev : github.PushEvent) (p : Proc FS)
         (cmd : Invocation),
    execs (snd (mailbot.githubPushHandler W Cfg h ev p)) = execs p ++ [cmd] ->
    match mailbot.Output W cmd (fs (snd (mailbot.githubPushHandler W Cfg h ev p))) with
    | (out, None) =>
        fst (mailbot.githubPushHandler W Cfg h ev p) = Returns None
        /\ stdout (snd (mailbot.githubPushHandler W Cfg h ev p))
           = stdout p +++ out +++ String "010" ""
    | (_, Some (ExitError state stderr)) =>
        fst (mailbot.githubPushHandler W Cfg h ev p)
        = Returns (Some (errorString
                           ("git_multimail_wrapper.py failed: " +++ state +++ ":"
                            +++ String "010" "" +++ stderr)))
        /\ stdout (snd (mailbot.githubPushHandler W Cfg h ev p)) = stdout p
    | (_, Some err) =>
        fst (mailbot.githubPushHandler W Cfg h ev p) = Returns (Some err)
        /\ stdout (snd (mailbot.githubPushHandler W Cfg h ev p)) = stdout p
    end.
Proof.
  intros FS W Cfg h ev p cmd.
  remember (mailbot.githubPushHandler W Cfg h ev p) as r eqn:Hr. revert Hr.
  unfold mailbot.githubPushHandler, config.getConfig, config.parseConfig.
  unfold_effects. cases.
  all: intros -> E; cbn [fst snd execs fs stdout] in *.
  all: try (apply (f_equal (@length Invocation)) in E; rewrite length_app in E;
            cbn [length] in E; lia).
  all: apply app_inv_head in E; injection E as E; subst cmd.
  all: match goal with
       | H : mailbot.Output _ _ _ = _, H' : mailbot.Output _ _ _ = _ |- _ =>
           pose proof (eq_trans (eq_sym H) H') as Hsame; clear H H'
       end.
  all: split; congruence.
Qed.

Lemma notifier_answer_decides_witness :
  fst (mailbot.githubPushHandler fake_env.failing_world fake.Cfg
         {| mailbot.installation := 7; mailbot.repo := "octo/demo" |}
         (fake.push_event "octo/demo" (Some fake.sha_a) (Some fake.sha_b))
         (start []))
  = Returns (Some (errorString "git_multimail_wrapper.py failed: exit status 1:
smtp: connection refused"))
  /\ stdout (snd (mailbot.githubPushHandler fake_env.failing_world fake.Cfg
                    {| mailbot.installation := 7; mailbot.repo := "octo/demo" |}
                    (fake.push_event "octo/demo" (Some fake.sha_a) (Some fake.sha_b))
                    (start [])))
     = "".
Proof.
  exact (notifier_answer_decides fake.Disk fake_env.failing_world fake.Cfg
           {| mailbot.installation := 7; mailbot.repo := "octo/demo" |}
           (fake.push_event "octo/demo" (Some fake.sha_a) (Some fake.sha_b))
           (start [])
           (notifier_cmd ["PATH=/usr/bin"] "hunter2"
              (["-c"; "multimailhook.mailingList=commits@example.org";
                "-c"; "multimailhook.commitEmailFormat=html";
                "-c"; "multimailhook.from=Ada <notifications@commit-emails.xyz>";
                "-c"; "multimailhook.commitBrowseURL=https://github.com/octo/demo/commit/%(id)s"],
               "persist/repos/github.com/octo/demo",
               fake.sha_a +++ " " +++ fake.sha_b +++ " refs/heads/main"))
           eq_refl).
Defined.

(** The push handler returns when the event has all that it dereferences. *)
Lemma pushHandler_returns (FS : Type) (W : mailbot.World FS) (Cfg : AppConfig)
      (h : mailbot.PushHandler) (ev : github.PushEvent) (p : Proc FS)
      inst id head cm name r url b a rf :
  github.Inst ev = Some inst -> github.ID inst = Some id ->
  github.Head ev = Some head -> github.Committer head = Some cm ->
  github.Name cm = Some name ->
  github.Repo ev = Some r -> github.HTMLURL r = Some url ->
  github.Before ev = Some b -> github.After ev = Some a ->
  github.Ref ev = Some rf ->
  exists err p', mailbot.githubPushHandler W Cfg h ev p = (Returns err, p').
Proof.
  intros Hinst Hid Hhead Hcm Hname Hrepo Hurl Hb Ha Hrf.
  unfold mailbot.githubPushHandler, config.getConfig, config.parseConfig.
  unfold_effects.
  rewrite Hinst, Hhead, Hrepo, Hb, Ha, Hrf. tidy.
  rewrite Hid, Hcm, Hurl. tidy. rewrite Hname.
  cases. all: eauto.
Qed.

(** X14. The handler panics on push events only, and only on those that
    lack something it dereferences or slices: the installation and its id,
    the head commit with its committer and the name of the committer, the
    repository and its HTML URL, the ref, and the two SHAs with at least
    8 bytes each.  Every other request is answered. *)
Theorem panic_needs_incomplete_push :
  forall (FS : Type) (W : mailbot.World FS) (Cfg : AppConfig) (req : Request)
         (p : Proc FS) (why : string),
    fst (mailbot.githubEventHandler W Cfg req p) = Panics why ->
    exists payload ev,
      mailbot.ValidatePayload W req (WebhookSecret Cfg) = inl payload
      /\ mailbot.ParseWebHook W (X_GitHub_Event req) payload = inl (github.Push ev)
      /\ complete ev = false.
Proof.
  intros FS W Cfg req p why.
  unfold mailbot.githubEventHandler.
  destruct (mailbot.ValidatePayload W req (WebhookSecret Cfg)) as [payload|e].
  2: { unfold_effects. cases. discriminate. }
  destruct (mailbot.ParseWebHook W (X_GitHub_Event req) payload)
    as [[| ev | ev | ev |]|e] eqn:Hparse.
  2: { intros H. exists payload, ev. split; [reflexivity|]. split; [exact Hparse|].
       destruct (complete ev) eqn:Hc; [exfalso|reflexivity].
       unfold complete in Hc.
       destruct (github.Inst ev) as [inst|] eqn:Hinst; [|discriminate Hc].
       destruct (github.Head ev) as [head|] eqn:Hhead; [|discriminate Hc].
       destruct (github.Repo ev) as [r|] eqn:Hrepo; [|discriminate Hc].
       destruct (github.Before ev) as [b|] eqn:Hb; [|discriminate Hc].
       destruct (github.After ev) as [a|] eqn:Ha; [|discriminate Hc].
       destruct (github.Ref ev) as [rf|] eqn:Hrf; [|discriminate Hc].
       destruct (github.ID inst) as [id|] eqn:Hid; [|discriminate Hc].
       destruct (github.Committer head) as [cm|] eqn:Hcm; [|discriminate Hc].
       destruct (github.HTMLURL r) as [url|] eqn:Hurl; [|discriminate Hc].
       destruct (github.Name cm) as [name|] eqn:Hname; [|discriminate Hc].
       apply Bool.andb_true_iff in Hc. destruct Hc as [Lb La].
       apply Nat.leb_le in Lb, La.
       apply slice_to_Some in Lb, La.
       destruct Lb as [b8 Hb8]. destruct La as [a8 Ha8].
       destruct (pushHandler_returns FS W Cfg
                   {| mailbot.installation := github.GetID (github.Inst ev);
                      mailbot.repo := github.GetFullName (github.Repo ev) |}
                   ev p inst id head cm name r url b a rf
                   Hinst Hid Hhead Hcm Hname Hrepo Hurl Hb Ha Hrf)
         as (err & p1 & Hpush).
       revert H. cbv beta iota zeta delta [bind ret].
       rewrite Hpush. unfold_effects. rewrite Hb, Ha. tidy.
       rewrite Hb8, Ha8.
       destruct err; cases; discriminate. }
  all: unfold_effects; cases; discriminate.
Qed.

Lemma panic_needs_incomplete_push_witness :
  exists payload ev,
    mailbot.ValidatePayload (fake.world fake_env.setup "persist")
      (fake.signed "s3cret" "push" "deleted") (WebhookSecret fake.Cfg) = inl payload
    /\ mailbot.ParseWebHook (fake.world fake_env.setup "persist")
         (X_GitHub_Event (fake.signed "s3cret" "push" "deleted")) payload
       = inl (github.Push ev)
    /\ complete ev = false.
Proof.
  exact (panic_needs_incomplete_push fake.Disk (fake.world fake_env.setup "persist")
           fake.Cfg (fake.signed "s3cret" "push" "deleted") (start [])
           "runtime error: invalid memory address or nil pointer dereference"
           ltac:(vm_compute; reflexivity)).
Defined.

(** Reading the configuration changes the log only. *)
Lemma getConfig_frame (FS : Type) (W : mailbot.World FS) (gitDir : string)
      (p : Proc FS) :
  let p' := snd (config.getConfig (mailbot.toml_Decode W) (mailbot.GitShow W) gitDir p) in
  fs p' = fs p /\ status p' = status p /\ body p' = body p
  /\ stdout p' = stdout p /\ execs p' = execs p /\ db p' = db p.
Proof.
  unfold config.getConfig, config.parseConfig. unfold_effects. cases.
  all: repeat split; reflexivity.
Qed.

(** X15. A push whose payload has no head commit (a deleted branch) gets
    no answer: once the mirror is synchronised and its configuration is
    read, the handler panics on the nil head commit.  By then the mirror
    has been updated, and nothing else has happened: no notifier run, no
    status or body written, no push recorded. *)
Theorem push_without_head_commit_panics :
  forall (FS : Type) (W : mailbot.World FS) (Cfg : AppConfig) (req : Request)
         (disk disk' : FS) (payload gitDir : string) (ev : github.PushEvent)
         (inst : github.Installation) (id : Z) (c : config.CommitEmailConfig),
    mailbot.ValidatePayload W req (WebhookSecret Cfg) = inl payload ->
    mailbot.ParseWebHook W (X_GitHub_Event req) payload = inl (github.Push ev) ->
    github.Inst ev = Some inst ->
    github.ID inst = Some id ->
    mailbot.ghinstallation_New W (AppId Cfg) id (AppPrivateKey Cfg) = None ->
    mailbot.SyncRepo W id (github.Repo ev) disk = ((gitDir, None), disk') ->
    fst (config.getConfig (mailbot.toml_Decode W) (mailbot.GitShow W) gitDir
           (start disk')) = Returns (c, None) ->
    github.Head ev = None ->
    exists p',
      mailbot.githubEventHandler W Cfg req (start disk)
      = (Panics "runtime error: invalid memory address or nil pointer dereference", p')
      /\ fs p' = disk' /\ status p' = None /\ body p' = ""
      /\ execs p' = [] /\ db p' = [].
Proof.
  intros FS W Cfg req disk disk' payload gitDir ev inst id c
         Hval Hparse Hinst Hid Hnew Hsync Hcfg Hhead.
  pose proof (getConfig_frame FS W gitDir (start disk')) as Hframe.
  unfold mailbot.githubEventHandler, mailbot.githubPushHandler.
  rewrite Hval, Hparse. unfold start in *.
  cbv beta iota zeta delta [bind ret deref on_fs panic].
  rewrite Hinst. tidy. rewrite Hid. tidy. rewrite Hnew. tidy.
  rewrite Hsync. tidy.
  destruct (config.getConfig (mailbot.toml_Decode W) (mailbot.GitShow W) gitDir
              (mkProc disk' None "" [] "" [] []))
    as [[[c' e]|why] p2]; cbn [fst snd] in Hcfg, Hframe;
    [|discriminate Hcfg].
  injection Hcfg as -> ->. rewrite Hhead. tidy.
  eexists. split; [reflexivity|].
  cbn [fs status body stdout execs db] in Hframe. tauto.
Qed.

Lemma push_without_head_commit_panics_witness :
  exists p',
    mailbot.githubEventHandler (fake.world fake_env.setup "persist") fake.Cfg
      (fake.signed "s3cret" "push" "deleted") (start [])
    = (Panics "runtime error: invalid memory address or nil pointer dereference", p')
    /\ fs p' = [("persist/repos/github.com/octo/demo",
                 fake.Mirror "octo/demo" (Some "html"))]
    /\ status p' = None /\ body p' = "" /\ execs p' = [] /\ db p' = [].
Proof.
  exact (push_without_head_commit_panics fake.Disk
           (fake.world fake_env.setup "persist") fake.Cfg
           (fake.signed "s3cret" "push" "deleted") []
           [("persist/repos/github.com/octo/demo",
             fake.Mirror "octo/demo" (Some "html"))]
           "deleted" "persist/repos/github.com/octo/demo" fake_env.deleted_branch
           {| github.ID := Some 7%Z; github.Account := None |} 7%Z
           {| config.MailingList := "commits@example.org"; config.Format := "html" |}
           ltac:(vm_compute; reflexivity) eq_refl eq_refl eq_refl eq_refl
           eq_refl eq_refl eq_refl).
Defined.

(** ** The earlier revision: signatures *)

Lemma take_all (n : N) (s : string) :
  (N.of_nat (String.length s) <= n)%N -> gostrings.take n s = s.
Proof.
  revert n. induction s as [|c s IH]; intros n Hn; [reflexivity|].
  cbn [gostrings.take]. cbn [String.length] in Hn.
  destruct (N.eqb_spec n 0) as [->|Hne]; [lia|].
  rewrite IH by lia. reflexivity.
Qed.

(** X16. Signing and checking agree: a body of at most one mebibyte sent
    with the header "sha256=" followed by the hex digits of its
    HMAC-SHA256 under the secret passes the check of the earlier
    handler, whatever the body and the secret are. *)
Theorem signed_request_passes :
  forall (secret body : string),
    (N.of_nat (String.length body) <= legacy.maxBody)%N ->
    legacy.authenticate secret
      ("sha256=" +++ hex.EncodeToString (hmac.Sum secret body)) body
    = inl tt.
Proof.
  intros secret body Hlen.
  pose proof (authenticate_signed secret body) as H.
  rewrite (take_all _ _ Hlen) in H. exact H.
Qed.

Lemma signed_request_passes_witness :
  legacy.authenticate "s3cret"
    ("sha256=" +++ hex.EncodeToString (hmac.Sum "s3cret" "{}")) "{}"
  = inl tt.
Proof.
  exact (signed_request_passes "s3cret" "{}" ltac:(vm_compute; discriminate)).
Defined.

(** ** The earlier revision: which git commands are run *)

(** X17. What [syncRepo] asks of git, by the answer of [os.Stat].  When
    the mirror directory does not exist it clones: a clone that failed is
    the only command and its error is the error of the call; after a
    clone that succeeded it fetches, and the result of the fetch is the
    result of the call.  When the directory exists it only fetches, and
    the result of the fetch is the result of the call.  When the path is
    a file, or cannot be examined, git is not run and the call fails.  The
    call succeeds only when its last command was a fetch.  (Keeping the
    list of commands does not change what the call does.) *)
Theorem syncRepo_commands :
  forall (FS : Type) (W : legacy.World FS) (gitDir url : string)
         (p : Proc (traced.Disk FS)),
    let r := legacy.syncRepo (traced.world W) gitDir url p in
    fst r = fst (legacy.syncRepo W gitDir url (traced.forget p))
    /\ traced.forget (snd r) = snd (legacy.syncRepo W gitDir url (traced.forget p))
    /\ exists new,
        traced.commands (snd r) = traced.commands p ++ new
        /\ match legacy.Stat W (fst (fs p)) gitDir with
           | legacy.NotExist =>
               match legacy.gitClone W url gitDir (traced.forget p) with
               | (Returns (Some err), _) =>
                   new = [traced.clone url gitDir] /\ fst r = Returns (Some err)
               | (Returns None, p1) =>
                   new = [traced.clone url gitDir; traced.fetch gitDir]
                   /\ fst r
                      = fst (legacy.gitFetch W gitDir
                               (snd (log (Printf ("Cloned " +++ url +++ " to "
                                                  +++ gitDir)) p1)))
               | (Panics _, _) => False
               end
           | legacy.FileInfo true =>
               new = [traced.fetch gitDir]
               /\ fst r = fst (legacy.gitFetch W gitDir (traced.forget p))
           | legacy.FileInfo false =>
               new = []
               /\ fst r = Returns (Some (errorString
                                           (gitDir +++ " exists and is not a directory")))
           | legacy.StatError err => new = [] /\ fst r = Returns (Some err)
           end
        /\ (fst r = Returns None ->
            exists front, new = front ++ [traced.fetch gitDir]).
Proof.
  intros FS W gitDir url p. cbv zeta.
  remember (legacy.syncRepo (traced.world W) gitDir url p) as r eqn:Hr.
  remember (legacy.syncRepo W gitDir url (traced.forget p)) as r0 eqn:Hr0.
  revert Hr Hr0.
  unfold legacy.syncRepo, legacy.gitClone, legacy.gitFetch, legacy.runGitCmd,
    traced.forget, traced.commands, traced.clone, traced.fetch.
  unfold_effects. cbn [traced.world legacy.Stat legacy.git legacy.Quote fs].
  destruct p as [[disk tr] st bd lg so ex d]. cbn [fs fst snd].
  destruct (legacy.Stat W disk gitDir) as [|e|[|]]; tidy.
  - destruct (legacy.git W gitDir ["clone"; "--bare"; "--quiet"; url; gitDir] disk)
      as [[out [e|]] disk1]; tidy.
    + destruct e; intros -> ->; tidy; (split; [reflexivity|]);
        (split; [reflexivity|]); eexists; (split; [reflexivity|]);
        (split; [split; reflexivity|discriminate]).
    + destruct (legacy.git W gitDir ["fetch"; "--quiet"; "--force"; "origin"; "*:*"]
                  disk1) as [[out' [e|]] disk2]; tidy.
      * destruct e; intros -> ->; tidy; (split; [reflexivity|]);
          (split; [reflexivity|]); eexists;
          (split; [rewrite <- app_assoc; reflexivity|]);
          (split; [split; reflexivity|discriminate]).
      * intros -> ->; tidy. split; [reflexivity|]. split; [reflexivity|].
        eexists. split; [rewrite <- app_assoc; reflexivity|].
        split; [split; reflexivity|]. intros _.
        exists [(gitDir, ["clone"; "--bare"; "--quiet"; url; gitDir])]. reflexivity.
  - intros -> ->; tidy. split; [reflexivity|]. split; [reflexivity|].
    exists []. rewrite app_nil_r. repeat split; discriminate.
  - destruct (legacy.git W gitDir ["fetch"; "--quiet"; "--force"; "origin"; "*:*"]
                disk) as [[out' [e|]] disk2]; tidy.
    + destruct e; intros -> ->; tidy; (split; [reflexivity|]);
        (split; [reflexivity|]); eexists; (split; [reflexivity|]);
        (split; [split; reflexivity|discriminate]).
    + intros -> ->; tidy. split; [reflexivity|]. split; [reflexivity|].
      eexists. split; [reflexivity|]. split; [split; reflexivity|].
      intros _. exists []. reflexivity.
  - intros -> ->; tidy. split; [reflexivity|]. split; [reflexivity|].
    exists []. rewrite app_nil_r. repeat split; discriminate.
Qed.

(** X18. The earlier push handler runs the notifier at most once, and
    only on a mirror it has just brought up to date: the git commands that
    precede a run end with a fetch of the mirror and the reading of its
    configuration at HEAD, in this order, with at most a clone before
    them, and the run has GIT_DIR set to that same mirror.  (Keeping the
    list of commands does not change what the handler does.) *)
Theorem notifier_runs_on_fetched_mirror :
  forall (FS : Type) (W : legacy.World FS) (G : legacy.Globals)
         (ev : legacy.GithubPushEvent) (p : Proc (traced.Disk FS)),
    let r := legacy.githubPushHandler (traced.world W) G ev p in
    (fst r = fst (legacy.githubPushHandler W G ev (traced.forget p))
     /\ traced.forget (snd r)
        = snd (legacy.githubPushHandler W G ev (traced.forget p)))
    /\ (execs (snd r) = execs p
        \/ exists g cmd front,
            legacy.Generic ev = Some g
            /\ execs (snd r) = execs p ++ [cmd]
            /\ traced.commands (snd r)
               = traced.commands p ++ front
                 ++ [traced.fetch (repoDir (legacy.persistPath G)
                                           (legacy.FullName (legacy.Repository g)));
                     traced.show (repoDir (legacy.persistPath G)
                                          (legacy.FullName (legacy.Repository g)))]
            /\ (front = []
                \/ front = [traced.clone (legacy.CloneUrl (legacy.Repository g))
                              (repoDir (legacy.persistPath G)
                                       (legacy.FullName (legacy.Repository g)))])
            /\ In ("GIT_DIR=" +++ repoDir (legacy.persistPath G)
                                         (legacy.FullName (legacy.Repository g)))
                  (env cmd)).
Proof.
  intros FS W G ev p. cbv zeta.
  remember (legacy.githubPushHandler (traced.world W) G ev p) as r eqn:Hr.
  remember (legacy.githubPushHandler W G ev (traced.forget p)) as r0 eqn:Hr0.
  revert Hr Hr0.
  unfold legacy.githubPushHandler, legacy.getConfig, legacy.syncRepo,
    legacy.gitClone, legacy.gitFetch, legacy.runGitCmd,
    traced.forget, traced.commands, traced.clone, traced.fetch, traced.show.
  unfold_effects.
  cbn [traced.world legacy.Stat legacy.git legacy.Quote legacy.Decode_config
       legacy.Output legacy.Environ fs].
  destruct p as [[disk tr] st bd lg so ex d]. cbn [fs fst snd].
  generalize (repoDir (legacy.persistPath G)) as dir. intros dir.
  cases.
  all: intros -> ->; tidy.
  all: (split; [split; reflexivity|]).
  all: try (left; reflexivity).
  all: right; do 2 eexists.
  all: repeat rewrite <- app_assoc; cbn [app].
  all: first
         [ exists (@nil (string * list string));
           split; [reflexivity|]; split; [reflexivity|]; split; [reflexivity|];
           split; [left; reflexivity|]
         | eexists [_];
           split; [reflexivity|]; split; [reflexivity|]; split; [reflexivity|];
           split; [right; reflexivity|] ].
  all: apply in_or_app; right; left; reflexivity.
Qed.

(** ** The credential and what the handler shows *)

(** Case analysis along the evaluation, stopping at the calls of the
    notifier. *)
Ltac next_case_before_notifier :=
  match goal with
  | |- context [match ?x with _ => _ end] =>
      first_scrutinee x
        ltac:(fun y => lazymatch y with
                       | mailbot.Output _ _ _ => fail
                       | _ => destruct y eqn:?
                       end)
  end.

Section blind_notifier.
Context {FS : Type}.
Variable W : mailbot.World FS.
Variable Cfg : AppConfig.
Variables pw pw' : string.

(** The notifier answers the same under the two credentials. *)
Hypothesis blind :
  forall plan d,
    mailbot.Output W (notifier_cmd (mailbot.Environ W) pw plan) d
    = mailbot.Output W (notifier_cmd (mailbot.Environ W) pw' plan) d.

Lemma pushHandler_blind (h : mailbot.PushHandler) (ev : github.PushEvent)
      (p : Proc FS) :
  let r := mailbot.githubPushHandler W (with_password Cfg pw) h ev p in
  let r' := mailbot.githubPushHandler W (with_password Cfg pw') h ev p in
  fst r = fst r' /\ fs (snd r) = fs (snd r') /\ status (snd r) = status (snd r')
  /\ body (snd r) = body (snd r') /\ logs (snd r) = logs (snd r')
  /\ stdout (snd r) = stdout (snd r') /\ db (snd r) = db (snd r').
Proof.
  cbv zeta.
  assert (blind' := fun rest gitDir input => blind (rest, gitDir, input)).
  cbn [notifier_cmd] in blind'.
  remember (mailbot.githubPushHandler W (with_password Cfg pw) h ev p) as r eqn:Hr.
  remember (mailbot.githubPushHandler W (with_password Cfg pw') h ev p) as r' eqn:Hr'.
  revert Hr Hr'.
  unfold mailbot.githubPushHandler, config.getConfig, config.parseConfig.
  unfold_effects. cbn [AppId AppPrivateKey SmtpPassword with_password].
  tidy. repeat (next_case_before_notifier; tidy).
  all: try (intros -> ->; tidy; repeat split; reflexivity).
  all: repeat match goal with
         | H : String.eqb pw "" = _ |- _ => rewrite H in blind'; clear H
         | H : String.eqb pw' "" = _ |- _ => rewrite H in blind'; clear H
         end; cbn [app] in blind'.
  all: match goal with
       | |- context [mailbot.Output W ?a ?d] =>
           match goal with
           | |- context [mailbot.Output W ?b d] =>
               tryif constr_eq a b then fail
               else (assert (Hsame : mailbot.Output W a d = mailbot.Output W b d)
                      by first [apply blind' | symmetry; apply blind'];
                     rewrite Hsame; clear Hsame)
           end
       end.
  all: cases; intros -> ->; tidy; repeat split; reflexivity.
Qed.

End blind_notifier.

(** X19. The handler itself never shows the SMTP credential: when the
    notifier answers the same under two credentials, the handler ends the
    same way under both, with the same response (status and body), the
    same log, the same standard output, the same statistics and the same
    file system.  The credential reaches the notifier run and nothing
    else. *)
Theorem credential_stays_out_of_response_and_log :
  forall (FS : Type) (W : mailbot.World FS) (Cfg : AppConfig) (req : Request)
         (disk : FS) (pw pw' : string),
    (forall plan d,
        mailbot.Output W (notifier_cmd (mailbot.Environ W) pw plan) d
        = mailbot.Output W (notifier_cmd (mailbot.Environ W) pw' plan) d) ->
    let r := mailbot.githubEventHandler W (with_password Cfg pw) req (start disk) in
    let r' := mailbot.githubEventHandler W (with_password Cfg pw') req (start disk) in
    fst r = fst r' /\ fs (snd r) = fs (snd r') /\ status (snd r) = status (snd r')
    /\ body (snd r) = body (snd r') /\ logs (snd r) = logs (snd r')
    /\ stdout (snd r) = stdout (snd r') /\ db (snd r) = db (snd r').
Proof.
  intros FS W Cfg req disk pw pw' blind. cbv zeta.
  unfold mailbot.githubEventHandler. cbn [WebhookSecret with_password].
  destruct (mailbot.ValidatePayload W req (WebhookSecret Cfg)) as [payload|e].
  2: { repeat split; reflexivity. }
  destruct (mailbot.ParseWebHook W (X_GitHub_Event req) payload)
    as [[| ev | ev | ev |]|e].
  2: { cbv beta iota zeta delta [bind ret].
       pose proof (pushHandler_blind W Cfg pw pw' blind
                     {| mailbot.installation := github.GetID (github.Inst ev);
                        mailbot.repo := github.GetFullName (github.Repo ev) |}
                     ev (start disk)) as H.
       cbv zeta in H.
       destruct (mailbot.githubPushHandler W (with_password Cfg pw) _ ev (start disk))
         as [o p1].
       destruct (mailbot.githubPushHandler W (with_password Cfg pw') _ ev (start disk))
         as [o' p1'].
       destruct p1 as [f1 s1 b1 l1 so1 e1 d1], p1' as [f2 s2 b2 l2 so2 e2 d2].
       cbn [fst snd fs status body logs stdout db] in H.
       destruct H as (-> & -> & -> & -> & -> & -> & ->).
       destruct o' as [[err|]|why]; unfold_effects; cases; repeat split; reflexivity. }
  all: unfold_effects; tidy; repeat split; reflexivity.
Qed.

Lemma credential_stays_out_of_response_and_log_witness :
  let r := mailbot.githubEventHandler (fake.world fake.setup "persist")
             (with_password fake.Cfg "hunter2")
             (fake.signed "s3cret" "push" "push") (start []) in
  let r' := mailbot.githubEventHandler (fake.world fake.setup "persist")
              (with_password fake.Cfg "swordfish")
              (fake.signed "s3cret" "push" "push") (start []) in
  fst r = fst r' /\ fs (snd r) = fs (snd r') /\ status (snd r) = status (snd r')
  /\ body (snd r) = body (snd r') /\ logs (snd r) = logs (snd r')
  /\ stdout (snd r) = stdout (snd r') /\ db (snd r) = db (snd r').
Proof.
  exact (credential_stays_out_of_response_and_log fake.Disk
           (fake.world fake.setup "persist") fake.Cfg
           (fake.signed "s3cret" "push" "push") [] "hunter2" "swordfish"
           (fun _ _ => eq_refl)).
Defined.

(** ** The earlier revision: when the handler panics *)

Section legacy_returns.
Context {FS : Type}.
Variable W : legacy.World FS.
Variable G : legacy.Globals.

Lemma legacy_syncRepo_returns (gitDir url : string) (p : Proc FS) :
  exists err p', legacy.syncRepo W gitDir url p = (Returns err, p').
Proof.
  unfold legacy.syncRepo, legacy.gitClone, legacy.gitFetch, legacy.runGitCmd.
  unfold_effects. cases. all: eauto.
Qed.

Lemma legacy_pushHandler_returns (ev : legacy.GithubPushEvent)
      (g : legacy.GithubGenericEvent) (p : Proc FS) :
  legacy.Generic ev = Some g ->
  exists err p', legacy.githubPushHandler W G ev p = (Returns err, p').
Proof.
  intros Hg. unfold legacy.githubPushHandler.
  cbv beta iota zeta delta [bind ret deref]. rewrite Hg.
  destruct (legacy_syncRepo_returns
              (repoDir (legacy.persistPath G) (legacy.FullName (legacy.Repository g)))
              (legacy.CloneUrl (legacy.Repository g)) p) as (err & p1 & ->).
  destruct err as [err|]; [eauto|].
  unfold legacy.getConfig, legacy.runGitCmd. unfold_effects. cases. all: eauto.
Qed.

End legacy_returns.

(** X20. The earlier handler panics only on an authenticated push: the
    method is POST, the signature passes the check, the event type is
    push, the payload decodes, and either the payload has neither a
    repository nor a sender (the embedded generic event is then nil) or
    one of the two SHAs has fewer than 8 bytes.  A request that is
    rejected, a ping and any other event are answered; the conversion of
    the payload to a push event never fails. *)
Theorem legacy_panic_needs_incomplete_push :
  forall (FS : Type) (W : legacy.World FS) (G : legacy.Globals) (req : Request)
         (p : Proc FS) (why : string),
    fst (legacy.githubEventHandler W G req p) = Panics why ->
    Method req = "POST"
    /\ legacy.authenticate (legacy.webhookSecret G) (X_Hub_Signature_256 req)
                           (Body req) = inl tt
    /\ X_GitHub_Event req = "push"
    /\ exists ev,
        legacy.Unmarshal_push W (gostrings.take legacy.maxBody (Body req)) = inl ev
        /\ (legacy.Generic ev = None
            \/ (String.length (legacy.Before ev) < 8)%nat
            \/ (String.length (legacy.After ev) < 8)%nat).
Proof.
  intros FS W G req p why.
  unfold legacy.githubEventHandler.
  destruct (String.eqb_spec (Method req) "POST") as [Hm|Hm]; cbn [negb].
  2: { unfold_effects. cases. discriminate. }
  destruct (legacy.authenticate (legacy.webhookSecret G) (X_Hub_Signature_256 req)
              (Body req)) as [[]|msg] eqn:Hauth.
  2: { unfold_effects. cases. discriminate. }
  cbv zeta.
  destruct (String.eqb (X_GitHub_Event req) "") eqn:Hempty.
  { unfold_effects. cases. discriminate. }
  destruct (String.eqb_spec (X_GitHub_Event req) "push") as [Hpush|Hother].
  - rewrite Hpush. cbn [String.eqb Ascii.eqb Bool.eqb].
    destruct (legacy.Unmarshal_push W (gostrings.take legacy.maxBody (Body req)))
      as [ev|err].
    2: { unfold_effects. cases. discriminate. }
    intros H. split; [exact Hm|]. split; [reflexivity|]. split; [reflexivity|].
    exists ev. split; [reflexivity|].
    destruct (legacy.Generic ev) as [g|] eqn:Hg; [|left; reflexivity]. right.
    destruct (Nat.le_gt_cases 8 (String.length (legacy.Before ev))) as [Hb|Hb];
      [|left; exact Hb].
    destruct (Nat.le_gt_cases 8 (String.length (legacy.After ev))) as [Ha|Ha];
      [|right; exact Ha].
    exfalso. apply slice_to_Some in Hb, Ha.
    destruct Hb as [b8 Hb8]. destruct Ha as [a8 Ha8].
    revert H. cbv beta iota zeta delta [bind ret deref log]. cbn [snd].
    match goal with
    | |- context [legacy.githubPushHandler W G ev ?q] =>
        destruct (legacy_pushHandler_returns W G ev g q Hg) as (err & p1 & ->)
    end.
    unfold_effects. rewrite ?Hg, Hb8, Ha8. destruct err; cases; discriminate.
  - destruct (legacy.Unmarshal_generic W (gostrings.take legacy.maxBody (Body req)))
      as [g|err].
    2: { unfold_effects. cases. discriminate. }
    cbv beta iota zeta delta [bind ret log]. cbn [snd].
    destruct (String.eqb (X_GitHub_Event req) "ping").
    + match goal with
      | |- context [legacy.syncRepo W ?d ?u ?q] =>
          destruct (legacy_syncRepo_returns W d u q) as (err & p1 & ->)
      end.
      unfold_effects. destruct err; cases; discriminate.
    + unfold_effects. cases; discriminate.
Qed.

Lemma legacy_panic_needs_incomplete_push_witness :
  Method (fake.signed "s3cret" "push" "short") = "POST"
  /\ legacy.authenticate (legacy.webhookSecret fake.G)
       (X_Hub_Signature_256 (fake.signed "s3cret" "push" "short"))
       (Body (fake.signed "s3cret" "push" "short")) = inl tt
  /\ X_GitHub_Event (fake.signed "s3cret" "push" "short") = "push"
  /\ exists ev,
      legacy.Unmarshal_push (fake.legacy_world fake.setup)
        (gostrings.take legacy.maxBody (Body (fake.signed "s3cret" "push" "short")))
      = inl ev
      /\ (legacy.Generic ev = None
          \/ (String.length (legacy.Before ev) < 8)%nat
          \/ (String.length (legacy.After ev) < 8)%nat).
Proof.
  exact (legacy_panic_needs_incomplete_push fake.Disk (fake.legacy_world fake.setup)
           fake.G (fake.signed "s3cret" "push" "short") (start [])
           "runtime error: slice bounds out of range"
           ltac:(vm_compute; reflexivity)).
Defined.

(** ** The earlier revision: a mirror without configuration *)

(** Synchronising changes the file system and the log only. *)
Lemma legacy_syncRepo_frame (FS : Type) (W : legacy.World FS) (gitDir url : string)
      (p : Proc FS) :
  let p' := snd (legacy.syncRepo W gitDir url p) in
  status p' = status p /\ body p' = body p /\ stdout p' = stdout p
  /\ execs p' = execs p /\ db p' = db p.
Proof.
  unfold legacy.syncRepo, legacy.gitClone, legacy.gitFetch, legacy.runGitCmd.
  unfold_effects. cases. all: repeat split; reflexivity.
Qed.

(** X21. In the earlier revision a push to a repository whose mirror is
    up to date but whose HEAD has no .github/commit-emails.json is
    answered 400: the exit error of [git show] is wrapped three times, by
    [runGitCmd] ("git [show HEAD:.github/commit-emails.json] failed:",
    with the standard error quoted), by the push handler ("no
    commit-emails.json found for" the repository) and by the event handler
    ("push handler failed:").  The last two messages are logged, and the
    notifier is not run. *)
Theorem legacy_missing_config_is_400 :
  forall (FS : Type) (W : legacy.World FS) (G : legacy.Globals) (req : Request)
         (disk disk2 : FS) (p1 : Proc FS) (ev : legacy.GithubPushEvent)
         (g : legacy.GithubGenericEvent) (out state stderr : string),
    Method req = "POST" ->
    legacy.authenticate (legacy.webhookSecret G) (X_Hub_Signature_256 req) (Body req)
    = inl tt ->
    X_GitHub_Event req = "push" ->
    legacy.Unmarshal_push W (gostrings.take legacy.maxBody (Body req)) = inl ev ->
    legacy.Generic ev = Some g ->
    let name := legacy.FullName (legacy.Repository g) in
    let gitDir := repoDir (legacy.persistPath G) name in
    legacy.syncRepo W gitDir (legacy.CloneUrl (legacy.Repository g))
      (snd (log (Printf (name +++ ": push from " +++ legacy.Login (legacy.Sender g)))
                (start disk)))
    = (Returns None, p1) ->
    legacy.git W gitDir ["show"; "HEAD:.github/commit-emails.json"] (fs p1)
    = ((out, Some (ExitError state stderr)), disk2) ->
    let inner := "no commit-emails.json found for " +++ name
                 +++ ": git [show HEAD:.github/commit-emails.json] failed: "
                 +++ state +++ ": " +++ legacy.Quote W stderr in
    legacy.githubEventHandler W G req (start disk)
    = (Returns tt,
       mkProc disk2 (Some 400%Z)
              (("push handler failed: " +++ inner) +++ String "010" "")
              (logs p1
               ++ [Printf ("git_multimail_wrapper.py " +++ legacy.Before ev +++ " "
                           +++ legacy.After ev +++ " " +++ legacy.Ref ev);
                   Printf inner;
                   Printf ("push handler failed: " +++ inner)])
              "" [] []).
Proof.
  intros FS W G req disk disk2 p1 ev g out state stderr
         Hm Hauth Hev Hjson Hg name gitDir Hsync Hshow inner.
  pose proof (legacy_syncRepo_frame FS W gitDir (legacy.CloneUrl (legacy.Repository g))
                (snd (log (Printf (name +++ ": push from "
                                   +++ legacy.Login (legacy.Sender g)))
                          (start disk)))) as Hframe.
  cbv zeta in Hframe. rewrite Hsync in Hframe.
  cbn [snd log start status body stdout execs db] in Hframe.
  destruct Hframe as (Hst & Hbd & Hso & Hex & Hdb).
  unfold legacy.githubEventHandler. rewrite Hm, Hauth, Hev, Hjson.
  cbn [String.eqb Ascii.eqb Bool.eqb negb].
  unfold legacy.githubPushHandler.
  cbv beta iota zeta delta [bind ret deref log] in *. rewrite Hg. cbn [snd] in *.
  fold name. fold gitDir. cbn [String.append] in *. rewrite Hsync.
  unfold legacy.getConfig, legacy.runGitCmd. unfold_effects. tidy.
  rewrite Hshow. tidy. rewrite Hst, Hbd, Hso, Hex, Hdb. tidy.
  subst inner name gitDir. rewrite <- !app_assoc. reflexivity.
Qed.

Lemma legacy_missing_config_is_400_witness :
  legacy.githubEventHandler (fake.legacy_world fake.setup) fake.G
    (fake.signed "s3cret" "push" "bare") (start [])
  = (Returns tt,
     mkProc [("persist/repos/github.com/octo/bare",
              fake.Mirror "https://github.com/octo/bare.git" None)]
            (Some 400%Z)
            ("push handler failed: no commit-emails.json found for octo/bare: git [show HEAD:.github/commit-emails.json] failed: exit status 128: "
             +++ fake.Quote "fatal" +++ String "010" "")
            [Printf "octo/bare: push from ada";
             Printf "Cloned https://github.com/octo/bare.git to persist/repos/github.com/octo/bare";
             Printf ("git_multimail_wrapper.py " +++ fake.sha_a +++ " " +++ fake.sha_b
                     +++ " refs/heads/main");
             Printf ("no commit-emails.json found for octo/bare: git [show HEAD:.github/commit-emails.json] failed: exit status 128: "
                     +++ fake.Quote "fatal");
             Printf ("push handler failed: no commit-emails.json found for octo/bare: git [show HEAD:.github/commit-emails.json] failed: exit status 128: "
                     +++ fake.Quote "fatal")]
            "" [] []).
Proof.
  exact (legacy_missing_config_is_400 fake.Disk (fake.legacy_world fake.setup) fake.G
           (fake.signed "s3cret" "push" "bare") []
           [("persist/repos/github.com/octo/bare",
             fake.Mirror "https://github.com/octo/bare.git" None)]
           (mkProc [("persist/repos/github.com/octo/bare",
                     fake.Mirror "https://github.com/octo/bare.git" None)]
                   None ""
                   [Printf "octo/bare: push from ada";
                    Printf "Cloned https://github.com/octo/bare.git to persist/repos/github.com/octo/bare"]
                   "" [] [])
           (fake.legacy_push "octo/bare" fake.sha_a fake.sha_b)
           (fake.legacy_repo "octo/bare") "" "exit status 128" "fatal"
           eq_refl ltac:(vm_compute; reflexivity) eq_refl eq_refl eq_refl
           ltac:(vm_compute; reflexivity) ltac:(vm_compute; reflexivity)).
Defined.

(** ** The earlier revision: how the signature header is read *)

Section lenient_scan.

Lemma hexString_stops (d tail : string) (c : ascii) :
  fmt.hexDigit c = None ->
  fmt.hexString (hex.EncodeToString d +++ String c tail) = inl d.
Proof.
  intros Hc. induction d as [|b d IH].
  - cbn [hex.EncodeToString String.append fmt.hexString]. rewrite Hc. reflexivity.
  - cbn [hex.EncodeToString String.append fmt.hexString].
    destruct (hex_pair b) as (-> & -> & ->). rewrite IH. reflexivity.
Qed.

Lemma SkipSpace_blanks (n : nat) (c : ascii) (rest : string) (v : N) :
  fmt.hexDigit c = Some v ->
  fmt.SkipSpace (gostrings.repeat_byte " " (N.of_nat n) +++ String c rest)
  = inl (String c rest).
Proof.
  intros Hc. unfold gostrings.repeat_byte. induction n as [|n IH].
  - cbn [N.of_nat N.iter String.append]. exact (SkipSpace_hex c rest v Hc).
  - rewrite Nat2N.inj_succ, N.iter_succ.
    cbn [String.append fmt.SkipSpace]. exact IH.
Qed.

End lenient_scan.

(** X22. The earlier handler reads the signature header leniently: blanks
    between "sha256=" and the digits are skipped, and whatever follows the
    digits, from the first byte that is not a hex digit on, is not read.
    A header padded in these two ways around the right digest passes the
    check like the plain one. *)
Theorem padded_signature_passes :
  forall (secret body tail : string) (n : nat) (c : ascii),
    fmt.hexDigit c = None ->
    legacy.authenticate secret
      ("sha256=" +++ gostrings.repeat_byte " " (N.of_nat n)
       +++ hex.EncodeToString (hmac.Sum secret (gostrings.take legacy.maxBody body))
       +++ String c tail)
      body
    = inl tt.
Proof.
  intros secret body tail n c Hc.
  apply authenticate_iff.
  pose proof (hmac_Sum_not_empty secret (gostrings.take legacy.maxBody body)) as Hne.
  pose proof (hexString_stops
                (hmac.Sum secret (gostrings.take legacy.maxBody body)) tail c Hc) as Hhex.
  destruct (hmac.Sum secret (gostrings.take legacy.maxBody body)) as [|b d];
    [contradiction|].
  unfold fmt.Sscanf_sha256.
  cbn [String.append fmt.advance Ascii.eqb Bool.eqb].
  cbn [hex.EncodeToString String.append] in *.
  rewrite (SkipSpace_blanks n _ _ _ (proj1 (hex_pair b))).
  rewrite Hhex. reflexivity.
Qed.

Lemma padded_signature_passes_witness :
  legacy.authenticate "s3cret"
    ("sha256=" +++ gostrings.repeat_byte " " (N.of_nat 2)
     +++ hex.EncodeToString (hmac.Sum "s3cret" (gostrings.take legacy.maxBody "{}"))
     +++ String "," " and more")
    "{}"
  = inl tt.
Proof.
  exact (padded_signature_passes "s3cret" "{}" " and more" 2 "," eq_refl).
Defined.

(** ** The earlier revision: what is answered *)

(** The earlier push handler leaves the response alone. *)
Lemma legacy_pushHandler_frame (FS : Type) (W : legacy.World FS) (G : legacy.Globals)
      (ev : legacy.GithubPushEvent) (p : Proc FS) :
  status (snd (legacy.githubPushHandler W G ev p)) = status p
  /\ body (snd (legacy.githubPushHandler W G ev p)) = body p.
Proof.
  remember (legacy.githubPushHandler W G ev p) as r eqn:Hr. revert Hr.
  unfold legacy.githubPushHandler, legacy.getConfig, legacy.syncRepo,
    legacy.gitClone, legacy.gitFetch, legacy.runGitCmd.
  unfold_effects. cases. all: intros ->; split; reflexivity.
Qed.

(** X23. From a fresh response, the earlier handler either writes nothing
    (when it returns, on an event other than ping and push, the server
    then answers 200 with an empty body), or answers 200 with the body
    "Pong" or "OK", or answers 400 with one of its messages and a final
    newline: "unexpected method: " and the method, the reason for which
    the signature check failed, "no event type specified", "failed to
    parse payload: ", "syncing repo <quoted URL> failed: " or "push
    handler failed: ", the last three followed by the text of the error.
    (The text of the error may itself hold newlines, as the standard
    error of a failed notifier does.) *)
Theorem legacy_response_is_200_or_400 :
  forall (FS : Type) (W : legacy.World FS) (G : legacy.Globals) (req : Request)
         (disk : FS),
    let p' := snd (legacy.githubEventHandler W G req (start disk)) in
    (status p' = None /\ body p' = "")
    \/ (status p' = Some 200%Z /\ (body p' = "Pong" \/ body p' = "OK"))
    \/ (status p' = Some 400%Z
        /\ exists msg,
            body p' = msg +++ String "010" ""
            /\ (msg = "unexpected method: " +++ Method req
                \/ legacy.authenticate (legacy.webhookSecret G)
                     (X_Hub_Signature_256 req) (Body req) = inr msg
                \/ msg = "no event type specified"
                \/ (exists err, msg = "failed to parse payload: " +++ Error err)
                \/ (exists url err,
                       msg = "syncing repo " +++ legacy.Quote W url +++ " failed: "
                             +++ Error err)
                \/ (exists err, msg = "push handler failed: " +++ Error err))).
Proof.
  intros FS W G req disk. cbv zeta.
  assert (H400 : forall msg (p : Proc FS),
             status p = None -> body p = "" ->
             status (snd (http_Error msg 400 p)) = Some 400%Z
             /\ body (snd (http_Error msg 400 p)) = msg +++ String "010" "").
  { intros msg p Hs Hb. unfold_effects. tidy. rewrite Hs. tidy. rewrite Hb.
    split; reflexivity. }
  unfold legacy.githubEventHandler.
  destruct (negb (String.eqb (Method req) "POST")).
  { right. right.
    destruct (H400 ("unexpected method: " +++ Method req) (start disk) eq_refl eq_refl)
      as [H1 H2].
    split; [exact H1|]. eexists. split; [exact H2|]. left. reflexivity. }
  destruct (legacy.authenticate (legacy.webhookSecret G) (X_Hub_Signature_256 req)
              (Body req)) as [[]|msg] eqn:Hauth.
  2: { right. right. destruct (H400 msg (start disk) eq_refl eq_refl) as [H1 H2].
       split; [exact H1|]. exists msg. split; [exact H2|]. right. left. reflexivity. }
  cbv zeta.
  destruct (String.eqb (X_GitHub_Event req) "") eqn:Hempty.
  { right. right.
    destruct (H400 "no event type specified" (start disk) eq_refl eq_refl) as [H1 H2].
    split; [exact H1|]. eexists. split; [exact H2|]. right. right. left. reflexivity. }
  destruct (String.eqb_spec (X_GitHub_Event req) "push") as [Hpush|Hother].
  - rewrite Hpush. cbn [String.eqb Ascii.eqb Bool.eqb].
    destruct (legacy.Unmarshal_push W (gostrings.take legacy.maxBody (Body req)))
      as [ev|err].
    2: { right. right.
         destruct (H400 ("failed to parse payload: " +++ Error err) (start disk)
                     eq_refl eq_refl) as [H1 H2].
         split; [exact H1|]. eexists. split; [exact H2|].
         right. right. right. left. exists err. reflexivity. }
    cbv beta iota zeta delta [bind ret deref log panic].
    destruct (legacy.Generic ev) as [g|] eqn:Hg; [|left; split; reflexivity].
    cbn [snd].
    match goal with
    | |- context [legacy.githubPushHandler W G ev ?q] =>
        pose proof (legacy_pushHandler_frame FS W G ev q) as (Hs & Hb);
        destruct (legacy.githubPushHandler W G ev q) as [[[err|]|why] p1]
    end; cbn [snd status body start] in Hs, Hb.
    + right. right.
      destruct (H400 ("push handler failed: " +++ Error err) p1 Hs Hb) as (H1 & H2).
      cbn [Error].
      destruct (http_Error ("push handler failed: " +++ Error err) 400 p1)
        as [[[]|why] p2]; cbn [snd status body] in *.
      all: split; [exact H1|]; eexists; split; [exact H2|];
        do 5 right; exists err; reflexivity.
    + right. left. unfold_effects. tidy. rewrite Hs, Hb. tidy.
      rewrite ?Hg. tidy.
      destruct (gostrings.slice_to 8 (legacy.Before ev)); tidy; auto.
      destruct (gostrings.slice_to 8 (legacy.After ev)); tidy; auto.
    + left. split; assumption.
  - destruct (legacy.Unmarshal_generic W (gostrings.take legacy.maxBody (Body req)))
      as [g|err].
    2: { right. right.
         destruct (H400 ("failed to parse payload: " +++ Error err) (start disk)
                     eq_refl eq_refl) as [H1 H2].
         split; [exact H1|]. eexists. split; [exact H2|].
         right. right. right. left. exists err. reflexivity. }
    cbv beta iota zeta delta [bind ret log]. cbn [snd].
    destruct (String.eqb (X_GitHub_Event req) "ping").
    + match goal with
      | |- context [legacy.syncRepo W ?d ?u ?q] =>
          pose proof (legacy_syncRepo_frame FS W d u q) as (Hs & Hb & _);
          destruct (legacy.syncRepo W d u q) as [[[err|]|why] p1]
      end; cbn [snd status body start] in Hs, Hb.
      * right. right. cbn [Error].
        match goal with
        | |- context [http_Error ?m 400 p1] =>
            destruct (H400 m p1 Hs Hb) as (H1 & H2);
            destruct (http_Error m 400 p1) as [[[]|why] p2];
            cbn [snd status body] in *
        end.
        all: split; [exact H1|]; eexists; split; [exact H2|];
          do 4 right; left; eexists; exists err; reflexivity.
      * right. left. unfold_effects. tidy. rewrite Hs, Hb. tidy. auto.
      * left. split; assumption.
    + left. split; reflexivity.
Qed.
